(** * Archivematica Storage Service: locations API resources

  A shallow embedding of [storage_service/locations/api/resources.py]
  (the Tastypie resources for pipelines, spaces, locations and packages)
  together with the parts of [locations.models] and [common.utils] that
  the resources call.  Views are functions from a database state to an
  outcome and a new database state; Python exceptions are an explicit
  outcome. *)

From Stdlib Require Import String Ascii List ZArith Bool Arith Lia.
Import ListNotations.
Open Scope string_scope.

Set Implicit Arguments.
Set Warnings "-register-all".

(** ** Python values and built-ins used by the resources *)

Module Py.

(** The values a JSON request body deserialises to. *)
Inductive pyval : Type :=
| PNone
| PBool (b : bool)
| PInt (z : Z)
| PStr (s : string)
| PList (l : list pyval)
| PDict (d : list (string * pyval)).

(** A [dict] with string keys, first binding wins on lookup. *)
Definition dict := list (string * pyval).

(** [d.get(k, None)] *)
Fixpoint dict_get (k : string) (d : dict) : option pyval :=
  match d with
  | [] => None
  | (k', v) :: d' => if String.eqb k' k then Some v else dict_get k d'
  end.

(** [k in d] *)
Definition dict_has (k : string) (d : dict) : bool :=
  match dict_get k d with Some _ => true | None => false end.

(** [sub in s] for two strings: [sub] occurs somewhere in [s]. *)
Fixpoint str_contains (s sub : string) : bool :=
  String.prefix sub s ||
  match s with
  | EmptyString => false
  | String _ s' => str_contains s' sub
  end.

(** [k in v] for a string [k] and any value a JSON body decodes to: a key
    of a dict, an element of a list, a substring of a string; the other
    values are not containers and the test raises [TypeError], which is
    [None] here. *)
Definition py_in (k : string) (v : pyval) : option bool :=
  match v with
  | PDict d => Some (dict_has k d)
  | PList l =>
      Some (existsb (fun x => match x with
                              | PStr s => String.eqb s k
                              | _ => false
                              end) l)
  | PStr s => Some (str_contains s k)
  | PNone | PBool _ | PInt _ => None
  end.

(** [all(k in v for k in keys)]: the tests run in order and stop at the
    first that fails or raises. *)
Fixpoint py_all_in (keys : list string) (v : pyval) : option bool :=
  match keys with
  | [] => Some true
  | k :: rest =>
      match py_in k v with
      | None => None
      | Some false => Some false
      | Some true => py_all_in rest v
      end
  end.

(** Truth value of an object, as [all([...])] and [if x:] test it. *)
Definition truthy (v : pyval) : bool :=
  match v with
  | PNone => false
  | PBool b => b
  | PInt z => negb (Z.eqb z 0)
  | PStr s => negb (String.eqb s "")
  | PList l => match l with [] => false | _ => true end
  | PDict d => match d with [] => false | _ => true end
  end.

(** [x in (a, b, c)] for a tuple of tags with decidable equality. *)
Definition in_tuple {A : Type} (eqb : A -> A -> bool) (x : A) (t : list A) : bool :=
  existsb (eqb x) t.

(** [sep.join(parts)] *)
Definition join (sep : string) (parts : list string) : string :=
  String.concat sep parts.

(** [s.replace(c, "")] for a one-character [c]. *)
Fixpoint remove_char (c : ascii) (s : string) : string :=
  match s with
  | EmptyString => EmptyString
  | String a s' =>
      if Ascii.eqb a c then remove_char c s' else String a (remove_char c s')
  end.

(** [range(0, stop, step)] for a positive [step]. *)
Definition range0 (stop step : nat) : list nat :=
  map (fun k => k * step) (seq 0 ((stop + step - 1) / step)).

(** [s[i:i+n]] *)
Definition slice (i n : nat) (s : string) : string := String.substring i n s.

(** [s.endswith("/")] *)
Fixpoint ends_with_slash (s : string) : bool :=
  match s with
  | EmptyString => false
  | String a EmptyString => Ascii.eqb a "/"
  | String _ s' => ends_with_slash s'
  end.

(** One round of the loop of [posixpath.join]. *)
Definition os_path_join2 (path b : string) : string :=
  if String.prefix "/" b then b
  else if String.eqb path "" || ends_with_slash path then path ++ b
  else path ++ "/" ++ b.

(** [os.path.join(a, *p)] *)
Definition os_path_join (a : string) (p : list string) : string :=
  fold_left os_path_join2 p a.

(** [s.split(sep)] for a one-character separator: never empty. *)
Fixpoint split (sep : ascii) (s : string) : list string :=
  match s with
  | EmptyString => [EmptyString]
  | String a s' =>
      if Ascii.eqb a sep then EmptyString :: split sep s'
      else match split sep s' with
           | [] => [String a EmptyString]
           | w :: ws => String a w :: ws
           end
  end.

End Py.
Import Py.

(** ** [common.utils]: the sharded path of a package *)

Module Utils.

(** Modelled from the spec: [common.utils.uuid_to_path], which is not
    among the source files.  The identifier's hyphens are dropped, the
    remaining digits are cut into groups of four characters and the groups
    are joined as nested directory segments. *)
Definition uuid_to_path (uuid : string) : string :=
  let uuid' := remove_char "-" uuid in
  let path := map (fun i => slice i 4 uuid') (range0 (String.length uuid') 4) in
  match path with
  | [] => ""
  | a :: p => os_path_join a p
  end.

(** Modelled from the spec: the relative path a package is stored at, the
    sharded prefix followed by the original file or directory name. *)
Definition storage_path (uuid name : string) : string :=
  os_path_join (uuid_to_path uuid) [name].

Definition is_hex (c : ascii) : bool :=
  match c with
  | "0" | "1" | "2" | "3" | "4" | "5" | "6" | "7" | "8" | "9"
  | "a" | "b" | "c" | "d" | "e" | "f"
  | "A" | "B" | "C" | "D" | "E" | "F" => true
  | _ => false
  end%char.

(** Positions of the hyphens in the canonical 8-4-4-4-12 form. *)
Definition hyphen_position (i : nat) : bool :=
  match i with
  | 8 | 13 | 18 | 23 => true
  | _ => false
  end.

Fixpoint uuid_chars (i : nat) (s : string) : bool :=
  match s with
  | EmptyString => true
  | String c s' =>
      (if hyphen_position i then Ascii.eqb c "-" else is_hex c)
      && uuid_chars (S i) s'
  end.

(** A UUID in canonical hyphenated textual form. *)
Definition valid_uuid (u : string) : bool :=
  Nat.eqb (String.length u) 36 && uuid_chars 0 u.

Fixpoint all_chars (p : ascii -> bool) (s : string) : bool :=
  match s with
  | EmptyString => true
  | String c s' => p c && all_chars p s'
  end.

(** A directory segment made of hexadecimal digits only. *)
Definition is_segment (s : string) : bool :=
  negb (String.eqb s "") && all_chars is_hex s.

(** A name without a path separator in it. *)
Definition no_slash (s : string) : bool :=
  all_chars (fun c => negb (Ascii.eqb c "/")) s.

(** The hexadecimal digits of an identifier, in order. *)
Fixpoint hex_digits (s : string) : string :=
  match s with
  | EmptyString => EmptyString
  | String c s' => if is_hex c then String c (hex_digits s') else hex_digits s'
  end.

End Utils.


(** ** HTTP requests and responses ([django.http], [tastypie.http]) *)

Module Http.

Inductive content : Type :=
| Empty
| Text (s : string)
| Json (v : pyval)          (* the value handed to [json.dumps] *)
| FileStream (path : string).

Record HttpResponse : Type := { status_code : Z; body : content }.

Definition HttpNotFound (msg : string) : HttpResponse :=
  {| status_code := 404; body := Text msg |}.
Definition HttpMultipleChoices (msg : string) : HttpResponse :=
  {| status_code := 300; body := Text msg |}.
Definition HttpBadRequest (msg : string) : HttpResponse :=
  {| status_code := 400; body := Text msg |}.
Definition HttpMethodNotAllowed : HttpResponse :=
  {| status_code := 405; body := Empty |}.

(** What a view hands back to the framework: a response object, or a
    response class that was returned without being instantiated (as
    [return http.HttpBadRequest] in [post_detail] does). *)
Inductive view_return : Type :=
| Instance (r : HttpResponse)
| ResponseClass (code : Z).

Definition HttpBadRequest_class : view_return := ResponseClass 400.

Record HttpRequest : Type := {
  method : string;
  raw_body : string;
  CONTENT_TYPE : option string;     (* request.META.get('CONTENT_TYPE') *)
  GET : list (string * string)
}.

End Http.
Import Http.

(** ** Exceptions and the state-and-exception monad of the views *)

(** Modelled from the spec: the error kinds of section 7 that the core
    operations fail with. *)
Inductive error_kind : Type :=
| OriginNotFound | InvalidPairing | ConflictingLocation | BackendUnreachable
| InsufficientSpace | PathConflict | MemberNotFound | ChunkingNotSupported
| Timeout.

Inductive exn : Type :=
| ImmediateHttpResponse (r : HttpResponse)
| DoesNotExist (model : string)
| MultipleObjectsReturned (model : string)
| KeyError (k : string)
| TypeError
| AttributeError
| IndexError
| NameError (name : string)
| NotImplementedError (msg : string)
| StorageException (msg : string)
| CoreError (k : error_kind)
| OtherException (msg : string).

Inductive outcome (A : Type) : Type :=
| Return (a : A)
| Raise (e : exn).
Arguments Return {A} a.
Arguments Raise {A} e.

(** ** [locations.models] *)

Module Space.
Record t : Type := { uuid : string; path : string; staging_path : string }.
End Space.

Module Pipeline.
Record t : Type := { uuid : string; description : string }.
End Pipeline.

Module Location.

(** The purpose tags that [PackageResource.obj_create] compares with.
    [locations.models] is not among the source files, so the strings
    behind the names are parameters of the resource. *)
Record tags : Type := {
  AIP_STORAGE : string;
  DIP_STORAGE : string;
  BACKLOG : string
}.

Record t : Type := {
  uuid : string;
  purpose : string;
  relative_path : string;
  space : Space.t
}.

(** Modelled from the spec: a location lives at its relative path under
    the root path of its space. *)
Definition full_path (self : t) : string :=
  os_path_join (Space.path (space self)) [relative_path self].

End Location.

Module Package.

(** The package type tags that [PackageResource.obj_create] compares
    with; like the purposes they are strings kept in [locations.models]. *)
Record tags : Type := {
  AIP : string;
  AIC : string;
  DIP : string;
  TRANSFER : string
}.

(** Modelled from the spec: the lifecycle statuses of section 4.5. *)
Inductive status_tag : Type := UPLOADED | VERIFIED | DEL_REQ | DELETED | FAIL.

Record t : Type := {
  id : nat;                               (* primary key *)
  uuid : string;
  package_type : string;
  status : status_tag;
  current_location : Location.t;
  current_path : string;
  size : Z;
  pointer_file_path : option string       (* absent for directory packages *)
}.

Definition with_id (n : nat) (p : t) : t :=
  {| id := n; uuid := uuid p; package_type := package_type p;
     status := status p; current_location := current_location p;
     current_path := current_path p; size := size p;
     pointer_file_path := pointer_file_path p |}.

Definition with_status (s : status_tag) (p : t) : t :=
  {| id := id p; uuid := uuid p; package_type := package_type p;
     status := s; current_location := current_location p;
     current_path := current_path p; size := size p;
     pointer_file_path := pointer_file_path p |}.

Definition stored_at (path : string) (pointer : option string) (p : t) : t :=
  {| id := id p; uuid := uuid p; package_type := package_type p;
     status := UPLOADED; current_location := current_location p;
     current_path := path; size := size p;
     pointer_file_path := pointer |}.

End Package.

Module Event.

Inductive type_tag : Type := DELETE.

Inductive status_tag : Type := SUBMITTED | APPROVED | REJECTED.

Definition status_eqb (a b : status_tag) : bool :=
  match a, b with
  | SUBMITTED, SUBMITTED | APPROVED, APPROVED | REJECTED, REJECTED => true
  | _, _ => false
  end.

Definition type_eqb (a b : type_tag) : bool := true.

Record t : Type := {
  package : nat;                          (* foreign key: [Package.id] *)
  event_type : type_tag;
  status : status_tag;
  event_reason : pyval;
  pipeline : Pipeline.t;
  user_id : pyval;
  user_email : pyval;
  store_data : Package.status_tag         (* package status at request time *)
}.

End Event.

(** ** The state views run against: database tables and storage *)

Inductive node : Type := File | Dir.

(** Calls issued to the storage backends ([Space] methods), oldest first. *)
Inductive space_call : Type :=
| move_to_storage_service
    (self : Space.t) (source_path destination_path : string)
    (destination_space : Space.t)
| post_move_to_storage_service (self : Space.t)
| move_from_storage_service
    (self : Space.t) (source_path destination_path : string)
| post_move_from_storage_service (self : Space.t).

Record World : Type := {
  packages : list Package.t;
  events : list Event.t;
  pipelines : list Pipeline.t;
  locations : list Location.t;
  fs : list (string * node);              (* what exists on disk *)
  calls : list space_call
}.

Definition M (A : Type) : Type := World -> outcome A * World.

Definition ret {A : Type} (a : A) : M A := fun w => (Return a, w).

Definition raise {A : Type} (e : exn) : M A := fun w => (Raise e, w).

Definition bind {A B : Type} (c : M A) (k : A -> M B) : M B :=
  fun w =>
    match c w with
    | (Return a, w') => k a w'
    | (Raise e, w') => (Raise e, w')
    end.

Notation "x <- c ;; k" := (bind c (fun x => k))
  (at level 61, c at next level, right associativity).
Notation "c ;;; k" := (bind c (fun _ => k))
  (at level 61, right associativity).

(** [try: c except StorageException: h] *)
Definition try_except_StorageException {A : Type} (c : M A) (h : M A) : M A :=
  fun w =>
    match c w with
    | (Raise (StorageException _), w') => h w'
    | r => r
    end.

(** The result of [Model.objects.get(...)]. *)
Inductive get_result (A : Type) : Type :=
| Found (a : A)
| NoMatch
| ManyMatches.
Arguments Found {A} a.
Arguments NoMatch {A}.
Arguments ManyMatches {A}.

Definition objects_get {A : Type} (p : A -> bool) (rows : list A) : get_result A :=
  match filter p rows with
  | [] => NoMatch
  | [a] => Found a
  | _ => ManyMatches
  end.

(** [d[k]] *)
Definition getitem (d : dict) (k : string) : M pyval :=
  match dict_get k d with
  | Some v => ret v
  | None => raise (KeyError k)
  end.

(** [Pipeline.objects.get(uuid=v)] *)
Definition Pipeline_objects_get (v : pyval) : M Pipeline.t :=
  fun w =>
    let matches :=
      match v with
      | PStr u => objects_get (fun p => String.eqb (Pipeline.uuid p) u) (pipelines w)
      | _ => NoMatch
      end in
    match matches with
    | Found p => (Return p, w)
    | NoMatch => (Raise (DoesNotExist "Pipeline"), w)
    | ManyMatches => (Raise (MultipleObjectsReturned "Pipeline"), w)
    end.

(** [Location.objects.get(uuid=u)] *)
Definition Location_objects_get (u : string) (w : World) : get_result Location.t :=
  objects_get (fun l => String.eqb (Location.uuid l) u) (locations w).

Definition set_packages (ps : list Package.t) (w : World) : World :=
  {| packages := ps; events := events w; pipelines := pipelines w;
     locations := locations w; fs := fs w; calls := calls w |}.

Definition set_events (es : list Event.t) (w : World) : World :=
  {| packages := packages w; events := es; pipelines := pipelines w;
     locations := locations w; fs := fs w; calls := calls w |}.

Definition set_fs (f : list (string * node)) (w : World) : World :=
  {| packages := packages w; events := events w; pipelines := pipelines w;
     locations := locations w; fs := f; calls := calls w |}.

Definition set_calls (cs : list space_call) (w : World) : World :=
  {| packages := packages w; events := events w; pipelines := pipelines w;
     locations := locations w; fs := fs w; calls := cs |}.

(** [package.save()]: update the row with this primary key, insert the
    row when there is none. *)
Definition Package_save (p : Package.t) (w : World) : World :=
  if existsb (fun q => Nat.eqb (Package.id q) (Package.id p)) (packages w)
  then set_packages
         (map (fun q => if Nat.eqb (Package.id q) (Package.id p) then p else q)
              (packages w)) w
  else set_packages (packages w ++ [p]) w.

(** Saving a package that has no primary key yet inserts it under a
    fresh one. *)
Definition next_id (ps : list Package.t) : nat :=
  S (list_max (map Package.id ps)).

Definition Package_insert (p : Package.t) : M Package.t :=
  fun w =>
    let p' := Package.with_id (next_id (packages w)) p in
    (Return p', set_packages (packages w ++ [p']) w).

(** [Event(...).save()] for a new event. *)
Definition Event_save (e : Event.t) (w : World) : World :=
  set_events (events w ++ [e]) w.

(** One call on a space backend. *)
Definition call_space (c : space_call) : M unit :=
  fun w => (Return tt, set_calls (calls w ++ [c]) w).

(** ** Model and utility methods the resources call *)

Definition exists_on_disk (path : string) (w : World) : bool :=
  existsb (fun e => String.eqb (fst e) path) (fs w).

Definition node_at (path : string) (w : World) : option node :=
  match filter (fun e => String.eqb (fst e) path) (fs w) with
  | [] => None
  | (_, n) :: _ => Some n
  end.

(** One round of the loop of [posixpath.normpath] over the components of
    the path. *)
Definition normpath_step (initial_slashes : nat) (new_comps : list string)
    (comp : string) : list string :=
  if String.eqb comp "" || String.eqb comp "." then new_comps
  else if negb (String.eqb comp "..")
          || (Nat.eqb initial_slashes 0
              && match new_comps with [] => true | _ => false end)
          || String.eqb (last new_comps "") ".."
  then new_comps ++ [comp]
  else removelast new_comps.

(** [os.path.normpath]: empty and [.] components are dropped, [..] takes
    back the component before it, one or two leading separators are kept
    (three or more count as one) and the empty result is [.]. *)
Definition normpath (path : string) : string :=
  if String.eqb path "" then "."
  else
    let initial_slashes :=
      if String.prefix "/" path then
        if String.prefix "//" path && negb (String.prefix "///" path)
        then 2 else 1
      else 0 in
    let comps := fold_left (normpath_step initial_slashes) (split "/" path) [] in
    let path := join "/" comps in
    let path := String.concat "" (repeat "/" initial_slashes) ++ path in
    if String.eqb path "" then "." else path.

(** Modelled from the spec: [common.utils.download_file_stream], which is
    not among the source files.  A file that exists is streamed back; a
    path that names nothing on disk, or no path at all, is answered with
    NotFound rather than with an internal error. *)
Definition download_file_stream (filepath : option string) : M HttpResponse :=
  fun w =>
    match filepath with
    | Some p =>
        if exists_on_disk p w
        then (Return {| status_code := 200; body := FileStream p |}, w)
        else (Return (HttpNotFound "File not found"), w)
    | None => (Return (HttpNotFound "File not found"), w)
    end.

(** Modelled from the spec: [Package.full_pointer_file_path].  A package
    stored as a directory has no pointer file. *)
Definition full_pointer_file_path (self : Package.t) : option string :=
  Package.pointer_file_path self.

(** Modelled from the spec: [Package.full_path], the location's path
    followed by the package's relative path. *)
Definition Package_full_path (self : Package.t) : string :=
  normpath (os_path_join (Location.full_path (Package.current_location self))
                         [Package.current_path self]).

(** Modelled from the spec: where the pointer file of a package lives,
    next to the package in its sharded directory. *)
Definition pointer_file_for (self : Package.t) : string :=
  os_path_join (Location.full_path (Package.current_location self))
    [Utils.storage_path (Package.uuid self)
       ("pointer." ++ Package.uuid self ++ ".xml")].

(** Modelled from the spec: the storing half of [intake] (section 4.5),
    which [Package.store_aip] and [Package.backlog_transfer] carry out in
    [locations.models].  The origin must exist; the destination path is the
    sharded path followed by the original name; bytes are moved through the
    space backends; the record is persisted with status Uploaded; a pointer
    file is written when the package is a single file. *)
Definition intake (self : Package.t) (origin_location : Location.t)
    (origin_path : pyval) : M Package.t :=
  fun w =>
    match origin_path with
    | PStr op =>
        let source := normpath (os_path_join (Location.full_path origin_location) [op]) in
        match node_at source w with
        | None => (Raise (CoreError OriginNotFound), w)
        | Some kind =>
            let relative :=
              Utils.storage_path (Package.uuid self) (Package.current_path self) in
            let destination_location := Package.current_location self in
            let destination :=
              normpath (os_path_join (Location.full_path destination_location) [relative]) in
            let pointer :=
              match kind with
              | File => Some (pointer_file_for self)
              | Dir => None
              end in
            let written :=
              match pointer with
              | Some p => [(destination, kind); (p, File)]
              | None => [(destination, kind)]
              end in
            let self' := Package.stored_at relative pointer self in
            let w1 := set_fs (fs w ++ written) w in
            let w2 :=
              set_calls
                (calls w1 ++
                 [move_to_storage_service (Location.space origin_location)
                    source destination (Location.space destination_location);
                  move_from_storage_service (Location.space destination_location)
                    destination destination]) w1 in
            (Return self', Package_save self' w2)
        end
    | _ => (Raise TypeError, w)
    end.

(** Modelled from the spec: [Package.store_aip], the intake of an AIP, AIC
    or DIP into an AIP- or DIP-Storage location. *)
Definition store_aip := intake.

(** Modelled from the spec: [Package.backlog_transfer], the intake of a
    transfer into a Backlog location. *)
Definition backlog_transfer := intake.

(** Failures reported by [bagit] validation. *)
Inductive bagit_error : Type :=
| FileMissing (path : string)
| ChecksumMismatch (path algorithm expected found : string)
| UnexpectedFile (path : string)
| OtherDetail (msg : string).

(** ** Tastypie resources *)

Record Kwargs : Type := { kw_uuid : string; chunk_number : option string }.

(** [data] is whatever the request body decoded to: a JSON object in a
    well-formed request, but any JSON value can arrive. *)
Record Bundle (O : Type) : Type := {
  obj : O;
  data : pyval;
  request : HttpRequest
}.

(** The methods of a [ModelResource] that the custom endpoints rely on.
    A check answers [Some r] when it raises [ImmediateHttpResponse(r)];
    deserialisation answers [None] when it raises. *)
Record Resource (O : Type) : Type := {
  method_check : HttpRequest -> list string -> option HttpResponse;
  is_authenticated : HttpRequest -> option HttpResponse;
  throttle_check : HttpRequest -> option HttpResponse;
  queryset : World -> list O;
  uuid_of : O -> string;
  deserialize : HttpRequest -> string -> string -> option pyval;
  alter_deserialized_detail_data : HttpRequest -> pyval -> option pyval;
  alter_detail_data_to_serialize : HttpRequest -> Bundle O -> Bundle O
}.

Definition build_bundle {O : Type} (o : O) (d : pyval) (r : HttpRequest) : Bundle O :=
  {| obj := o; data := d; request := r |}.

(** [resource.create_response(request, data)] *)
Definition create_response (v : pyval) : HttpResponse :=
  {| status_code := 200; body := Json v |}.

(** [request.META.get('CONTENT_TYPE', 'application/json')] *)
Definition content_type_of (r : HttpRequest) : string :=
  match CONTENT_TYPE r with
  | Some t => t
  | None => "application/json"
  end.

(** The body as the endpoint sees it: when decoding raises, the empty
    list stands in, which contains no key. *)
Definition deserialized_body {O : Type} (resource : Resource O)
    (request : HttpRequest) : pyval :=
  match deserialize resource request (raw_body request) (content_type_of request) with
  | Some d =>
      match alter_deserialized_detail_data resource request d with
      | Some d' => d'
      | None => PList []
      end
  | None => PList []
  end.

(** [_custom_endpoint(expected_methods, required_fields)(func)].  The
    test of the required fields is outside the [try], so a body that is
    not a container makes it raise [TypeError].  [log_throttled_access]
    only touches the throttle cache, which is not part of the state. *)
Definition _custom_endpoint {O : Type}
    (expected_methods : list string) (required_fields : list string)
    (func : Resource O -> HttpRequest -> Bundle O -> Kwargs -> M HttpResponse)
    (resource : Resource O) (request : HttpRequest) (kwargs : Kwargs)
  : M HttpResponse :=
  fun w =>
    match method_check resource request expected_methods with
    | Some r => (Raise (ImmediateHttpResponse r), w)
    | None =>
    match is_authenticated resource request with
    | Some r => (Raise (ImmediateHttpResponse r), w)
    | None =>
    match throttle_check resource request with
    | Some r => (Raise (ImmediateHttpResponse r), w)
    | None =>
    match objects_get (fun o => String.eqb (uuid_of resource o) (kw_uuid kwargs))
                      (queryset resource w) with
    | NoMatch =>
        (Return (HttpNotFound
                   ("Resource with UUID " ++ kw_uuid kwargs ++ " does not exist")), w)
    | ManyMatches =>
        (Return (HttpMultipleChoices
                   "More than one resource is found at this URI."), w)
    | Found o =>
        let deserialized := deserialized_body resource request in
        match py_all_in required_fields deserialized with
        | None => (Raise TypeError, w)
        | Some false =>
            (Return (HttpBadRequest
                       ("All of these fields must be provided: "
                        ++ join ", " required_fields)), w)
        | Some true =>
            let bundle := build_bundle o deserialized request in
            let bundle := alter_detail_data_to_serialize resource request bundle in
            func resource request bundle kwargs w
        end
    end end end end.

(** ** [LocationResource] *)

(** [get_objects] of the unversioned resource. *)
Definition get_objects (space : Space.t) (path : string) : M pyval :=
  raise (NotImplementedError
           "This method should be accessed via a versioned subclass").

(** [request.GET.get('path', '')] *)
Definition GET_path (request : HttpRequest) : string :=
  match filter (fun kv => String.eqb (fst kv) "path") (GET request) with
  | [] => ""
  | (_, v) :: _ => v
  end.

Definition browse_func (self : Resource Location.t) (request : HttpRequest)
    (bundle : Bundle Location.t) (kwargs : Kwargs) : M HttpResponse :=
  let location := obj bundle in
  let path := GET_path request in
  let path := os_path_join (Location.full_path location) [path] in
  objects <- get_objects (Location.space location) path ;;
  ret (create_response objects).

Definition browse := _custom_endpoint ["get"] [] browse_func.

(** [sip_file.get(k, None)] *)
Definition py_get (v : pyval) (k : string) : M pyval :=
  match v with
  | PDict d => ret (match dict_get k d with Some x => x | None => PNone end)
  | _ => raise AttributeError
  end.

(** [os.path.join(a, b)] for a value [b] taken from the request. *)
Definition join_value (a : string) (b : pyval) : M string :=
  match b with
  | PStr s => ret (os_path_join a [s])
  | _ => raise AttributeError
  end.

(** [for x in v] *)
Definition py_iter (v : pyval) : M (list pyval) :=
  match v with
  | PList l => ret l
  | PDict d => ret (map (fun kv => PStr (fst kv)) d)
  | PStr s => ret (map (fun c => PStr (String c EmptyString)) (list_ascii_of_string s))
  | _ => raise TypeError
  end.

Definition files_moved : HttpResponse :=
  create_response
    (PDict [("error", PNone); ("message", PStr "Files moved successfully")]).

(** The loop over [files] of [post_detail], with its early return. *)
Fixpoint move_files (origin_location destination_location : Location.t)
    (files : list pyval) : M view_return :=
  match files with
  | [] => ret (Instance files_moved)
  | sip_file :: rest =>
      source_path <- py_get sip_file "source" ;;
      destination_path <- py_get sip_file "destination" ;;
      if truthy source_path && truthy destination_path then
        let origin_space := Location.space origin_location in
        let destination_space := Location.space destination_location in
        source_path <-
          join_value (Location.relative_path origin_location) source_path ;;
        destination_path <-
          join_value (Location.relative_path destination_location) destination_path ;;
        call_space (move_to_storage_service origin_space source_path
                      destination_path destination_space) ;;;
        call_space (post_move_to_storage_service origin_space) ;;;
        call_space (move_from_storage_service destination_space
                      destination_path destination_path) ;;;
        call_space (post_move_from_storage_service destination_space) ;;;
        move_files origin_location destination_location rest
      else ret HttpBadRequest_class
  end.

(** The origin location named by [data['origin_location']].  [NotFound] is
    not imported by the module, so raising it is a [NameError]. *)
Definition origin_of (origin_uri : pyval) : M Location.t :=
  match origin_uri with
  | PStr uri =>
      match nth_error (split "/" uri) 4 with
      | None => raise (NameError "NotFound")
      | Some origin_uuid =>
          fun w =>
            match Location_objects_get origin_uuid w with
            | Found l => (Return l, w)
            | NoMatch => (Raise (NameError "NotFound"), w)
            | ManyMatches => (Raise (MultipleObjectsReturned "Location"), w)
            end
      end
  | _ => raise AttributeError
  end.

(** [data[k]] on the decoded body: a dict is looked up, a list or a
    string cannot be indexed by a name. *)
Definition data_getitem (data : pyval) (k : string) : M pyval :=
  match data with
  | PDict d => getitem d k
  | _ => raise TypeError
  end.

(** [post_detail].  Both [return http.HttpBadRequest] statements hand
    back the class, not a response built from it. *)
Definition post_detail (self : Resource Location.t) (request : HttpRequest)
    (kwargs : Kwargs) : M view_return :=
  match deserialize self request (raw_body request) "application/json" with
  | None => raise (OtherException "deserialize")
  | Some data =>
  match alter_deserialized_detail_data self request data with
  | None => raise (OtherException "alter_deserialized_detail_data")
  | Some data =>
      fun w =>
        match Location_objects_get (kw_uuid kwargs) w with
        | NoMatch => (Return (Instance (HttpNotFound "")), w)
        | ManyMatches => (Raise (MultipleObjectsReturned "Location"), w)
        | Found destination_location =>
            let required_fields := ["origin_location"; "pipeline"; "files"] in
            match py_all_in required_fields data with
            | None => (Raise TypeError, w)
            | Some false => (Return HttpBadRequest_class, w)
            | Some true =>
                (origin_uri <- data_getitem data "origin_location" ;;
                 origin_location <- origin_of origin_uri ;;
                 files <- data_getitem data "files" ;;
                 files <- py_iter files ;;
                 move_files origin_location destination_location files) w
            end
        end
  end end.

(** ** [PackageResource] *)

Section PackageResource.

(** Methods and constants of [locations.models] that are not among the
    source files. *)
Variable package_tags : Package.tags.
Variable location_tags : Location.tags.
Variable PACKAGE_TYPE_CAN_DELETE : list string.
Variable get_download_path : Package.t -> option string -> M string.
Variable compress_package : Package.t -> M (string * string).
Variable check_fixity : Package.t -> M (pyval * list bagit_error * pyval).
Variable failure_str : bagit_error -> string.        (* [str(failure)] *)
Variable build_related_resource :
  pyval -> HttpRequest -> World -> outcome Location.t.

(** [d.get(k, False)] *)
Definition get_or_False (k : string) (d : dict) : pyval :=
  match dict_get k d with
  | Some v => v
  | None => PBool false
  end.

(** [bundle.data.get(k, False)]: only a dict has the method. *)
Definition data_get_or_False (k : string) (data : pyval) : M pyval :=
  match data with
  | PDict d => ret (get_or_False k d)
  | _ => raise AttributeError
  end.

(** [obj_create].  The call to the parent class saves the hydrated
    object.  The first test looks the type and the purpose up in tuples
    of tags.  The second reads [in (Package.TRANSFER)] and
    [in (Location.BACKLOG)]: the parentheses hold one string each, not a
    tuple, so [in] asks whether the type occurs inside the transfer tag
    and the purpose inside the backlog tag. *)
Definition obj_create (bundle : Bundle Package.t) : M (Bundle Package.t) :=
  o <- Package_insert (obj bundle) ;;
  origin_location_uri <- data_get_or_False "origin_location" (data bundle) ;;
  origin_location <-
    (fun w => (build_related_resource origin_location_uri (request bundle) w, w)) ;;
  origin_path <- data_get_or_False "origin_path" (data bundle) ;;
  let purpose := Location.purpose (Package.current_location o) in
  if in_tuple String.eqb (Package.package_type o)
       [Package.AIP package_tags; Package.AIC package_tags;
        Package.DIP package_tags]
     && in_tuple String.eqb purpose
          [Location.AIP_STORAGE location_tags; Location.DIP_STORAGE location_tags]
  then
    o' <- store_aip o origin_location origin_path ;;
    ret (build_bundle o' (data bundle) (request bundle))
  else if str_contains (Package.TRANSFER package_tags) (Package.package_type o)
          && str_contains (Location.BACKLOG location_tags) purpose
  then
    o' <- backlog_transfer o origin_location origin_path ;;
    ret (build_bundle o' (data bundle) (request bundle))
  else ret (build_bundle o (data bundle) (request bundle)).

(** [Event.objects.filter(package=package, event_type=Event.DELETE,
    status=Event.SUBMITTED).count()] *)
Definition existing_requests (package : Package.t) (w : World) : nat :=
  List.length
    (filter (fun e => Nat.eqb (Event.package e) (Package.id package)
                      && Event.type_eqb (Event.event_type e) Event.DELETE
                      && Event.status_eqb (Event.status e) Event.SUBMITTED)
            (events w)).

Definition delete_request_created : HttpResponse :=
  {| status_code := 202;
     body := Json (PDict [("message", PStr "Delete request created successfully.")]) |}.

Definition delete_request_exists : HttpResponse :=
  {| status_code := 200;
     body := Json (PDict [("error_message",
                           PStr "A deletion request already exists for this AIP.")]) |}.

(** The event built at lines 458-461; the dictionary lookups may raise
    [KeyError] before anything is saved. *)
Definition new_delete_request (package : Package.t) (pipeline : Pipeline.t)
    (request_info : dict) : M Event.t :=
  event_reason <- getitem request_info "event_reason" ;;
  user_id <- getitem request_info "user_id" ;;
  user_email <- getitem request_info "user_email" ;;
  ret {| Event.package := Package.id package;
         Event.event_type := Event.DELETE;
         Event.status := Event.SUBMITTED;
         Event.event_reason := event_reason;
         Event.pipeline := pipeline;
         Event.user_id := user_id;
         Event.user_email := user_email;
         Event.store_data := Package.status package |}.

(** Lines 454-483 of [delete_aip_request]: look for an outstanding
    request, then either record a new one or answer that one exists. *)
Definition submit_deletion (package : Package.t) (pipeline : Pipeline.t)
    (request_info : dict) : M HttpResponse :=
  fun w =>
    if (existing_requests package w <? 1)%nat then
      (delete_request <- new_delete_request package pipeline request_info ;;
       (fun w => (Return tt, Event_save delete_request w)) ;;;
       (fun w => (Return tt,
                  Package_save (Package.with_status Package.DEL_REQ package) w)) ;;;
       ret delete_request_created) w
    else (Return delete_request_exists, w).

(** [delete_aip_request].  [request_info['pipeline']] needs a dict: a
    list or a string that got past the test of the required fields cannot
    be indexed by a name. *)
Definition delete_aip_request_func (self : Resource Package.t)
    (request : HttpRequest) (bundle : Bundle Package.t) (kwargs : Kwargs)
  : M HttpResponse :=
  let request_info := data bundle in
  let package := obj bundle in
  if negb (in_tuple String.eqb (Package.package_type package)
             PACKAGE_TYPE_CAN_DELETE)
  then ret HttpMethodNotAllowed
  else
    match request_info with
    | PDict request_info =>
        pipeline_uuid <- getitem request_info "pipeline" ;;
        pipeline <- Pipeline_objects_get pipeline_uuid ;;
        submit_deletion package pipeline request_info
    | _ => raise TypeError
    end.

Definition delete_aip_request :=
  _custom_endpoint ["post"] ["event_reason"; "pipeline"; "user_id"; "user_email"]
    delete_aip_request_func.

Definition download_request_func (self : Resource Package.t)
    (request : HttpRequest) (bundle : Bundle Package.t) (kwargs : Kwargs)
  : M HttpResponse :=
  let package := obj bundle in
  let lockss_au_number := chunk_number kwargs in
  full_path_temp_dir <-
    try_except_StorageException
      (full_path <- get_download_path package lockss_au_number ;;
       ret (full_path, @None string))
      (r <- compress_package package ;;
       ret (fst r, Some (snd r))) ;;
  download_file_stream (Some (fst full_path_temp_dir)).

Definition download_request := _custom_endpoint ["get"] [] download_request_func.

Definition pointer_file_request_func (self : Resource Package.t)
    (request : HttpRequest) (bundle : Bundle Package.t) (kwargs : Kwargs)
  : M HttpResponse :=
  let pointer_path := full_pointer_file_path (obj bundle) in
  download_file_stream pointer_path.

Definition pointer_file_request :=
  _custom_endpoint ["get"] [] pointer_file_request_func.

(** The three lists under ["failures"]["files"] of the fixity response. *)
Record fixity_files : Type := {
  missing : list pyval;
  changed : list pyval;
  untracked : list pyval
}.

(** The body of the loop over [failures]: three [isinstance] tests one
    after the other. *)
Definition file_failure (files : fixity_files) (failure : bagit_error) : fixity_files :=
  let files :=
    match failure with
    | FileMissing path =>
        let info := PDict [("path", PStr path);
                           ("message", PStr (failure_str failure))] in
        {| missing := missing files ++ [info]; changed := changed files;
           untracked := untracked files |}
    | _ => files
    end in
  let files :=
    match failure with
    | ChecksumMismatch path algorithm expected found =>
        let info := PDict [("path", PStr path);
                           ("expected", PStr expected);
                           ("actual", PStr found);
                           ("hash_type", PStr algorithm);
                           ("message", PStr (failure_str failure))] in
        {| missing := missing files; changed := changed files ++ [info];
           untracked := untracked files |}
    | _ => files
    end in
  match failure with
  | UnexpectedFile path =>
      let info := PDict [("path", PStr path);
                         ("message", PStr (failure_str failure))] in
      {| missing := missing files; changed := changed files;
         untracked := untracked files ++ [info] |}
  | _ => files
  end.

Definition fixity_breakdown (failures : list bagit_error) : fixity_files :=
  fold_left file_failure failures
            {| missing := []; changed := []; untracked := [] |}.

Definition fixity_response (success : pyval) (failures : list bagit_error)
    (message : pyval) : pyval :=
  let files := fixity_breakdown failures in
  PDict [("success", success);
         ("message", message);
         ("failures",
          PDict [("files",
                  PDict [("missing", PList (missing files));
                         ("changed", PList (changed files));
                         ("untracked", PList (untracked files))])])].

Definition check_fixity_request_func (self : Resource Package.t)
    (request : HttpRequest) (bundle : Bundle Package.t) (kwargs : Kwargs)
  : M HttpResponse :=
  r <- check_fixity (obj bundle) ;;
  let '(success, failures, message) := r in
  ret {| status_code := 200;
         body := Json (fixity_response success failures message) |}.

Definition check_fixity_request :=
  _custom_endpoint ["get"] [] check_fixity_request_func.

End PackageResource.

(** The resource classes fix the queryset and the lookup field in their
    [Meta]; the request checks and the serializer come from the
    [ModelResource] they extend, whose data hooks they do not override. *)
Definition PackageResource (base : Resource Package.t) : Resource Package.t :=
  {| method_check := method_check base;
     is_authenticated := is_authenticated base;
     throttle_check := throttle_check base;
     queryset := packages;
     uuid_of := Package.uuid;
     deserialize := deserialize base;
     alter_deserialized_detail_data := fun _ d => Some d;
     alter_detail_data_to_serialize := fun _ b => b |}.

Definition LocationResource (base : Resource Location.t) : Resource Location.t :=
  {| method_check := method_check base;
     is_authenticated := is_authenticated base;
     throttle_check := throttle_check base;
     queryset := locations;
     uuid_of := Location.uuid;
     deserialize := deserialize base;
     alter_deserialized_detail_data := fun _ d => Some d;
     alter_detail_data_to_serialize := fun _ b => b |}.

(** The request passes the three Tastypie checks at the head of a custom
    endpoint. *)
Definition passes_checks {O : Type} (resource : Resource O)
    (request : HttpRequest) (expected_methods : list string) : Prop :=
  method_check resource request expected_methods = None /\
  is_authenticated resource request = None /\
  throttle_check resource request = None.

(** A decoded body that is no container: JSON [null], a number or a
    boolean. *)
Definition not_a_container (v : pyval) : bool :=
  match v with
  | PNone | PBool _ | PInt _ => true
  | PStr _ | PList _ | PDict _ => false
  end.

(** The invariant of the event log: at most one outstanding deletion
    request for a package. *)
Definition at_most_one_submitted (w : World) : Prop :=
  forall p : Package.t, (existing_requests p w <= 1)%nat.

(** ** Deletion requests served side by side

    A request handler touches the database three times, in the order of
    the source: the count at line 455, [delete_request.save()] at line 462
    and [package.save()] at line 466.  Two handlers may take turns between
    these calls. *)

Inductive program_counter : Type :=
| AtCount
| AtSaveEvent
| AtSavePackage
| Done (r : outcome HttpResponse).

Record handler : Type := {
  h_package : Package.t;            (* read by the endpoint wrapper *)
  h_pipeline : Pipeline.t;
  h_info : dict;
  h_pc : program_counter
}.

Definition at_pc (pc : program_counter) (h : handler) : handler :=
  {| h_package := h_package h; h_pipeline := h_pipeline h;
     h_info := h_info h; h_pc := pc |}.

Definition handler_step (h : handler) (w : World) : handler * World :=
  match h_pc h with
  | AtCount =>
      if (existing_requests (h_package h) w <? 1)%nat
      then (at_pc AtSaveEvent h, w)
      else (at_pc (Done (Return delete_request_exists)) h, w)
  | AtSaveEvent =>
      match new_delete_request (h_package h) (h_pipeline h) (h_info h) w with
      | (Return delete_request, w') =>
          (at_pc AtSavePackage h, Event_save delete_request w')
      | (Raise e, w') => (at_pc (Done (Raise e)) h, w')
      end
  | AtSavePackage =>
      (at_pc (Done (Return delete_request_created)) h,
       Package_save (Package.with_status Package.DEL_REQ (h_package h)) w)
  | Done _ => (h, w)
  end.

(** A schedule names, turn by turn, the handler that moves: [false] the
    first, [true] the second. *)
Fixpoint run_schedule (schedule : list bool) (a b : handler) (w : World)
  : handler * handler * World :=
  match schedule with
  | [] => (a, b, w)
  | false :: rest =>
      let '(a', w') := handler_step a w in run_schedule rest a' b w'
  | true :: rest =>
      let '(b', w') := handler_step b w in run_schedule rest a b' w'
  end.

(** One request after the other. *)
Definition serial : list bool := [false; false; false; true; true; true].

(** Both requests count before either saves. *)
Definition racy : list bool := [false; true; false; false; true; true].

Definition start (package : Package.t) (pipeline : Pipeline.t) (info : dict)
  : handler :=
  {| h_package := package; h_pipeline := pipeline; h_info := info;
     h_pc := AtCount |}.

(** ** A concrete deployment, after the integration tests *)

Module Fixture.

(** The tags as [locations.models] spells them; ["AIP"] and ["AS"] are
    what the integration tests send. *)
Definition package_tags : Package.tags :=
  {| Package.AIP := "AIP"; Package.AIC := "AIC"; Package.DIP := "DIP";
     Package.TRANSFER := "transfer" |}.

Definition location_tags : Location.tags :=
  {| Location.AIP_STORAGE := "AS"; Location.DIP_STORAGE := "DS";
     Location.BACKLOG := "BL" |}.

Definition default_space : Space.t :=
  {| Space.uuid := "7d20c992-bc92-4f92-a794-7161ff2cc08b";
     Space.path := "/";
     Space.staging_path := "/var/archivematica/storage_service" |}.

Definition cp_location : Location.t :=
  {| Location.uuid := "e4ae3a52-1f6f-4f3e-a9e9-3a1b1d2f4e01";
     Location.purpose := "CP";
     Location.relative_path := "var/archivematica/sharedDirectory";
     Location.space := default_space |}.

Definition as_location : Location.t :=
  {| Location.uuid := "f0e5b6a2-6a0e-4f4b-8d0e-5b7a6a1c2d02";
     Location.purpose := "AS";
     Location.relative_path := "var/archivematica/sharedDirectory/www/AIPsStore";
     Location.space := default_space |}.

Definition bl_location : Location.t :=
  {| Location.uuid := "0c1d2e3f-4a5b-4c6d-8e7f-8a9b0c1d2e03";
     Location.purpose := "BL";
     Location.relative_path :=
       "var/archivematica/sharedDirectory/www/AIPsStore/transferBacklog";
     Location.space := default_space |}.

Definition pipeline : Pipeline.t :=
  {| Pipeline.uuid := "00000b87-1655-4b7e-bbf8-344b317da334";
     Pipeline.description := "Beefy pipeline" |}.

Definition compressed_name : string :=
  "20200513054116-5658e603-277b-4292-9b58-20bf261c8f88.7z".

Definition uncompressed_name : string :=
  "20200513060703-828c44bb-e631-4137-8638-bda4434218dc".

(** The hydrated package of [test_store_compressed_aip]. *)
Definition compressed_aip (location : Location.t) : Package.t :=
  {| Package.id := 0;
     Package.uuid := "5658e603-277b-4292-9b58-20bf261c8f88";
     Package.package_type := "AIP";
     Package.status := Package.FAIL;
     Package.current_location := location;
     Package.current_path := compressed_name;
     Package.size := 12191;
     Package.pointer_file_path := None |}.

(** The hydrated package of [test_store_uncompressed_aip]. *)
Definition uncompressed_aip (location : Location.t) : Package.t :=
  {| Package.id := 0;
     Package.uuid := "828c44bb-e631-4137-8638-bda4434218dc";
     Package.package_type := "AIP";
     Package.status := Package.FAIL;
     Package.current_location := location;
     Package.current_path := uncompressed_name ++ "/";
     Package.size := 0;
     Package.pointer_file_path := None |}.

(** The shared directory holds both fixtures before they are submitted. *)
Definition world : World :=
  {| packages := [];
     events := [];
     pipelines := [pipeline];
     locations := [cp_location; as_location; bl_location];
     fs := [("/var/archivematica/sharedDirectory/" ++ compressed_name, File);
            ("/var/archivematica/sharedDirectory/" ++ uncompressed_name, Dir)];
     calls := [] |}.

(** The state once the parent class has saved the record of the
    compressed AIP, before it is stored. *)
Definition created_world : World :=
  set_packages [Package.with_id 1 (compressed_aip as_location)] world.

(** The compressed AIP once it is stored. *)
Definition stored_aip : Package.t :=
  {| Package.id := 1;
     Package.uuid := "5658e603-277b-4292-9b58-20bf261c8f88";
     Package.package_type := "AIP";
     Package.status := Package.UPLOADED;
     Package.current_location := as_location;
     Package.current_path :=
       "5658/e603/277b/4292/9b58/20bf/261c/8f88/" ++ compressed_name;
     Package.size := 12191;
     Package.pointer_file_path := None |}.

Definition stored_world : World :=
  {| packages := [stored_aip];
     events := [];
     pipelines := [pipeline];
     locations := [cp_location; as_location; bl_location];
     fs := [];
     calls := [] |}.

Definition client_request (m : string) : HttpRequest :=
  {| method := m; raw_body := ""; CONTENT_TYPE := Some "application/json";
     GET := [] |}.

(** A [ModelResource] with the settings of the [Meta] classes:
    [Authentication()] lets every request in, nothing is throttled, and a
    method outside the allowed ones is refused. *)
Definition model_resource (O : Type) (body : option pyval) : Resource O :=
  {| method_check := fun r allowed =>
       if in_tuple String.eqb (method r) allowed then None
       else Some HttpMethodNotAllowed;
     is_authenticated := fun _ => None;
     throttle_check := fun _ => None;
     queryset := fun _ => [];
     uuid_of := fun _ => "";
     deserialize := fun _ _ _ => body;
     alter_deserialized_detail_data := fun _ d => Some d;
     alter_detail_data_to_serialize := fun _ b => b |}.

(** Related resources are named by URIs such as
    [/api/v2/location/<uuid>/]. *)
Definition build_related_resource (uri : pyval) (request : HttpRequest)
    (w : World) : outcome Location.t :=
  fst (origin_of uri w).

Definition submission (p : Package.t) : Bundle Package.t :=
  {| obj := p;
     data := PDict
               [("origin_location",
                 PStr ("/api/v2/location/" ++ Location.uuid cp_location ++ "/"));
                ("origin_path", PStr (Package.current_path p))];
     request := client_request "put" |}.

Definition delete_body : dict :=
  [("event_reason", PStr "no longer needed");
   ("pipeline", PStr (Pipeline.uuid pipeline));
   ("user_id", PInt 1);
   ("user_email", PStr "archivist@example.org")].

Definition can_delete : list string :=
  [Package.AIP package_tags; Package.AIC package_tags;
   Package.TRANSFER package_tags].

(** The event a deletion request for the stored AIP leaves in the log. *)
Definition delete_event : Event.t :=
  {| Event.package := 1;
     Event.event_type := Event.DELETE;
     Event.status := Event.SUBMITTED;
     Event.event_reason := PStr "no longer needed";
     Event.pipeline := pipeline;
     Event.user_id := PInt 1;
     Event.user_email := PStr "archivist@example.org";
     Event.store_data := Package.UPLOADED |}.

Definition requested_world : World :=
  {| packages := [Package.with_status Package.DEL_REQ stored_aip];
     events := [delete_event];
     pipelines := [pipeline];
     locations := [cp_location; as_location; bl_location];
     fs := [];
     calls := [] |}.

Definition detail (uuid : string) : Kwargs :=
  {| kw_uuid := uuid; chunk_number := None |}.

(** A bulk move whose second entry has no destination. *)
Definition move_body : dict :=
  [("origin_location",
    PStr ("/api/v2/location/" ++ Location.uuid cp_location ++ "/"));
   ("pipeline", PStr ("/api/v2/pipeline/" ++ Pipeline.uuid pipeline ++ "/"));
   ("files",
    PList [PDict [("source", PStr "a.txt"); ("destination", PStr "x/a.txt")];
           PDict [("source", PStr "b.txt")];
           PDict [("source", PStr "c.txt"); ("destination", PStr "x/c.txt")]])].

End Fixture.

(** ** Entries of a bulk move *)

(** The two paths of an entry of [files] that names both. *)
Definition entry_paths (sip_file : pyval) : option (string * string) :=
  match sip_file with
  | PDict d =>
      match dict_get "source" d, dict_get "destination" d with
      | Some (PStr s), Some (PStr t) =>
          if negb (String.eqb s "") && negb (String.eqb t "") then Some (s, t)
          else None
      | _, _ => None
      end
  | _ => None
  end.

(** An entry of [files] without a source or without a destination. *)
Definition lacks_path (sip_file : pyval) : bool :=
  match sip_file with
  | PDict d =>
      match dict_get "source" d, dict_get "destination" d with
      | Some s, Some t => negb (truthy s && truthy t)
      | _, _ => true
      end
  | _ => false
  end.

(** The backend calls that move one file. *)
Definition moves_for (origin_location destination_location : Location.t)
    (paths : string * string) : list space_call :=
  let source_path :=
    os_path_join (Location.relative_path origin_location) [fst paths] in
  let destination_path :=
    os_path_join (Location.relative_path destination_location) [snd paths] in
  [move_to_storage_service (Location.space origin_location) source_path
     destination_path (Location.space destination_location);
   post_move_to_storage_service (Location.space origin_location);
   move_from_storage_service (Location.space destination_location)
     destination_path destination_path;
   post_move_from_storage_service (Location.space destination_location)].

Definition moved (origin_location destination_location : Location.t)
    (entries : list pyval) : list space_call :=
  flat_map (fun e => match entry_paths e with
                     | Some paths => moves_for origin_location destination_location paths
                     | None => []
                     end) entries.

(** ** [PackageResource.extract_file_request] *)

Section ExtractFile.

(** What the endpoint takes from modules that are not among the source
    files: the extractable package types and [Package.full_path],
    [Package.extract_file] of [locations.models], [urllib.unquote], and
    [utils.download_file_stream] called with a temporary directory. *)
Variable PACKAGE_TYPE_CAN_EXTRACT : list string.
Variable full_path : Package.t -> string.
Variable extract_file : Package.t -> string -> M (string * string).
Variable unquote : string -> string.
Variable download_file_stream_from : string -> string -> M HttpResponse.

(** [request.GET.get(k)] *)
Definition GET_get (k : string) (request : HttpRequest) : option string :=
  match filter (fun kv => String.eqb (fst kv) k) (GET request) with
  | [] => None
  | (_, v) :: _ => Some v
  end.

(** [urllib.unquote(None)] fails on [None.split]. *)
Definition extract_file_request_func (self : Resource Package.t)
    (request : HttpRequest) (bundle : Bundle Package.t) (kwargs : Kwargs)
  : M HttpResponse :=
  match GET_get "relative_path_to_file" request with
  | None => raise AttributeError
  | Some relative_path_to_file =>
      let relative_path_to_file := unquote relative_path_to_file in
      let package := obj bundle in
      let local_path := os_path_join (full_path package) [relative_path_to_file] in
      found <-
        (fun w =>
           if exists_on_disk local_path w then (Return (local_path, ""), w)
           else if in_tuple String.eqb (Package.package_type package)
                     PACKAGE_TYPE_CAN_EXTRACT
           then extract_file package relative_path_to_file w
           else (Return ("", ""), w)) ;;
      download_file_stream_from (fst found) (snd found)
  end.

Definition extract_file_request :=
  _custom_endpoint ["get"] [] extract_file_request_func.

End ExtractFile.

(** ** [SpaceResource] *)

Module SpaceApi.

(** What the resource reads of a [Space] record. *)
Record space : Type := { uuid : string; access_protocol : string }.

(** A row of a protocol-specific model: the model it belongs to, the
    space it points at and its own fields. *)
Record protocol_row : Type := {
  row_model : string;
  row_space : string;
  row_fields : dict
}.

(** The tables behind the resource. *)
Record store : Type := {
  spaces : list space;
  protocol_rows : list protocol_row
}.

(** One entry of [constants.PROTOCOL]: the model and the names of its
    fields. *)
Record protocol : Type := { model : string; fields : list string }.

(** [d[k] = v] *)
Fixpoint dict_set (k : string) (v : pyval) (d : dict) : dict :=
  match d with
  | [] => [(k, v)]
  | (k', v') :: d' =>
      if String.eqb k' k then (k', v) :: d' else (k', v') :: dict_set k v d'
  end.


(** [{key: data[key] for key in keys}]: the first missing key raises. *)
Fixpoint collect (keys : list string) (data : dict) : outcome dict :=
  match keys with
  | [] => Return []
  | key :: rest =>
      match dict_get key data with
      | None => Raise (KeyError key)
      | Some v =>
          match collect rest data with
          | Return d => Return (dict_set key v d)
          | Raise e => Raise e
          end
      end
  end.


Section Resource.

(** [constants.PROTOCOL], and what the parent class does with a bundle on
    creation: validate and hydrate it, or refuse it. *)
Variable PROTOCOL : list (string * protocol).
Variable hydrate : dict -> outcome space.

(** [PROTOCOL[key]] *)
Definition PROTOCOL_get (key : pyval) : outcome protocol :=
  match key with
  | PStr name =>
      match filter (fun e => String.eqb (fst e) name) PROTOCOL with
      | [] => Raise (KeyError name)
      | (_, p) :: _ => Return p
      end
  | PList _ | PDict _ => Raise TypeError
  | _ => Raise (KeyError "")
  end.

Definition obj_create (data : dict) (st : store) : outcome space * store :=
  match dict_get "access_protocol" data with
  | None => (Raise (KeyError "access_protocol"), st)
  | Some access_protocol =>
  match PROTOCOL_get access_protocol with
  | Raise e => (Raise e, st)
  | Return p =>
  match collect (fields p) data with
  | Raise e => (Raise e, st)
  | Return fields_dict =>
  match hydrate data with
  | Raise e => (Raise e, st)
  | Return o =>
      (Return o,
       {| spaces := spaces st ++ [o];
          protocol_rows :=
            protocol_rows st ++
            [{| row_model := model p; row_space := uuid o;
                row_fields := fields_dict |}] |})
  end end end end.


End Resource.

End SpaceApi.

(** ** More fixtures *)

Module Scenario.

(** A resource whose queryset holds the same package twice. *)
Definition doubled (base : Resource Package.t) : Resource Package.t :=
  {| method_check := method_check base;
     is_authenticated := is_authenticated base;
     throttle_check := throttle_check base;
     queryset := fun w => (packages w ++ packages w)%list;
     uuid_of := Package.uuid;
     deserialize := deserialize base;
     alter_deserialized_detail_data := fun _ d => Some d;
     alter_detail_data_to_serialize := fun _ b => b |}.

Definition stored_dip : Package.t :=
  {| Package.id := 2;
     Package.uuid := "0e7b8b5a-4c1d-4e2f-9a3b-6c5d4e3f2a10";
     Package.package_type := "DIP";
     Package.status := Package.UPLOADED;
     Package.current_location := Fixture.as_location;
     Package.current_path := "0e7b/8b5a/4c1d/4e2f/9a3b/6c5d/4e3f/2a10/dip";
     Package.size := 10;
     Package.pointer_file_path := None |}.

(** A submission whose package type is the empty string. *)
Definition untyped_package : Package.t :=
  {| Package.id := 0;
     Package.uuid := "5658e603-277b-4292-9b58-20bf261c8f88";
     Package.package_type := "";
     Package.status := Package.FAIL;
     Package.current_location := Fixture.bl_location;
     Package.current_path := Fixture.compressed_name;
     Package.size := 12191;
     Package.pointer_file_path := None |}.

Definition two_packages : World :=
  {| packages := [Fixture.stored_aip; stored_dip];
     events := [];
     pipelines := [Fixture.pipeline];
     locations := [Fixture.cp_location; Fixture.as_location; Fixture.bl_location];
     fs := [("/var/archivematica/sharedDirectory/www/AIPsStore/0e7b/8b5a/4c1d/4e2f/9a3b/6c5d/4e3f/2a10/dip/data/a.txt", File)];
     calls := [] |}.

(** A body that is a list of the four field names rather than a JSON
    object. *)
Definition names_only_body : pyval :=
  PList [PStr "event_reason"; PStr "pipeline"; PStr "user_id"; PStr "user_email"].

Definition unknown_pipeline_body : dict :=
  [("event_reason", PStr "no longer needed");
   ("pipeline", PStr "ffffffff-ffff-4fff-8fff-ffffffffffff");
   ("user_id", PInt 1);
   ("user_email", PStr "archivist@example.org")].

Definition all_movable_body : dict :=
  [("origin_location",
    PStr ("/api/v2/location/" ++ Location.uuid Fixture.cp_location ++ "/"));
   ("pipeline", PStr "/api/v2/pipeline/00000b87-1655-4b7e-bbf8-344b317da334/");
   ("files",
    PList [PDict [("source", PStr "a.txt"); ("destination", PStr "x/a.txt")];
           PDict [("source", PStr "c.txt"); ("destination", PStr "x/c.txt")]])].

Definition short_origin_body : dict :=
  [("origin_location", PStr "/api/v2/location");
   ("pipeline", PStr "/api/v2/pipeline/00000b87-1655-4b7e-bbf8-344b317da334/");
   ("files", PList [])].

Definition stray_entry_body : dict :=
  [("origin_location",
    PStr ("/api/v2/location/" ++ Location.uuid Fixture.cp_location ++ "/"));
   ("pipeline", PStr "/api/v2/pipeline/00000b87-1655-4b7e-bbf8-344b317da334/");
   ("files",
    PList [PDict [("source", PStr "a.txt"); ("destination", PStr "x/a.txt")];
           PStr "b.txt"])].

Definition extract_request (relative : option string) : HttpRequest :=
  {| method := "get"; raw_body := ""; CONTENT_TYPE := None;
     GET := match relative with
            | Some r => [("relative_path_to_file", r)]
            | None => []
            end |}.

Definition PROTOCOL : list (string * SpaceApi.protocol) :=
  [("FS", {| SpaceApi.model := "LocalFilesystem"; SpaceApi.fields := [] |});
   ("S3", {| SpaceApi.model := "S3";
             SpaceApi.fields := ["endpoint_url"; "access_key_id";
                                 "secret_access_key"; "region"; "bucket"] |})].

(** The body of [add_space] in the integration tests. *)
Definition s3_space : dict :=
  [("access_protocol", PStr "S3");
   ("path", PStr "");
   ("staging_path", PStr "/var/archivematica/sharedDirectory/tmp/s3_staging_path");
   ("endpoint_url", PStr "http://minio:9000");
   ("access_key_id", PStr "minio");
   ("secret_access_key", PStr "minio123");
   ("region", PStr "planet-earth");
   ("bucket", PStr "AIPStorage")].

Definition hydrate (data : dict) : outcome SpaceApi.space :=
  match dict_get "access_protocol" data with
  | Some (PStr p) =>
      Return {| SpaceApi.uuid := "6fb34c82-4222-425e-b0ea-30acfd31f52e";
                SpaceApi.access_protocol := p |}
  | _ => Raise (ImmediateHttpResponse (HttpBadRequest "access_protocol"))
  end.

Definition empty_store : SpaceApi.store :=
  {| SpaceApi.spaces := []; SpaceApi.protocol_rows := [] |}.

End Scenario.
Example uuid_to_path_compressed_fixture :
Utils.uuid_to_path "5658e603-277b-4292-9b58-20bf261c8f88"
= "5658/e603/277b/4292/9b58/20bf/261c/8f88".
Proof. reflexivity. Qed.

Example storage_path_uncompressed_fixture :
Utils.storage_path "828c44bb-e631-4137-8638-bda4434218dc"
  "20200513060703-828c44bb-e631-4137-8638-bda4434218dc"
= "828c/44bb/e631/4137/8638/bda4/4342/18dc/20200513060703-828c44bb-e631-4137-8638-bda4434218dc".
Proof. reflexivity. Qed.

(** ** The sharded path *)

Lemma hex_not_hyphen (c : ascii) :
  Utils.is_hex c = true -> Ascii.eqb c "-" = false.
Proof.
  destruct c as [[] [] [] [] [] [] [] []]; simpl; congruence.
Qed.

Lemma hex_not_slash (c : ascii) :
  Utils.is_hex c = true -> c <> "/"%char.
Proof.
  intros H ->. discriminate H.
Qed.

Lemma remove_hyphens_hex_digits (s : string) :
  forall i, Utils.uuid_chars i s = true ->
            Py.remove_char "-" s = Utils.hex_digits s.
Proof.
  induction s as [|c s IH]; intros i H; [reflexivity|].
  cbn [Utils.uuid_chars] in H. apply andb_prop in H. destruct H as [Hc Hs].
  cbn [Py.remove_char Utils.hex_digits]. rewrite (IH _ Hs).
  destruct (Utils.hyphen_position i).
  - apply Ascii.eqb_eq in Hc. subst c. reflexivity.
  - rewrite Hc, (hex_not_hyphen _ Hc). reflexivity.
Qed.

Lemma hex_digits_hex (c : ascii) (s : string) :
  Utils.is_hex c = true ->
  Utils.hex_digits (String c s) = String c (Utils.hex_digits s).
Proof. intros H. cbn [Utils.hex_digits]. rewrite H. reflexivity. Qed.

Lemma hex_digits_hyphen (s : string) :
  Utils.hex_digits (String "-" s) = Utils.hex_digits s.
Proof. reflexivity. Qed.

Lemma hex_digits_all_hex (s : string) :
  Utils.all_chars Utils.is_hex (Utils.hex_digits s) = true.
Proof.
  induction s as [|c s IH]; [reflexivity|].
  cbn [Utils.hex_digits]. destruct (Utils.is_hex c) eqn:E; [|exact IH].
  cbn [Utils.all_chars]. rewrite E. exact IH.
Qed.

Ltac peel_uuid u Hl Hc :=
  destruct u as [|?c u]; [discriminate Hl|];
  cbn [Utils.uuid_chars Utils.hyphen_position] in Hc;
  apply andb_prop in Hc; destruct Hc as [?Hd Hc].

Lemma valid_uuid_digits (u : string) :
  Utils.valid_uuid u = true -> String.length (Utils.hex_digits u) = 32%nat.
Proof.
  unfold Utils.valid_uuid. intros Hv.
  apply andb_prop in Hv. destruct Hv as [Hl Hc].
  do 36 (peel_uuid u Hl Hc).
  destruct u as [|? ?]; [clear Hl Hc|discriminate Hl].
  repeat match goal with
         | H : Ascii.eqb _ "-" = true |- _ => apply Ascii.eqb_eq in H; subst
         end.
  repeat (rewrite hex_digits_hyphen || rewrite hex_digits_hex by assumption).
  reflexivity.
Qed.

Lemma string_app_assoc (a b c : string) : ((a ++ b) ++ c = a ++ (b ++ c))%string.
Proof. induction a as [|x a IH]; cbn; [reflexivity|now rewrite IH]. Qed.

Lemma ends_with_slash_app (a b : string) :
  b <> "" -> Py.ends_with_slash (a ++ b) = Py.ends_with_slash b.
Proof.
  intros Hb. induction a as [|x a IH]; [reflexivity|].
  cbn [append Py.ends_with_slash]. rewrite IH.
  destruct (a ++ b)%string eqn:E; [|reflexivity].
  destruct a; cbn in E; [contradiction|discriminate].
Qed.

Lemma segment_no_trailing_slash (s : string) :
  Utils.all_chars Utils.is_hex s = true -> Py.ends_with_slash s = false.
Proof.
  induction s as [|c s IH]; [reflexivity|].
  cbn [Utils.all_chars]. intros H. apply andb_prop in H. destruct H as [Hc Hs].
  cbn [Py.ends_with_slash]. destruct s as [|d s]; [|exact (IH Hs)].
  apply Ascii.eqb_neq. now apply hex_not_slash.
Qed.

Lemma segment_relative (s : string) :
  Utils.is_segment s = true -> String.prefix "/" s = false.
Proof.
  unfold Utils.is_segment. intros H. apply andb_prop in H. destruct H as [_ H].
  destruct s as [|c s]; [reflexivity|].
  cbn [Utils.all_chars] in H. apply andb_prop in H. destruct H as [Hc _].
  cbn [String.prefix]. destruct (ascii_dec "/" c) as [E|E]; [|reflexivity].
  subst c. discriminate Hc.
Qed.

Lemma os_path_join2_relative (path b : string) :
  path <> "" -> Py.ends_with_slash path = false -> String.prefix "/" b = false ->
  Py.os_path_join2 path b = (path ++ "/" ++ b)%string.
Proof.
  intros Hp He Hb. unfold Py.os_path_join2. rewrite Hb, He.
  apply String.eqb_neq in Hp. rewrite Hp. reflexivity.
Qed.

Lemma os_path_join_segments (p : list string) :
  forall acc b,
    acc <> "" -> Py.ends_with_slash acc = false ->
    forallb Utils.is_segment (b :: p) = true ->
    Py.os_path_join acc (b :: p) = (acc ++ "/" ++ String.concat "/" (b :: p))%string.
Proof.
  induction p as [|c p IH]; intros acc b Ha He Hs;
    cbn [forallb] in Hs; apply andb_prop in Hs; destruct Hs as [Hb Hs].
  - cbn. now rewrite os_path_join2_relative by auto using segment_relative.
  - change (Py.os_path_join acc (b :: c :: p))
      with (Py.os_path_join (Py.os_path_join2 acc b) (c :: p)).
    rewrite os_path_join2_relative by auto using segment_relative.
    assert (Hb' : Utils.is_segment b = true) by exact Hb.
    unfold Utils.is_segment in Hb. apply andb_prop in Hb. destruct Hb as [Hne Hhex].
    assert (Hbne : b <> "").
    { intros ->. discriminate Hne. }
    rewrite IH.
    + change (String.concat "/" (b :: c :: p))
        with (b ++ "/" ++ String.concat "/" (c :: p))%string.
      rewrite !string_app_assoc. reflexivity.
    + destruct acc; [contradiction|discriminate].
    + rewrite ends_with_slash_app.
      * change ("/" ++ b)%string with (String "/" b).
        cbn [Py.ends_with_slash]. destruct b; [contradiction|].
        now apply segment_no_trailing_slash.
      * discriminate.
    + exact Hs.
Qed.

Lemma concat_segments_shape (l : list string) :
  l <> [] -> forallb Utils.is_segment l = true ->
  String.concat "/" l <> "" /\ Py.ends_with_slash (String.concat "/" l) = false.
Proof.
  induction l as [|x l IH]; [contradiction|]. intros _ H.
  cbn [forallb] in H. apply andb_prop in H. destruct H as [Hx Hl].
  unfold Utils.is_segment in Hx. apply andb_prop in Hx. destruct Hx as [Hne Hhex].
  assert (Hxne : x <> "") by (intros ->; discriminate Hne).
  destruct l as [|y l].
  - cbn [String.concat]. split; [exact Hxne|now apply segment_no_trailing_slash].
  - destruct IH as [IH1 IH2]; [discriminate|exact Hl|].
    change (String.concat "/" (x :: y :: l))
      with (x ++ String "/" (String.concat "/" (y :: l)))%string.
    split.
    + destruct x; [contradiction|discriminate].
    + rewrite ends_with_slash_app by discriminate.
      cbn [Py.ends_with_slash].
      destruct (String.concat "/" (y :: l)); [contradiction|exact IH2].
Qed.

Lemma concat_snoc (sep : string) (l : list string) (x : string) :
  l <> [] ->
  String.concat sep (l ++ [x]) = (String.concat sep l ++ sep ++ x)%string.
Proof.
  induction l as [|a l IH]; [contradiction|]. intros _.
  destruct l as [|b l]; [reflexivity|].
  change (String.concat sep ((a :: b :: l) ++ [x]))
    with (a ++ sep ++ String.concat sep ((b :: l) ++ [x]))%string.
  rewrite IH by discriminate.
  change (String.concat sep (a :: b :: l))
    with (a ++ sep ++ String.concat sep (b :: l))%string.
  now rewrite !string_app_assoc.
Qed.

Ltac peel_digits h Hl Hc :=
  destruct h as [|?c h]; [discriminate Hl|];
  cbn [String.length] in Hl; apply Nat.succ_inj in Hl;
  cbn [Utils.all_chars] in Hc; apply andb_prop in Hc; destruct Hc as [?Hd Hc].

(** Cutting 32 hexadecimal digits into groups of four. *)
Lemma digits_sharding (h : string) :
  String.length h = 32%nat -> Utils.all_chars Utils.is_hex h = true ->
  let segs := map (fun i => Py.slice i 4 h) [0; 4; 8; 12; 16; 20; 24; 28]%nat in
  forallb Utils.is_segment segs = true /\
  Forall (fun s => String.length s = 4%nat) segs /\
  String.concat "" segs = h.
Proof.
  intros Hl Hc.
  do 32 (peel_digits h Hl Hc).
  destruct h as [|? ?]; [clear Hl Hc|discriminate Hl].
  cbn [map Py.slice String.substring].
  split; [|split].
  - cbn. repeat match goal with
                | H : Utils.is_hex _ = true |- _ => rewrite H; clear H
                end.
    reflexivity.
  - repeat constructor.
  - reflexivity.
Qed.

Lemma split_no_slash (a : string) :
  Utils.no_slash a = true -> Py.split "/" a = [a].
Proof.
  unfold Utils.no_slash. induction a as [|c a IH]; [reflexivity|].
  cbn [Utils.all_chars Py.split]. intros H.
  apply andb_prop in H. destruct H as [Hc Ha].
  apply negb_true_iff in Hc. rewrite Hc, (IH Ha). reflexivity.
Qed.

Lemma split_app_slash (a rest : string) :
  Utils.no_slash a = true ->
  Py.split "/" (a ++ String "/" rest) = a :: Py.split "/" rest.
Proof.
  unfold Utils.no_slash. induction a as [|c a IH]; [reflexivity|].
  cbn [Utils.all_chars Py.split append]. intros H.
  apply andb_prop in H. destruct H as [Hc Ha].
  apply negb_true_iff in Hc. rewrite Hc, (IH Ha). reflexivity.
Qed.

Lemma split_concat (l : list string) :
  l <> [] -> forallb Utils.no_slash l = true ->
  Py.split "/" (String.concat "/" l) = l.
Proof.
  induction l as [|x l IH]; [contradiction|]. intros _ H.
  cbn [forallb] in H. apply andb_prop in H. destruct H as [Hx Hl].
  destruct l as [|y l].
  - cbn [String.concat]. now apply split_no_slash.
  - change (String.concat "/" (x :: y :: l))
      with (x ++ String "/" (String.concat "/" (y :: l)))%string.
    rewrite split_app_slash by exact Hx.
    now rewrite IH by (discriminate || exact Hl).
Qed.

Lemma segment_no_slash (s : string) :
  Utils.is_segment s = true -> Utils.no_slash s = true.
Proof.
  unfold Utils.is_segment, Utils.no_slash. intros H.
  apply andb_prop in H. destruct H as [_ H].
  induction s as [|c s IH]; [reflexivity|].
  cbn [Utils.all_chars] in *. apply andb_prop in H. destruct H as [Hc Hs].
  rewrite (IH Hs), andb_true_r. apply negb_true_iff, Ascii.eqb_neq.
  now apply hex_not_slash.
Qed.

Lemma segments_no_slash (l : list string) :
  forallb Utils.is_segment l = true -> forallb Utils.no_slash l = true.
Proof.
  induction l as [|x l IH]; [reflexivity|]. cbn [forallb]. intros H.
  apply andb_prop in H. destruct H as [Hx Hl].
  now rewrite (segment_no_slash _ Hx), (IH Hl).
Qed.

(** C5.  For every UUID in canonical hyphenated form the sharded path is
    made of exactly eight segments of four characters, which are the 32
    hexadecimal digits of the identifier in order; the storage path of a
    package ends with the original file or directory name, unmodified; and
    deriving the path again from the same identifier gives the same path. *)
Theorem uuid_to_path_sharding (u : string) (Hv : Utils.valid_uuid u = true) :
  let segs := map (fun i => Py.slice i 4 (Utils.hex_digits u)) (Py.range0 32 4) in
  Utils.uuid_to_path u = String.concat "/" segs /\
  Py.split "/" (Utils.uuid_to_path u) = segs /\
  length segs = 8%nat /\
  Forall (fun s => String.length s = 4%nat) segs /\
  String.concat "" segs = Utils.hex_digits u /\
  String.length (Utils.hex_digits u) = 32%nat /\
  (forall name, String.prefix "/" name = false ->
     Utils.storage_path u name = String.concat "/" (segs ++ [name])) /\
  (forall name, Utils.no_slash name = true ->
     Py.split "/" (Utils.storage_path u name) = (segs ++ [name])%list) /\
  (forall u', u' = u -> Utils.uuid_to_path u' = Utils.uuid_to_path u).
Proof.
  pose proof (valid_uuid_digits u Hv) as Hlen.
  destruct (digits_sharding (Utils.hex_digits u) Hlen (hex_digits_all_hex u))
    as (Hseg & Hfour & Hcat).
  assert (Hrm : Py.remove_char "-" u = Utils.hex_digits u).
  { unfold Utils.valid_uuid in Hv. apply andb_prop in Hv.
    now apply remove_hyphens_hex_digits with (i := 0%nat). }
  change (Py.range0 32 4) with [0; 4; 8; 12; 16; 20; 24; 28]%nat.
  set (segs := map _ _) in *.
  assert (Hpath : Utils.uuid_to_path u = String.concat "/" segs).
  { unfold Utils.uuid_to_path. rewrite Hrm, Hlen.
    change (Py.range0 32 4) with [0; 4; 8; 12; 16; 20; 24; 28]%nat.
    fold segs. subst segs. cbn [map] in Hseg |- *.
    cbn [forallb] in Hseg. apply andb_prop in Hseg. destruct Hseg as [H0 Hrest].
    rewrite os_path_join_segments.
    - reflexivity.
    - unfold Utils.is_segment in H0. apply andb_prop in H0. destruct H0 as [H0 _].
      intros E. rewrite E in H0. discriminate H0.
    - apply segment_no_trailing_slash.
      unfold Utils.is_segment in H0. apply andb_prop in H0. now destruct H0.
    - exact Hrest. }
  assert (Hjoin : forall name, String.prefix "/" name = false ->
            Utils.storage_path u name = String.concat "/" (segs ++ [name])).
  { intros name Hname. unfold Utils.storage_path. rewrite Hpath.
    destruct (@concat_segments_shape segs) as [Hne Hend]; [discriminate|exact Hseg|].
    cbn [Py.os_path_join fold_left].
    rewrite os_path_join2_relative by assumption.
    rewrite concat_snoc by discriminate. reflexivity. }
  cbv zeta. repeat split; try assumption.
  - rewrite Hpath. apply split_concat; [discriminate|].
    now apply segments_no_slash.
  - intros name Hname. rewrite Hjoin.
    + apply split_concat; [discriminate|].
      rewrite forallb_app, (segments_no_slash _ Hseg). cbn [forallb].
      now rewrite Hname.
    + destruct name as [|c name]; [reflexivity|].
      unfold Utils.no_slash in Hname. cbn [Utils.all_chars] in Hname.
      apply andb_prop in Hname. destruct Hname as [Hc _].
      apply negb_true_iff, Ascii.eqb_neq in Hc.
      cbn [String.prefix]. destruct (ascii_dec "/" c) as [E|E]; [|reflexivity].
      now subst c.
  - now intros u' ->.
Qed.

Lemma uuid_to_path_sharding_witness :
  Utils.valid_uuid "5658e603-277b-4292-9b58-20bf261c8f88" = true /\
  Utils.uuid_to_path "5658e603-277b-4292-9b58-20bf261c8f88"
  = String.concat "/" ["5658"; "e603"; "277b"; "4292"; "9b58"; "20bf"; "261c"; "8f88"].
Proof.
  split; [reflexivity|].
  exact (proj1 (uuid_to_path_sharding "5658e603-277b-4292-9b58-20bf261c8f88" eq_refl)).
Defined.

(** ** The endpoint wrapper *)

Lemma py_in_container (k : string) (v : pyval) :
  not_a_container v = false -> exists b, py_in k v = Some b.
Proof. destruct v; try discriminate; intros _; eexists; reflexivity. Qed.

Lemma py_in_scalar (k : string) (v : pyval) :
  not_a_container v = true -> py_in k v = None.
Proof. destruct v; try discriminate; reflexivity. Qed.

Lemma py_all_in_missing (keys : list string) (v : pyval) (k : string) :
  not_a_container v = false -> In k keys -> py_in k v = Some false ->
  py_all_in keys v = Some false.
Proof.
  intros Hc Hin Hk. induction keys as [|k' keys IH]; [contradiction|].
  cbn [py_all_in]. destruct Hin as [->|Hin].
  - now rewrite Hk.
  - destruct (@py_in_container k' v Hc) as [[|] ->]; [now apply IH|reflexivity].
Qed.

Lemma py_all_in_dict (keys : list string) (d : dict) :
  py_all_in keys (PDict d) = Some (forallb (fun k => dict_has k d) keys).
Proof.
  induction keys as [|k keys IH]; [reflexivity|].
  cbn [py_all_in py_in forallb]. now destruct (dict_has k d).
Qed.

(** C9.  For a request that passes the Tastypie checks of a custom
    endpoint on which fields are required, and whose UUID names a record:
    when the body decodes to [null], a number or a boolean, the test of
    the required fields raises [TypeError] instead of answering
    BadRequest; the wrapped function is not called and the state is
    unchanged.  On the other inputs the endpoint answers as specified:
    NotFound when the UUID names no record, and BadRequest when the body
    cannot be decoded, or is a dict, a list or a string in which a required
    field does not occur; there too the wrapped function is never
    called. *)
Theorem custom_endpoint_rejects
    (O : Type) (resource : Resource O)
    (expected_methods required_fields : list string)
    (request : HttpRequest) (kwargs : Kwargs) (w : World)
    (Hchecks : passes_checks resource request expected_methods) :
  let lookup :=
    objects_get (fun o => String.eqb (uuid_of resource o) (kw_uuid kwargs))
                (queryset resource w) in
  let bad_request :=
    HttpBadRequest ("All of these fields must be provided: "
                    ++ join ", " required_fields) in
  (forall o,
     lookup = Found o -> required_fields <> [] ->
     not_a_container (deserialized_body resource request) = true ->
     forall func,
       _custom_endpoint expected_methods required_fields func resource request kwargs w
       = (Raise TypeError, w)) /\
  (lookup = NoMatch ->
   forall func,
     _custom_endpoint expected_methods required_fields func resource request kwargs w
     = (Return (HttpNotFound ("Resource with UUID " ++ kw_uuid kwargs
                              ++ " does not exist")), w)) /\
  (forall o k,
     lookup = Found o -> In k required_fields ->
     not_a_container (deserialized_body resource request) = false ->
     py_in k (deserialized_body resource request) = Some false ->
     forall func,
       _custom_endpoint expected_methods required_fields func resource request kwargs w
       = (Return bad_request, w)) /\
  (forall o,
     lookup = Found o -> required_fields <> [] ->
     deserialize resource request (raw_body request) (content_type_of request) = None ->
     forall func,
       _custom_endpoint expected_methods required_fields func resource request kwargs w
       = (Return bad_request, w)) /\
  status_code (HttpNotFound "") = 404%Z /\ status_code bad_request = 400%Z.
Proof.
  destruct Hchecks as (Hm & Ha & Ht).
  assert (Hfield : forall o k,
    objects_get (fun o => String.eqb (uuid_of resource o) (kw_uuid kwargs))
                (queryset resource w) = Found o ->
    In k required_fields ->
    not_a_container (deserialized_body resource request) = false ->
    py_in k (deserialized_body resource request) = Some false ->
    forall func,
      _custom_endpoint expected_methods required_fields func resource request kwargs w
      = (Return (HttpBadRequest ("All of these fields must be provided: "
                                 ++ join ", " required_fields)), w)).
  { intros o k Hfound Hin Hc Hk func.
    unfold _custom_endpoint. rewrite Hm, Ha, Ht, Hfound.
    now rewrite (@py_all_in_missing _ _ _ Hc Hin Hk). }
  cbv zeta. split; [|split; [|split; [|split; [|split; reflexivity]]]].
  - intros o Hfound Hne Hscalar func.
    unfold _custom_endpoint. rewrite Hm, Ha, Ht, Hfound.
    destruct required_fields as [|k ks]; [contradiction|].
    cbn [py_all_in]. now rewrite (@py_in_scalar k _ Hscalar).
  - intros Hnone func. unfold _custom_endpoint. now rewrite Hm, Ha, Ht, Hnone.
  - exact Hfield.
  - intros o Hfound Hne Hraise func.
    destruct required_fields as [|k ks]; [contradiction|].
    apply (Hfield o k Hfound (or_introl eq_refl));
      unfold deserialized_body; rewrite Hraise; reflexivity.
Qed.

(** ** Fixity *)

Lemma fixity_fold (failure_str : bagit_error -> string)
    (failures : list bagit_error) :
  forall acc,
    fold_left (file_failure failure_str) failures acc =
    {| missing := missing acc ++
         flat_map (fun f => match f with
                            | FileMissing path =>
                                [PDict [("path", PStr path);
                                        ("message", PStr (failure_str f))]]
                            | _ => []
                            end) failures;
       changed := changed acc ++
         flat_map (fun f => match f with
                            | ChecksumMismatch path algorithm expected found =>
                                [PDict [("path", PStr path);
                                        ("expected", PStr expected);
                                        ("actual", PStr found);
                                        ("hash_type", PStr algorithm);
                                        ("message", PStr (failure_str f))]]
                            | _ => []
                            end) failures;
       untracked := untracked acc ++
         flat_map (fun f => match f with
                            | UnexpectedFile path =>
                                [PDict [("path", PStr path);
                                        ("message", PStr (failure_str f))]]
                            | _ => []
                            end) failures |}.
Proof.
  induction failures as [|f fs IH]; intros acc.
  - cbn. rewrite !app_nil_r. now destruct acc.
  - cbn [fold_left flat_map]. rewrite IH.
    destruct f; cbn; rewrite <- ?app_assoc, ?app_nil_r; reflexivity.
Qed.

(** C7.  Whatever verdict, failures and message the fixity check comes
    back with, the response carries the three lists: every missing file is
    listed under "missing", every checksum mismatch under "changed" with
    its path, expected digest, actual digest and hash algorithm, and every
    unexpected file under "untracked", each list in the order of the
    failures; other kinds of failure end up in no list.  The endpoint
    answers with this structure also when the check has failed. *)
Theorem check_fixity_breakdown
    (failure_str : bagit_error -> string)
    (success message : pyval) (failures : list bagit_error) :
  fixity_response failure_str success failures message =
  PDict [("success", success);
         ("message", message);
         ("failures",
          PDict [("files",
            PDict [("missing", PList (flat_map (fun f =>
                      match f with
                      | FileMissing path =>
                          [PDict [("path", PStr path);
                                  ("message", PStr (failure_str f))]]
                      | _ => []
                      end) failures));
                   ("changed", PList (flat_map (fun f =>
                      match f with
                      | ChecksumMismatch path algorithm expected found =>
                          [PDict [("path", PStr path);
                                  ("expected", PStr expected);
                                  ("actual", PStr found);
                                  ("hash_type", PStr algorithm);
                                  ("message", PStr (failure_str f))]]
                      | _ => []
                      end) failures));
                   ("untracked", PList (flat_map (fun f =>
                      match f with
                      | UnexpectedFile path =>
                          [PDict [("path", PStr path);
                                  ("message", PStr (failure_str f))]]
                      | _ => []
                      end) failures))])])] /\
  (forall path algorithm expected found,
     In (ChecksumMismatch path algorithm expected found) failures ->
     In (PDict [("path", PStr path); ("expected", PStr expected);
                ("actual", PStr found); ("hash_type", PStr algorithm);
                ("message",
                 PStr (failure_str (ChecksumMismatch path algorithm expected found)))])
        (changed (fixity_breakdown failure_str failures))) /\
  (forall path,
     In (FileMissing path) failures ->
     In (PDict [("path", PStr path);
                ("message", PStr (failure_str (FileMissing path)))])
        (missing (fixity_breakdown failure_str failures))) /\
  (forall path,
     In (UnexpectedFile path) failures ->
     In (PDict [("path", PStr path);
                ("message", PStr (failure_str (UnexpectedFile path)))])
        (untracked (fixity_breakdown failure_str failures))) /\
  (forall check_fixity self request bundle kwargs w w',
     check_fixity (obj bundle) w = (Return (success, failures, message), w') ->
     check_fixity_request_func check_fixity failure_str self request bundle kwargs w
     = (Return {| status_code := 200;
                  body := Json (fixity_response failure_str success failures message) |},
        w')).
Proof.
  unfold fixity_response, fixity_breakdown. rewrite fixity_fold. cbn [missing changed untracked app].
  split; [reflexivity|].
  split; [|split; [|split]].
  - intros path algorithm expected found Hin. apply in_flat_map.
    eexists. split; [exact Hin|]. now left.
  - intros path Hin. apply in_flat_map.
    eexists. split; [exact Hin|]. now left.
  - intros path Hin. apply in_flat_map.
    eexists. split; [exact Hin|]. now left.
  - intros check_fixity self request bundle kwargs w w' Hcheck.
    unfold check_fixity_request_func, bind. rewrite Hcheck.
    unfold ret, fixity_response, fixity_breakdown. rewrite fixity_fold. reflexivity.
Qed.

(** ** Download *)

(** C8.  When asking the package for its download path raises a
    [StorageException], the request goes on with [compress_package] and
    streams the file that call names; what it answers does not depend on
    the exception that was caught. *)
Theorem download_falls_back_to_compression
    (get_download_path : Package.t -> option string -> M string)
    (compress_package : Package.t -> M (string * string))
    (self : Resource Package.t) (request : HttpRequest)
    (bundle : Bundle Package.t) (kwargs : Kwargs)
    (w w1 : World) (msg : string)
    (Hchunk : get_download_path (obj bundle) (chunk_number kwargs) w
              = (Raise (StorageException msg), w1)) :
  download_request_func get_download_path compress_package self request bundle kwargs w
  = (r <- compress_package (obj bundle) ;; download_file_stream (Some (fst r))) w1
  /\ (forall full_path temp_dir w2,
        compress_package (obj bundle) w1 = (Return (full_path, temp_dir), w2) ->
        download_request_func get_download_path compress_package self request
          bundle kwargs w
        = download_file_stream (Some full_path) w2).
Proof.
  assert (Heq :
    download_request_func get_download_path compress_package self request bundle kwargs w
    = (r <- compress_package (obj bundle) ;; download_file_stream (Some (fst r))) w1).
  { unfold download_request_func, bind, try_except_StorageException.
    rewrite Hchunk. unfold ret.
    destruct (compress_package (obj bundle) w1) as [[r|e] w2]; reflexivity. }
  split; [exact Heq|].
  intros full_path temp_dir w2 Hc. rewrite Heq. unfold bind. now rewrite Hc.
Qed.

(** ** Deletion requests *)

Lemma objects_get_found_in (A : Type) (p : A -> bool) (rows : list A) (a : A) :
  objects_get p rows = Found a -> In a rows /\ p a = true.
Proof.
  unfold objects_get. intros H.
  destruct (filter p rows) as [|x [|y l]] eqn:E; try discriminate.
  injection H as ->. apply filter_In. rewrite E. now left.
Qed.

Lemma custom_endpoint_passes (O : Type) (resource : Resource O)
    (expected_methods required_fields : list string)
    (func : Resource O -> HttpRequest -> Bundle O -> Kwargs -> M HttpResponse)
    (request : HttpRequest) (kwargs : Kwargs) (w : World) (o : O) :
  passes_checks resource request expected_methods ->
  objects_get (fun o => String.eqb (uuid_of resource o) (kw_uuid kwargs))
              (queryset resource w) = Found o ->
  py_all_in required_fields (deserialized_body resource request) = Some true ->
  _custom_endpoint expected_methods required_fields func resource request kwargs w
  = func resource request
      (alter_detail_data_to_serialize resource request
         (build_bundle o (deserialized_body resource request) request))
      kwargs w.
Proof.
  intros (Hm & Ha & Ht) Hfound Hall.
  unfold _custom_endpoint. now rewrite Hm, Ha, Ht, Hfound, Hall.
Qed.

Lemma pipeline_get_state (v : pyval) (w : World) :
  snd (Pipeline_objects_get v w) = w.
Proof.
  unfold Pipeline_objects_get.
  destruct (match v with PStr u => _ | _ => _ end); reflexivity.
Qed.

Lemma submit_deletion_duplicate (package : Package.t) (pipeline : Pipeline.t)
    (info : dict) (w : World) :
  (1 <= existing_requests package w)%nat ->
  submit_deletion package pipeline info w = (Return delete_request_exists, w).
Proof.
  intros H. unfold submit_deletion.
  destruct (Nat.ltb_spec (existing_requests package w) 1); [lia|reflexivity].
Qed.

Lemma delete_func_duplicate_state (can_delete : list string)
    (self : Resource Package.t) (request : HttpRequest)
    (bundle : Bundle Package.t) (kwargs : Kwargs) (w : World) :
  (1 <= existing_requests (obj bundle) w)%nat ->
  snd (delete_aip_request_func can_delete self request bundle kwargs w) = w.
Proof.
  intros H. unfold delete_aip_request_func.
  destruct (negb _); [reflexivity|].
  destruct (data bundle) as [| | | | |info]; try reflexivity.
  unfold bind, getitem.
  destruct (dict_get "pipeline" info) as [pu|]; [|reflexivity].
  cbn [ret].
  pose proof (pipeline_get_state pu w) as Hp.
  destruct (Pipeline_objects_get pu w) as [[pl|e] w1]; cbn in Hp; subst w1.
  - now rewrite submit_deletion_duplicate.
  - reflexivity.
Qed.

(** C2.  A deletion request for a package that already has a Submitted
    deletion event creates no event and changes neither the package nor
    anything else in the state; a well-formed request for a deletable
    package is answered with the "already exists" response, status 200,
    which is not the response of a newly created request. *)
Theorem delete_request_duplicate
    (can_delete : list string) (base : Resource Package.t)
    (request : HttpRequest) (kwargs : Kwargs) (w : World) (package : Package.t)
    (Hfound : objects_get (fun o => String.eqb (Package.uuid o) (kw_uuid kwargs))
                          (packages w) = Found package)
    (Hsubmitted : (1 <= existing_requests package w)%nat) :
  snd (delete_aip_request can_delete (PackageResource base) request kwargs w) = w /\
  (forall body pipeline_uuid pipeline,
     passes_checks (PackageResource base) request ["post"] ->
     deserialize base request (raw_body request) (content_type_of request)
     = Some (PDict body) ->
     forallb (fun k => dict_has k body)
             ["event_reason"; "pipeline"; "user_id"; "user_email"] = true ->
     dict_get "pipeline" body = Some pipeline_uuid ->
     Pipeline_objects_get pipeline_uuid w = (Return pipeline, w) ->
     in_tuple String.eqb (Package.package_type package) can_delete = true ->
     delete_aip_request can_delete (PackageResource base) request kwargs w
     = (Return delete_request_exists, w)) /\
  status_code delete_request_exists = 200%Z /\
  delete_request_exists <> delete_request_created.
Proof.
  split; [|split; [|split; [reflexivity|discriminate]]].
  - unfold delete_aip_request, _custom_endpoint.
    destruct (method_check _ _ _); [reflexivity|].
    destruct (is_authenticated _ _); [reflexivity|].
    destruct (throttle_check _ _); [reflexivity|].
    cbn [queryset uuid_of PackageResource]. rewrite Hfound.
    destruct (py_all_in _ _) as [[|]|]; try reflexivity.
    now apply delete_func_duplicate_state.
  - intros body pu pipeline Hchecks Hbody Hfields Hpu Hpipe Hdel.
    assert (Hb : deserialized_body (PackageResource base) request = PDict body).
    { unfold deserialized_body. cbn [deserialize PackageResource
        alter_deserialized_detail_data]. now rewrite Hbody. }
    unfold delete_aip_request.
    rewrite (@custom_endpoint_passes _ _ _ _ _ _ _ _ package Hchecks Hfound)
      by now rewrite Hb, py_all_in_dict, Hfields.
    rewrite Hb. cbn [alter_detail_data_to_serialize PackageResource].
    unfold delete_aip_request_func, build_bundle. cbn [obj data].
    rewrite Hdel. cbn [negb]. unfold bind, getitem. rewrite Hpu. cbn [ret].
    rewrite Hpipe. now apply submit_deletion_duplicate.
Qed.

Lemma existsb_id_of_member (p : Package.t) (rows : list Package.t) :
  In p rows ->
  existsb (fun q => Nat.eqb (Package.id q) (Package.id p)) rows = true.
Proof.
  intros H. apply existsb_exists. exists p. split; [exact H|apply Nat.eqb_refl].
Qed.

Lemma package_save_member (p p' : Package.t) (w : World) :
  In p (packages w) -> Package.id p' = Package.id p ->
  packages (Package_save p' w)
  = map (fun q => if Nat.eqb (Package.id q) (Package.id p) then p' else q)
        (packages w)
  /\ In p' (packages (Package_save p' w))
  /\ events (Package_save p' w) = events w
  /\ fs (Package_save p' w) = fs w
  /\ calls (Package_save p' w) = calls w.
Proof.
  intros Hin Hid. unfold Package_save. rewrite Hid.
  rewrite (existsb_id_of_member _ _ Hin). cbn.
  repeat split.
  apply in_map_iff. exists p. now rewrite Nat.eqb_refl.
Qed.

Lemma existing_requests_after_event (package : Package.t) (e : Event.t) (w : World) :
  Event.package e = Package.id package -> Event.status e = Event.SUBMITTED ->
  existing_requests package (Event_save e w) = S (existing_requests package w).
Proof.
  intros Hp Hs. unfold existing_requests, Event_save. cbn [events set_events].
  rewrite filter_app, length_app. cbn [filter].
  rewrite Hp, Hs, Nat.eqb_refl. cbn. lia.
Qed.

Lemma existing_requests_events (package : Package.t) (w w' : World) :
  events w' = events w -> existing_requests package w' = existing_requests package w.
Proof. unfold existing_requests. now intros ->. Qed.

Lemma package_save_events (p : Package.t) (w : World) :
  events (Package_save p w) = events w.
Proof. unfold Package_save. now destruct (existsb _ _). Qed.

(** C3.  A well-formed deletion request for a deletable package with no
    outstanding Submitted deletion event adds exactly one event to the
    log, a Submitted deletion event for this package whose snapshot is the
    status the package had when the request was served, and the package's
    row now carries status DEL_REQ. *)
Theorem delete_request_recorded
    (can_delete : list string) (base : Resource Package.t)
    (request : HttpRequest) (kwargs : Kwargs) (w : World) (package : Package.t)
    (body : dict) (event_reason pipeline_uuid user_id user_email : pyval)
    (pipeline : Pipeline.t)
    (Hchecks : passes_checks (PackageResource base) request ["post"])
    (Hfound : objects_get (fun o => String.eqb (Package.uuid o) (kw_uuid kwargs))
                          (packages w) = Found package)
    (Hbody : deserialize base request (raw_body request) (content_type_of request)
             = Some (PDict body))
    (Hreason : dict_get "event_reason" body = Some event_reason)
    (Hpu : dict_get "pipeline" body = Some pipeline_uuid)
    (Huser : dict_get "user_id" body = Some user_id)
    (Hemail : dict_get "user_email" body = Some user_email)
    (Hpipe : Pipeline_objects_get pipeline_uuid w = (Return pipeline, w))
    (Hdeletable : in_tuple String.eqb (Package.package_type package) can_delete
                  = true)
    (Hnone : existing_requests package w = 0%nat) :
  let delete_request :=
    {| Event.package := Package.id package;
       Event.event_type := Event.DELETE;
       Event.status := Event.SUBMITTED;
       Event.event_reason := event_reason;
       Event.pipeline := pipeline;
       Event.user_id := user_id;
       Event.user_email := user_email;
       Event.store_data := Package.status package |} in
  let package' := Package.with_status Package.DEL_REQ package in
  exists w',
    delete_aip_request can_delete (PackageResource base) request kwargs w
    = (Return delete_request_created, w') /\
    events w' = (events w ++ [delete_request])%list /\
    existing_requests package w' = 1%nat /\
    packages w'
    = map (fun q => if Nat.eqb (Package.id q) (Package.id package) then package' else q)
          (packages w) /\
    In package' (packages w') /\
    Package.status package' = Package.DEL_REQ /\
    Package.uuid package' = Package.uuid package /\
    fs w' = fs w /\ calls w' = calls w.
Proof.
  intros delete_request package'.
  exists (Package_save package' (Event_save delete_request w)).
  assert (Hb : deserialized_body (PackageResource base) request = PDict body).
  { unfold deserialized_body. cbn [deserialize PackageResource
      alter_deserialized_detail_data]. now rewrite Hbody. }
  destruct (objects_get_found_in _ _ Hfound) as [Hin _].
  assert (Hin' : In package (packages (Event_save delete_request w))) by exact Hin.
  destruct (package_save_member package package' (Event_save delete_request w) Hin' eq_refl)
    as (Hrows & Hmem & Hev & Hfs & Hcalls).
  split; [|repeat split].
  - unfold delete_aip_request.
    rewrite (@custom_endpoint_passes _ _ _ _ _ _ _ _ package Hchecks Hfound).
    + rewrite Hb. cbn [alter_detail_data_to_serialize PackageResource].
      unfold delete_aip_request_func, build_bundle. cbn [obj data].
      rewrite Hdeletable. cbn [negb]. unfold bind at 1 2, getitem at 1.
      rewrite Hpu. cbn [ret]. rewrite Hpipe.
      unfold submit_deletion. rewrite Hnone. cbn [Nat.ltb Nat.leb].
      unfold new_delete_request, bind, getitem.
      rewrite Hreason, Huser, Hemail. reflexivity.
    + rewrite Hb, py_all_in_dict. unfold dict_has. cbn [forallb].
      now rewrite Hreason, Hpu, Huser, Hemail.
  - exact Hev.
  - rewrite (existing_requests_events package _ _ (package_save_events _ _)).
    rewrite existing_requests_after_event by reflexivity. now rewrite Hnone.
  - exact Hrows.
  - exact Hmem.
  - exact Hfs.
  - exact Hcalls.
Qed.

(** ** Intake *)

Lemma exists_on_disk_written (path : string) (n : node) (more : list (string * node))
    (w w' : World) :
  fs w' = (fs w ++ (path, n) :: more)%list -> exists_on_disk path w' = true.
Proof.
  intros H. unfold exists_on_disk. rewrite H, existsb_app. cbn [existsb fst].
  rewrite String.eqb_refl. now rewrite orb_true_r.
Qed.

(** What [intake] does with a package whose origin exists. *)
Lemma intake_stores (self : Package.t) (origin_location : Location.t)
    (op : string) (kind : node) (w : World) :
  In self (packages w) ->
  node_at (normpath (os_path_join (Location.full_path origin_location) [op])) w
  = Some kind ->
  let self' :=
    Package.stored_at
      (Utils.storage_path (Package.uuid self) (Package.current_path self))
      match kind with File => Some (pointer_file_for self) | Dir => None end
      self in
  exists w',
    intake self origin_location (PStr op) w = (Return self', w') /\
    In self' (packages w') /\
    exists_on_disk (Package_full_path self') w' = true /\
    (kind = File -> exists_on_disk (pointer_file_for self) w' = true) /\
    packages w'
    = map (fun q => if Nat.eqb (Package.id q) (Package.id self) then self' else q)
          (packages w).
Proof.
  intros Hin Hnode. unfold intake. rewrite Hnode.
  destruct kind;
    (eexists; split; [reflexivity|];
     match goal with
     | |- context [Package_save ?p ?v] =>
         destruct (package_save_member self p v Hin eq_refl)
           as (Hrows & Hmem & _ & Hfs & _)
     end;
     split; [exact Hmem|]; split; [|split; [|exact Hrows]]).
  - eapply exists_on_disk_written. rewrite Hfs. reflexivity.
  - intros _. unfold exists_on_disk. rewrite Hfs. cbn [fs set_calls set_fs].
    rewrite existsb_app. cbn [existsb fst]. rewrite String.eqb_refl.
    now rewrite !orb_true_r.
  - eapply exists_on_disk_written. rewrite Hfs. reflexivity.
  - discriminate.
Qed.




(** ** Pointer files *)

Lemma id_below_next (rows : list Package.t) (q : Package.t) :
  In q rows -> Package.id q <> next_id rows.
Proof.
  intros Hin. unfold next_id.
  assert (H : Forall (fun k => k <= list_max (map Package.id rows))
                     (map Package.id rows)).
  { apply list_max_le. apply Nat.le_refl. }
  rewrite Forall_forall in H.
  specialize (H (Package.id q) (in_map Package.id rows q Hin)). lia.
Qed.

Lemma filter_map_stable (A : Type) (p : A -> bool) (f : A -> A) (l : list A) :
  (forall x, In x l -> p (f x) = p x) ->
  filter p (map f l) = map f (filter p l).
Proof.
  induction l as [|x l IH]; intros H; [reflexivity|].
  cbn [map filter]. rewrite (H x (or_introl eq_refl)).
  rewrite IH by (intros y Hy; apply H; now right).
  now destruct (p x).
Qed.

Lemma same_id_same_row (rows : list Package.t) (p q : Package.t) :
  NoDup (map Package.id rows) -> In p rows -> In q rows ->
  Package.id q = Package.id p -> q = p.
Proof.
  induction rows as [|r rows IH]; intros Hnd Hp Hq Hid; [contradiction|].
  cbn [map] in Hnd. inversion Hnd as [|? ? Hnotin Hnd']; subst.
  destruct Hp as [<-|Hp], Hq as [<-|Hq].
  - reflexivity.
  - exfalso. apply Hnotin. rewrite <- Hid. now apply in_map.
  - exfalso. apply Hnotin. rewrite Hid. now apply in_map.
  - now apply IH.
Qed.

Lemma lookup_after_update (rows : list Package.t) (package package' : Package.t)
    (u : string) :
  NoDup (map Package.id rows) ->
  objects_get (fun o => String.eqb (Package.uuid o) u) rows = Found package ->
  Package.uuid package' = u ->
  objects_get (fun o => String.eqb (Package.uuid o) u)
    (map (fun q => if Nat.eqb (Package.id q) (Package.id package) then package' else q)
         rows)
  = Found package'.
Proof.
  intros Hnd Hfound Hu.
  destruct (objects_get_found_in _ _ Hfound) as [Hin Hp].
  unfold objects_get in *. rewrite filter_map_stable.
  - destruct (filter _ rows) as [|x [|y l]]; try discriminate.
    injection Hfound as ->. cbn [map]. now rewrite Nat.eqb_refl.
  - intros q Hq. destruct (Nat.eqb_spec (Package.id q) (Package.id package)) as [E|E];
      [|reflexivity].
    rewrite (@same_id_same_row rows package q Hnd Hin Hq E), Hu, Hp. apply String.eqb_refl.
Qed.

(** What a pointer-file request answers for a record, by its pointer
    file. *)
Lemma pointer_file_request_answers
    (base : Resource Package.t) (get_request : HttpRequest) (kwargs : Kwargs)
    (w : World) (self : Package.t) :
  passes_checks (PackageResource base) get_request ["get"] ->
  objects_get (fun o => String.eqb (Package.uuid o) (kw_uuid kwargs))
              (packages w) = Found self ->
  (full_pointer_file_path self = None ->
   pointer_file_request (PackageResource base) get_request kwargs w
   = (Return (HttpNotFound "File not found"), w)) /\
  (forall path,
     full_pointer_file_path self = Some path -> exists_on_disk path w = true ->
     pointer_file_request (PackageResource base) get_request kwargs w
     = (Return {| status_code := 200; body := FileStream path |}, w)).
Proof.
  intros Hchecks Hlookup.
  assert (Hrun :
    pointer_file_request (PackageResource base) get_request kwargs w
    = download_file_stream (full_pointer_file_path self) w).
  { unfold pointer_file_request.
    now rewrite (@custom_endpoint_passes _ _ _ _ _ _ _ _ _ Hchecks Hlookup). }
  rewrite Hrun. split.
  - now intros ->.
  - intros path -> Hdisk. unfold download_file_stream. now rewrite Hdisk.
Qed.

(** C6.  A pointer-file request that passes the checks, for a package
    record found by its UUID, is answered by the record's pointer file, in
    every state: when the record has none the answer is the NotFound
    response "File not found", status 404, and when it has one that is on
    disk the answer has status 200 and streams exactly that file; the
    request changes nothing.  And storing decides which case applies,
    whatever the package's type and the purpose of its destination: a
    package whose record exists and whose origin is on disk is stored by
    [intake], which [store_aip] and [backlog_transfer] stand for, with
    status Uploaded; when the origin was a directory the stored package has
    no pointer file and the request is answered 404, and when it was a
    single file the pointer file is [pointer.<uuid>.xml] in the package's
    sharded directory and the request streams exactly that file with
    status 200. *)
Theorem pointer_file_after_intake
    (base : Resource Package.t) (get_request : HttpRequest) (kwargs : Kwargs)
    (Hchecks : passes_checks (PackageResource base) get_request ["get"]) :
  (forall w self,
     objects_get (fun o => String.eqb (Package.uuid o) (kw_uuid kwargs))
                 (packages w) = Found self ->
     (full_pointer_file_path self = None ->
      pointer_file_request (PackageResource base) get_request kwargs w
      = (Return (HttpNotFound "File not found"), w)) /\
     (forall path,
        full_pointer_file_path self = Some path -> exists_on_disk path w = true ->
        pointer_file_request (PackageResource base) get_request kwargs w
        = (Return {| status_code := 200; body := FileStream path |}, w))) /\
  (forall w self origin_location op kind,
     objects_get (fun o => String.eqb (Package.uuid o) (kw_uuid kwargs))
                 (packages w) = Found self ->
     NoDup (map Package.id (packages w)) ->
     node_at (normpath (os_path_join (Location.full_path origin_location) [op])) w
     = Some kind ->
     exists self' w',
       intake self origin_location (PStr op) w = (Return self', w') /\
       store_aip self origin_location (PStr op) w = (Return self', w') /\
       backlog_transfer self origin_location (PStr op) w = (Return self', w') /\
       Package.status self' = Package.UPLOADED /\
       objects_get (fun o => String.eqb (Package.uuid o) (kw_uuid kwargs))
                   (packages w') = Found self' /\
       match kind with
       | Dir =>
           full_pointer_file_path self' = None /\
           pointer_file_request (PackageResource base) get_request kwargs w'
           = (Return (HttpNotFound "File not found"), w')
       | File =>
           full_pointer_file_path self'
           = Some (os_path_join
                     (Location.full_path (Package.current_location self))
                     [os_path_join (Utils.uuid_to_path (Package.uuid self))
                        ["pointer." ++ Package.uuid self ++ ".xml"]]) /\
           pointer_file_request (PackageResource base) get_request kwargs w'
           = (Return {| status_code := 200;
                        body := FileStream (pointer_file_for self) |}, w')
       end) /\
  status_code (HttpNotFound "File not found") = 404%Z.
Proof.
  split; [|split; [|reflexivity]].
  - intros w self Hlookup. now apply pointer_file_request_answers.
  - intros w self origin_location op kind Hrecord Hids Hnode.
    destruct (objects_get_found_in _ _ Hrecord) as [Hin Hu].
    apply String.eqb_eq in Hu.
    destruct (@intake_stores self origin_location op kind w Hin Hnode)
      as (w' & Hrun & _ & _ & Hdisk & Hrows).
    eexists. exists w'.
    split; [exact Hrun|]. split; [exact Hrun|]. split; [exact Hrun|].
    split; [reflexivity|].
    match goal with
    | |- objects_get _ _ = Found ?s /\ _ =>
        assert (Hlookup :
          objects_get (fun o => String.eqb (Package.uuid o) (kw_uuid kwargs))
                      (packages w') = Found s)
    end.
    { rewrite Hrows. now apply lookup_after_update. }
    split; [exact Hlookup|].
    destruct (@pointer_file_request_answers base get_request kwargs w' _
                Hchecks Hlookup) as [Hnone Hsome].
    destruct kind.
    + split; [reflexivity|]. apply Hsome; [reflexivity|]. now apply Hdisk.
    + split; [reflexivity|]. now apply Hnone.
Qed.

(** ** Moving files to a location *)

Lemma move_files_entry (origin_location destination_location : Location.t)
    (e : pyval) (rest : list pyval) (paths : string * string) (w : World) :
  entry_paths e = Some paths ->
  move_files origin_location destination_location (e :: rest) w
  = move_files origin_location destination_location rest
      (set_calls (calls w ++ moves_for origin_location destination_location paths) w).
Proof.
  unfold entry_paths. intros H.
  destruct e as [| | | |l|d]; try discriminate H.
  destruct (dict_get "source" d) as [[| | |s| |]|] eqn:Hs; try discriminate H.
  destruct (dict_get "destination" d) as [[| | |t| |]|] eqn:Ht; try discriminate H.
  destruct (negb (String.eqb s "") && negb (String.eqb t "")) eqn:Hne;
    [|discriminate H].
  injection H as <-.
  cbn [move_files]. unfold bind at 1 2, py_get. rewrite Hs, Ht. cbn [ret truthy].
  rewrite Hne. unfold bind, join_value, call_space, ret, moves_for.
  cbn [fst snd calls set_calls]. rewrite <- !app_assoc. reflexivity.
Qed.

Lemma move_files_lacking (origin_location destination_location : Location.t)
    (e : pyval) (rest : list pyval) (w : World) :
  lacks_path e = true ->
  move_files origin_location destination_location (e :: rest) w
  = (Return HttpBadRequest_class, w).
Proof.
  unfold lacks_path. intros H.
  destruct e as [| | | |l|d]; try discriminate H.
  cbn [move_files]. unfold bind, py_get, ret.
  destruct (dict_get "source" d) as [s|]; [|reflexivity].
  destruct (dict_get "destination" d) as [t|].
  - apply negb_true_iff in H. now rewrite H.
  - cbn [truthy]. now rewrite andb_false_r.
Qed.

Lemma move_files_prefix (origin_location destination_location : Location.t)
    (good tail : list pyval) :
  Forall (fun e => entry_paths e <> None) good ->
  forall w,
    move_files origin_location destination_location (good ++ tail) w
    = move_files origin_location destination_location tail
        (set_calls (calls w ++ moved origin_location destination_location good) w).
Proof.
  induction 1 as [|e good He Hgood IH]; intros w.
  - cbn [app moved flat_map]. rewrite app_nil_r. now destruct w.
  - destruct (entry_paths e) as [paths|] eqn:Hp; [|contradiction].
    cbn [app]. rewrite move_files_entry with (paths := paths) by exact Hp. rewrite IH.
    cbn [moved flat_map calls set_calls]. rewrite Hp, <- app_assoc. reflexivity.
Qed.

(** C10.  Moving files to a location is not atomic, and the refusal it
    ends with is no response.  When the list of files consists of entries
    that name both paths, followed by an entry without a source or a
    destination, [post_detail] returns the class [http.HttpBadRequest]
    itself, which is not a response object of any status, where a
    BadRequest response is expected; and the state it leaves behind holds, in
    list order, the four backend calls of every earlier entry: they were
    moved and are not undone.  Entries after the offending one are not
    looked at. *)
Theorem post_detail_not_atomic
    (base : Resource Location.t) (request : HttpRequest) (kwargs : Kwargs)
    (w : World) (body : dict) (destination_location origin_location : Location.t)
    (origin_uri : pyval) (good rest : list pyval) (bad : pyval)
    (Hbody : deserialize base request (raw_body request) "application/json"
             = Some (PDict body))
    (Hdest : Location_objects_get (kw_uuid kwargs) w = Found destination_location)
    (Huri : dict_get "origin_location" body = Some origin_uri)
    (Hpipeline : dict_has "pipeline" body = true)
    (Hfiles : dict_get "files" body = Some (PList (good ++ bad :: rest)))
    (Horigin : origin_of origin_uri w = (Return origin_location, w))
    (Hgood : Forall (fun e => entry_paths e <> None) good)
    (Hbad : lacks_path bad = true) :
  post_detail (LocationResource base) request kwargs w
  = (Return HttpBadRequest_class,
     set_calls (calls w ++ moved origin_location destination_location good) w)
  /\ (forall r : HttpResponse, HttpBadRequest_class <> Instance r)
  /\ List.length (moved origin_location destination_location good)
     = 4 * List.length good
  /\ (forall e more,
        moved origin_location destination_location (e :: more)
        = (moved origin_location destination_location [e]
           ++ moved origin_location destination_location more)%list).
Proof.
  split; [|split; [|split]].
  - unfold post_detail. cbn [deserialize alter_deserialized_detail_data LocationResource].
    rewrite Hbody, Hdest, py_all_in_dict. unfold dict_has. cbn [forallb].
    unfold dict_has in Hpipeline. rewrite Huri, Hfiles.
    destruct (dict_get "pipeline" body); [|discriminate Hpipeline].
    cbn [andb]. unfold bind at 1 2 3 4, data_getitem, getitem. rewrite Huri, Hfiles.
    cbn [ret]. rewrite Horigin. cbn [py_iter ret].
    rewrite move_files_prefix by exact Hgood. now apply move_files_lacking.
  - discriminate.
  - clear -Hgood. induction Hgood as [|e good He _ IH]; [reflexivity|].
    cbn [moved flat_map]. fold (moved origin_location destination_location good).
    rewrite length_app, IH.
    destruct (entry_paths e) as [paths|]; [|contradiction].
    cbn [moves_for List.length]. lia.
  - intros e more. cbn [moved flat_map]. now rewrite app_nil_r.
Qed.

(** ** Deletion requests served one after the other, and side by side *)

Lemma new_delete_request_cases (package : Package.t) (pipeline : Pipeline.t)
    (info : dict) (w : World) :
  (exists e, new_delete_request package pipeline info w = (Return e, w) /\
             Event.package e = Package.id package /\
             Event.status e = Event.SUBMITTED /\
             Event.store_data e = Package.status package) \/
  (exists x, new_delete_request package pipeline info w = (Raise x, w)).
Proof.
  unfold new_delete_request, bind, getitem.
  destruct (dict_get "event_reason" info); [|right; eexists; reflexivity].
  destruct (dict_get "user_id" info); [|right; eexists; reflexivity].
  destruct (dict_get "user_email" info); [|right; eexists; reflexivity].
  left. eexists. cbn. repeat split.
Qed.

(** Taking the three turns of one handler in a row is [submit_deletion]. *)
Lemma handler_runs_submit_deletion (package : Package.t) (pipeline : Pipeline.t)
    (info : dict) (b : handler) (w : World) :
  run_schedule [false; false; false] (start package pipeline info) b w
  = (at_pc (Done (fst (submit_deletion package pipeline info w)))
           (start package pipeline info),
     b,
     snd (submit_deletion package pipeline info w)).
Proof.
  unfold submit_deletion, bind.
  destruct (new_delete_request_cases package pipeline info w)
    as [(e & He & _)|(x & Hx)];
    cbn [run_schedule handler_step start h_pc h_package h_pipeline h_info at_pc];
    destruct (Nat.ltb (existing_requests package w) 1);
    cbn [run_schedule handler_step start h_pc h_package h_pipeline h_info at_pc];
    rewrite ?He, ?Hx; reflexivity.
Qed.

Lemma existing_requests_same_id (p q : Package.t) (w : World) :
  Package.id q = Package.id p -> existing_requests q w = existing_requests p w.
Proof. unfold existing_requests. now intros ->. Qed.

Lemma existing_requests_other (p : Package.t) (e : Event.t) (w : World) :
  Event.package e <> Package.id p ->
  existing_requests p (Event_save e w) = existing_requests p w.
Proof.
  intros H. unfold existing_requests, Event_save. cbn [events set_events].
  rewrite filter_app. cbn [filter].
  apply Nat.eqb_neq in H. rewrite H. cbn. now rewrite app_nil_r.
Qed.

Lemma submit_deletion_invariant (package : Package.t) (pipeline : Pipeline.t)
    (info : dict) (w : World) :
  at_most_one_submitted w ->
  at_most_one_submitted (snd (submit_deletion package pipeline info w)).
Proof.
  intros Hinv. unfold submit_deletion.
  destruct (Nat.ltb_spec (existing_requests package w) 1) as [Hlt|_]; [|exact Hinv].
  unfold bind at 1.
  destruct (new_delete_request_cases package pipeline info w)
    as [(e & -> & Hp & Hs & _)|(x & ->)]; [|exact Hinv].
  cbn [bind ret snd]. intros q.
  rewrite (existing_requests_events q _ _ (package_save_events _ _)).
  destruct (Nat.eq_dec (Package.id q) (Package.id package)) as [Hq|Hq].
  - rewrite existing_requests_after_event by congruence.
    rewrite (existing_requests_same_id _ _ _ Hq). lia.
  - rewrite existing_requests_other by congruence. apply Hinv.
Qed.

Lemma delete_aip_request_invariant (can_delete : list string)
    (resource : Resource Package.t) (request : HttpRequest) (kwargs : Kwargs)
    (w : World) :
  at_most_one_submitted w ->
  at_most_one_submitted
    (snd (delete_aip_request can_delete resource request kwargs w)).
Proof.
  intros Hinv. unfold delete_aip_request, _custom_endpoint.
  destruct (method_check _ _ _); [exact Hinv|].
  destruct (is_authenticated _ _); [exact Hinv|].
  destruct (throttle_check _ _); [exact Hinv|].
  destruct (objects_get _ _); try exact Hinv.
  destruct (py_all_in _ _) as [[|]|]; try exact Hinv.
  unfold delete_aip_request_func.
  destruct (negb _); [exact Hinv|].
  cbn [data alter_detail_data_to_serialize].
  destruct (data _) as [| | | | |info]; try exact Hinv.
  unfold bind at 1, getitem.
  destruct (dict_get "pipeline" _) as [pu|]; [|exact Hinv].
  cbn [ret]. unfold bind.
  pose proof (pipeline_get_state pu w) as Hp.
  destruct (Pipeline_objects_get pu w) as [[pl|e] w1]; cbn in Hp; subst w1;
    [|exact Hinv].
  now apply submit_deletion_invariant.
Qed.

(** C4 (amended).  The handler is a check followed by two saves, with
    nothing that keeps another request for the same package out in
    between.  When two requests for a package with no outstanding deletion
    event are served one after the other, the first one records exactly
    one Submitted event and the second one is answered that a request
    already exists; and every request served on its own keeps the event
    log at no more than one Submitted deletion event per package. *)
Theorem deletion_requests_serial
    (package_a package_b : Package.t) (pipeline_a pipeline_b : Pipeline.t)
    (info_a info_b : dict) (w : World) (e : Event.t)
    (Hsame : Package.id package_b = Package.id package_a)
    (Hnone : existing_requests package_a w = 0%nat)
    (Hinfo : new_delete_request package_a pipeline_a info_a w = (Return e, w)) :
  (exists a' b' w',
     run_schedule serial (start package_a pipeline_a info_a)
                         (start package_b pipeline_b info_b) w = (a', b', w') /\
     h_pc a' = Done (Return delete_request_created) /\
     h_pc b' = Done (Return delete_request_exists) /\
     events w' = (events w ++ [e])%list /\
     Event.status e = Event.SUBMITTED /\
     existing_requests package_a w' = 1%nat) /\
  (forall b w0,
     fst (fst (run_schedule [false; false; false]
                 (start package_a pipeline_a info_a) b w0))
     = at_pc (Done (fst (submit_deletion package_a pipeline_a info_a w0)))
             (start package_a pipeline_a info_a) /\
     snd (run_schedule [false; false; false]
            (start package_a pipeline_a info_a) b w0)
     = snd (submit_deletion package_a pipeline_a info_a w0)) /\
  (forall can_delete resource request kwargs w0,
     at_most_one_submitted w0 ->
     at_most_one_submitted
       (snd (delete_aip_request can_delete resource request kwargs w0))).
Proof.
  split; [|split].
  - destruct (new_delete_request_cases package_a pipeline_a info_a w)
      as [(e' & He' & Hp & Hs & _)|(x & Hx)]; [|congruence].
    assert (e' = e) by congruence. subst e'.
    set (w1 := Package_save (Package.with_status Package.DEL_REQ package_a)
                            (Event_save e w)).
    assert (Hone : existing_requests package_a w1 = 1%nat).
    { subst w1.
      rewrite (existing_requests_events package_a _ _ (package_save_events _ _)).
      rewrite existing_requests_after_event by assumption. now rewrite Hnone. }
    exists (at_pc (Done (Return delete_request_created))
                  (start package_a pipeline_a info_a)),
           (at_pc (Done (Return delete_request_exists))
                  (start package_b pipeline_b info_b)),
           w1.
    split; [|repeat split].
    + unfold serial.
      cbn [run_schedule handler_step start h_pc h_package h_pipeline h_info at_pc].
      rewrite Hnone. cbn [Nat.ltb Nat.leb].
      cbn [run_schedule handler_step start h_pc h_package h_pipeline h_info at_pc].
      rewrite Hinfo.
      cbn [run_schedule handler_step start h_pc h_package h_pipeline h_info at_pc].
      fold w1. rewrite (existing_requests_same_id _ _ _ Hsame), Hone.
      reflexivity.
    + subst w1. now rewrite package_save_events.
    + exact Hs.
    + exact Hone.
  - intros b w0. now rewrite handler_runs_submit_deletion.
  - intros. now apply delete_aip_request_invariant.
Qed.

(** C4, as stated, fails: when both handlers count before either saves,
    each records a Submitted event, and the log ends with two outstanding
    deletion events for one package. *)
Lemma deletion_requests_race :
  ~ (forall (schedule : list bool) (package : Package.t) (pipeline : Pipeline.t)
            (info : dict) (w : World),
       at_most_one_submitted w ->
       at_most_one_submitted
         (snd (run_schedule schedule (start package pipeline info)
                            (start package pipeline info) w))).
Proof.
  intros H.
  specialize (H racy Fixture.stored_aip Fixture.pipeline Fixture.delete_body
                Fixture.stored_world).
  assert (Hinv : at_most_one_submitted Fixture.stored_world).
  { intros p. cbn. lia. }
  specialize (H Hinv Fixture.stored_aip).
  vm_compute in H. lia.
Qed.

(** ** The statements above at the fixtures of the integration tests *)

Lemma custom_endpoint_rejects_witness :
  delete_aip_request Fixture.can_delete
    (PackageResource (Fixture.model_resource Package.t (Some PNone)))
    (Fixture.client_request "post")
    (Fixture.detail (Package.uuid Fixture.stored_aip)) Fixture.stored_world
  = (Raise TypeError, Fixture.stored_world)
  /\
  delete_aip_request Fixture.can_delete
    (PackageResource (Fixture.model_resource Package.t None))
    (Fixture.client_request "post") (Fixture.detail "no-such-uuid")
    Fixture.stored_world
  = (Return (HttpNotFound "Resource with UUID no-such-uuid does not exist"),
     Fixture.stored_world)
  /\
  delete_aip_request Fixture.can_delete
    (PackageResource (Fixture.model_resource Package.t None))
    (Fixture.client_request "post")
    (Fixture.detail (Package.uuid Fixture.stored_aip)) Fixture.stored_world
  = (Return (HttpBadRequest
       "All of these fields must be provided: event_reason, pipeline, user_id, user_email"),
     Fixture.stored_world).
Proof.
  split; [|split].
  - refine (proj1 (@custom_endpoint_rejects Package.t
             (PackageResource (Fixture.model_resource Package.t (Some PNone)))
             ["post"] ["event_reason"; "pipeline"; "user_id"; "user_email"]
             (Fixture.client_request "post")
             (Fixture.detail (Package.uuid Fixture.stored_aip))
             Fixture.stored_world _) Fixture.stored_aip _ _ _ _).
    + repeat split.
    + reflexivity.
    + discriminate.
    + reflexivity.
  - refine (proj1 (proj2 (@custom_endpoint_rejects Package.t
             (PackageResource (Fixture.model_resource Package.t None))
             ["post"] ["event_reason"; "pipeline"; "user_id"; "user_email"]
             (Fixture.client_request "post") (Fixture.detail "no-such-uuid")
             Fixture.stored_world _)) _ _).
    + repeat split.
    + reflexivity.
  - refine (proj1 (proj2 (proj2 (proj2 (@custom_endpoint_rejects Package.t
             (PackageResource (Fixture.model_resource Package.t None))
             ["post"] ["event_reason"; "pipeline"; "user_id"; "user_email"]
             (Fixture.client_request "post")
             (Fixture.detail (Package.uuid Fixture.stored_aip))
             Fixture.stored_world _)))) Fixture.stored_aip _ _ _ _).
    + repeat split.
    + reflexivity.
    + discriminate.
    + reflexivity.
Defined.

Lemma check_fixity_breakdown_witness :
  In (PDict [("path", PStr "a.txt"); ("expected", PStr "X"); ("actual", PStr "Y");
             ("hash_type", PStr "sha256"); ("message", PStr "failure")])
     (changed (fixity_breakdown (fun _ => "failure")
                 [UnexpectedFile "b.txt";
                  ChecksumMismatch "a.txt" "sha256" "X" "Y";
                  FileMissing "c.txt"])).
Proof.
  apply (proj1 (proj2 (check_fixity_breakdown (fun _ => "failure") (PBool false) PNone
                         [UnexpectedFile "b.txt";
                          ChecksumMismatch "a.txt" "sha256" "X" "Y";
                          FileMissing "c.txt"]))
               "a.txt" "sha256" "X" "Y").
  right. left. reflexivity.
Defined.

Lemma download_falls_back_to_compression_witness :
  download_request_func
    (fun _ _ => raise (StorageException "LOCKSS chunking is not available"))
    (fun _ => ret ("/tmp/tmpXYZ/aip.tar", "/tmp/tmpXYZ"))
    (PackageResource (Fixture.model_resource Package.t None))
    (Fixture.client_request "get")
    (build_bundle Fixture.stored_aip (PList []) (Fixture.client_request "get"))
    (Fixture.detail (Package.uuid Fixture.stored_aip)) Fixture.stored_world
  = download_file_stream (Some "/tmp/tmpXYZ/aip.tar") Fixture.stored_world.
Proof.
  refine (proj2 (@download_falls_back_to_compression
                   (fun _ _ => raise (StorageException "LOCKSS chunking is not available"))
                   (fun _ => ret ("/tmp/tmpXYZ/aip.tar", "/tmp/tmpXYZ"))
                   _ _ _ _ Fixture.stored_world Fixture.stored_world
                   "LOCKSS chunking is not available" _)
                "/tmp/tmpXYZ/aip.tar" "/tmp/tmpXYZ" Fixture.stored_world _);
    reflexivity.
Defined.

Lemma delete_request_duplicate_witness :
  delete_aip_request Fixture.can_delete
    (PackageResource (Fixture.model_resource Package.t (Some (PDict Fixture.delete_body))))
    (Fixture.client_request "post")
    (Fixture.detail (Package.uuid Fixture.stored_aip)) Fixture.requested_world
  = (Return delete_request_exists, Fixture.requested_world).
Proof.
  refine (proj1 (proj2 (@delete_request_duplicate Fixture.can_delete
            (Fixture.model_resource Package.t (Some (PDict Fixture.delete_body)))
            (Fixture.client_request "post")
            (Fixture.detail (Package.uuid Fixture.stored_aip))
            Fixture.requested_world
            (Package.with_status Package.DEL_REQ Fixture.stored_aip) _ _))
          Fixture.delete_body (PStr (Pipeline.uuid Fixture.pipeline))
          Fixture.pipeline _ _ _ _ _ _).
  - reflexivity.
  - cbn. lia.
  - repeat split.
  - reflexivity.
  - reflexivity.
  - reflexivity.
  - reflexivity.
  - reflexivity.
Defined.

Lemma delete_request_recorded_witness :
  exists w',
    delete_aip_request Fixture.can_delete
      (PackageResource (Fixture.model_resource Package.t (Some (PDict Fixture.delete_body))))
      (Fixture.client_request "post")
      (Fixture.detail (Package.uuid Fixture.stored_aip)) Fixture.stored_world
    = (Return delete_request_created, w') /\
    events w' = [Fixture.delete_event] /\
    packages w' = [Package.with_status Package.DEL_REQ Fixture.stored_aip].
Proof.
  destruct (@delete_request_recorded Fixture.can_delete
              (Fixture.model_resource Package.t (Some (PDict Fixture.delete_body)))
              (Fixture.client_request "post")
              (Fixture.detail (Package.uuid Fixture.stored_aip))
              Fixture.stored_world Fixture.stored_aip Fixture.delete_body
              (PStr "no longer needed") (PStr (Pipeline.uuid Fixture.pipeline))
              (PInt 1) (PStr "archivist@example.org") Fixture.pipeline)
    as (w' & Hrun & Hev & _ & Hrows & _);
    try reflexivity.
  - repeat split.
  - exists w'. repeat split; assumption.
Defined.


Lemma pointer_file_after_intake_witness :
  exists self' w',
    intake (Package.with_id 1 (Fixture.compressed_aip Fixture.as_location))
      Fixture.cp_location (PStr Fixture.compressed_name) Fixture.created_world
    = (Return self', w') /\
    pointer_file_request
      (PackageResource (Fixture.model_resource Package.t None))
      (Fixture.client_request "get")
      (Fixture.detail "5658e603-277b-4292-9b58-20bf261c8f88") w'
    = (Return {| status_code := 200;
                 body := FileStream "/var/archivematica/sharedDirectory/www/AIPsStore/5658/e603/277b/4292/9b58/20bf/261c/8f88/pointer.5658e603-277b-4292-9b58-20bf261c8f88.xml" |},
       w').
Proof.
  assert (Hchecks :
    passes_checks (PackageResource (Fixture.model_resource Package.t None))
      (Fixture.client_request "get") ["get"]) by (repeat split).
  destruct (proj1 (proj2 (@pointer_file_after_intake
              (Fixture.model_resource Package.t None)
              (Fixture.client_request "get")
              (Fixture.detail "5658e603-277b-4292-9b58-20bf261c8f88")
              Hchecks))
              Fixture.created_world
              (Package.with_id 1 (Fixture.compressed_aip Fixture.as_location))
              Fixture.cp_location Fixture.compressed_name File)
    as (self' & w' & Hrun & _ & _ & _ & _ & (_ & Hptr)).
  - reflexivity.
  - repeat constructor. intros [].
  - reflexivity.
  - exists self', w'. split; [exact Hrun|exact Hptr].
Defined.

Lemma post_detail_not_atomic_witness :
  post_detail
    (LocationResource (Fixture.model_resource Location.t (Some (PDict Fixture.move_body))))
    (Fixture.client_request "post")
    (Fixture.detail (Location.uuid Fixture.as_location)) Fixture.world
  = (Return HttpBadRequest_class,
     set_calls
       (moves_for Fixture.cp_location Fixture.as_location ("a.txt", "x/a.txt"))
       Fixture.world).
Proof.
  refine (proj1 (@post_detail_not_atomic
            (Fixture.model_resource Location.t (Some (PDict Fixture.move_body)))
            (Fixture.client_request "post")
            (Fixture.detail (Location.uuid Fixture.as_location))
            Fixture.world Fixture.move_body Fixture.as_location Fixture.cp_location
            (PStr ("/api/v2/location/" ++ Location.uuid Fixture.cp_location ++ "/"))
            [PDict [("source", PStr "a.txt"); ("destination", PStr "x/a.txt")]]
            [PDict [("source", PStr "c.txt"); ("destination", PStr "x/c.txt")]]
            (PDict [("source", PStr "b.txt")])
            _ _ _ _ _ _ _ _)); try reflexivity.
  repeat constructor. discriminate.
Defined.

Lemma deletion_requests_serial_witness :
  exists a' b' w',
    run_schedule serial
      (start Fixture.stored_aip Fixture.pipeline Fixture.delete_body)
      (start Fixture.stored_aip Fixture.pipeline Fixture.delete_body)
      Fixture.stored_world = (a', b', w') /\
    h_pc a' = Done (Return delete_request_created) /\
    h_pc b' = Done (Return delete_request_exists) /\
    events w' = [Fixture.delete_event].
Proof.
  destruct (proj1 (@deletion_requests_serial
              Fixture.stored_aip Fixture.stored_aip
              Fixture.pipeline Fixture.pipeline
              Fixture.delete_body Fixture.delete_body
              Fixture.stored_world Fixture.delete_event
              eq_refl eq_refl eq_refl))
    as (a' & b' & w' & Hrun & Ha & Hb & Hev & _).
  exists a', b', w'. repeat split; assumption.
Defined.

(** ** The integration tests, replayed on the model *)

Example test_store_compressed_aip :
  exists b w,
    obj_create Fixture.package_tags Fixture.location_tags
      Fixture.build_related_resource
      (Fixture.submission (Fixture.compressed_aip Fixture.as_location))
      Fixture.world = (Return b, w) /\
    Package.uuid (obj b) = "5658e603-277b-4292-9b58-20bf261c8f88" /\
    Package_full_path (obj b)
    = "/var/archivematica/sharedDirectory/www/AIPsStore/5658/e603/277b/4292/9b58/20bf/261c/8f88/20200513054116-5658e603-277b-4292-9b58-20bf261c8f88.7z" /\
    Package.size (obj b) = 12191%Z /\
    exists_on_disk (Package_full_path (obj b)) w = true /\
    exists r,
      fst (pointer_file_request
             (PackageResource (Fixture.model_resource Package.t None))
             (Fixture.client_request "get")
             (Fixture.detail "5658e603-277b-4292-9b58-20bf261c8f88") w)
      = Return r /\ status_code r = 200%Z.
Proof.
  eexists. eexists. split; [vm_compute; reflexivity|].
  repeat split. eexists. split; [vm_compute; reflexivity|reflexivity].
Qed.

Example test_store_uncompressed_aip :
  exists b w,
    obj_create Fixture.package_tags Fixture.location_tags
      Fixture.build_related_resource
      (Fixture.submission (Fixture.uncompressed_aip Fixture.as_location))
      Fixture.world = (Return b, w) /\
    Package_full_path (obj b)
    = "/var/archivematica/sharedDirectory/www/AIPsStore/828c/44bb/e631/4137/8638/bda4/4342/18dc/20200513060703-828c44bb-e631-4137-8638-bda4434218dc" /\
    exists r,
      fst (pointer_file_request
             (PackageResource (Fixture.model_resource Package.t None))
             (Fixture.client_request "get")
             (Fixture.detail "828c44bb-e631-4137-8638-bda4434218dc") w)
      = Return r /\ status_code r = 404%Z.
Proof.
  eexists. eexists. split; [vm_compute; reflexivity|].
  split; [reflexivity|].
  eexists. split; [vm_compute; reflexivity|reflexivity].
Qed.

Example racy_requests_both_accepted :
  exists a b w,
    run_schedule racy
      (start Fixture.stored_aip Fixture.pipeline Fixture.delete_body)
      (start Fixture.stored_aip Fixture.pipeline Fixture.delete_body)
      Fixture.stored_world = (a, b, w) /\
    h_pc a = Done (Return delete_request_created) /\
    h_pc b = Done (Return delete_request_created) /\
    events w = [Fixture.delete_event; Fixture.delete_event].
Proof.
  eexists. eexists. eexists. split; [vm_compute; reflexivity|].
  repeat split.
Qed.

Example backlog_aip_is_kept :
  exists b w,
    obj_create Fixture.package_tags Fixture.location_tags
      Fixture.build_related_resource
      (Fixture.submission (Fixture.compressed_aip Fixture.bl_location))
      Fixture.world = (Return b, w) /\
    Package.status (obj b) = Package.FAIL /\
    packages w = [obj b] /\ fs w = fs Fixture.world /\ calls w = [].
Proof.
  eexists. eexists. split; [vm_compute; reflexivity|]. repeat split.
Qed.

(** Line 438 at work: the empty string occurs inside every tag, so a
    submission without a package type whose destination is a Backlog
    location is handed to [backlog_transfer] and stored. *)
Example untyped_package_is_backlogged :
  exists b w,
    obj_create Fixture.package_tags Fixture.location_tags
      Fixture.build_related_resource
      (Fixture.submission Scenario.untyped_package)
      Fixture.world = (Return b, w) /\
    Package.package_type (obj b) = "" /\
    Package.status (obj b) = Package.UPLOADED /\
    exists_on_disk (Package_full_path (obj b)) w = true.
Proof.
  eexists. eexists. split; [vm_compute; reflexivity|]. repeat split.
Qed.

(** Line 82 at work on a list: a body that lists the four field names
    passes the test of the required fields, so the wrapped function runs,
    and fails when it indexes the list by name. *)
Example names_only_body_is_dispatched :
  py_all_in ["event_reason"; "pipeline"; "user_id"; "user_email"]
            Scenario.names_only_body = Some true /\
  delete_aip_request Fixture.can_delete
    (PackageResource (Fixture.model_resource Package.t (Some Scenario.names_only_body)))
    (Fixture.client_request "post")
    (Fixture.detail (Package.uuid Fixture.stored_aip)) Fixture.stored_world
  = delete_aip_request_func Fixture.can_delete
      (PackageResource (Fixture.model_resource Package.t (Some Scenario.names_only_body)))
      (Fixture.client_request "post")
      {| obj := Fixture.stored_aip; data := Scenario.names_only_body;
         request := Fixture.client_request "post" |}
      (Fixture.detail (Package.uuid Fixture.stored_aip)) Fixture.stored_world /\
  delete_aip_request Fixture.can_delete
    (PackageResource (Fixture.model_resource Package.t (Some Scenario.names_only_body)))
    (Fixture.client_request "post")
    (Fixture.detail (Package.uuid Fixture.stored_aip)) Fixture.stored_world
  = (Raise TypeError, Fixture.stored_world).
Proof. repeat split. Qed.

(** * Further properties of the resources *)

(** ** The endpoint wrapper *)

Lemma py_all_in_true (keys : list string) (v : pyval) :
  py_all_in keys v = Some true <-> Forall (fun k => py_in k v = Some true) keys.
Proof.
  induction keys as [|k keys IH]; cbn [py_all_in].
  - split; [constructor|reflexivity].
  - split.
    + destruct (py_in k v) as [[|]|] eqn:Hk; try discriminate.
      intros H. constructor; [exact Hk|now apply IH].
    + intros H. inversion H as [|? ? Hk Hrest]; subst. rewrite Hk. now apply IH.
Qed.

Lemma py_all_in_raises (keys : list string) (v : pyval) :
  py_all_in keys v = None -> not_a_container v = true /\ keys <> [].
Proof.
  induction keys as [|k keys IH]; cbn [py_all_in]; [discriminate|].
  destruct (py_in k v) as [[|]|] eqn:Hk; try discriminate.
  - intros H. split; [now apply IH|discriminate].
  - intros _. split; [|discriminate].
    destruct v; try reflexivity; discriminate Hk.
Qed.

(** A request that passes the checks, names exactly one record and
    carries every required field reaches the wrapped function, with a
    bundle made of that record, the decoded body and the request; a field
    is carried by a body that is a dict with that key, and also by a list
    with that element and by a string in which it occurs.  With no required
    field, a body that cannot be decoded reaches the function too, as the
    empty list. *)
Theorem custom_endpoint_dispatches
    (O : Type) (resource : Resource O)
    (expected_methods required_fields : list string)
    (func : Resource O -> HttpRequest -> Bundle O -> Kwargs -> M HttpResponse)
    (request : HttpRequest) (kwargs : Kwargs) (w : World) (o : O)
    (Hchecks : passes_checks resource request expected_methods)
    (Hfound : objects_get (fun o => String.eqb (uuid_of resource o) (kw_uuid kwargs))
                          (queryset resource w) = Found o) :
  (Forall (fun k => py_in k (deserialized_body resource request) = Some true)
          required_fields ->
   _custom_endpoint expected_methods required_fields func resource request kwargs w
   = func resource request
       (alter_detail_data_to_serialize resource request
          {| obj := o; data := deserialized_body resource request;
             request := request |})
       kwargs w) /\
  (forall d,
     deserialized_body resource request = PDict d ->
     Forall (fun k => dict_has k d = true) required_fields ->
     _custom_endpoint expected_methods required_fields func resource request kwargs w
     = func resource request
         (alter_detail_data_to_serialize resource request
            {| obj := o; data := PDict d; request := request |})
         kwargs w) /\
  (deserialize resource request (raw_body request) (content_type_of request) = None ->
   _custom_endpoint expected_methods [] func resource request kwargs w
   = func resource request
       (alter_detail_data_to_serialize resource request
          {| obj := o; data := PList []; request := request |})
       kwargs w) /\
  In o (queryset resource w) /\ uuid_of resource o = kw_uuid kwargs.
Proof.
  destruct (objects_get_found_in _ _ Hfound) as [Hin Hu].
  apply String.eqb_eq in Hu.
  split; [|split; [|split; [|split; assumption]]].
  - intros Hall. apply custom_endpoint_passes; try assumption.
    now apply py_all_in_true.
  - intros d Hd Hall. rewrite <- Hd. apply custom_endpoint_passes; try assumption.
    rewrite Hd, py_all_in_dict. f_equal.
    apply forallb_forall. now rewrite Forall_forall in Hall.
  - intros Hraise.
    rewrite custom_endpoint_passes with (o := o) by (assumption || reflexivity).
    unfold deserialized_body. now rewrite Hraise.
Qed.

Lemma custom_endpoint_dispatches_witness :
  delete_aip_request Fixture.can_delete
    (PackageResource (Fixture.model_resource Package.t (Some (PDict Fixture.delete_body))))
    (Fixture.client_request "post")
    (Fixture.detail (Package.uuid Fixture.stored_aip)) Fixture.stored_world
  = delete_aip_request_func Fixture.can_delete
      (PackageResource (Fixture.model_resource Package.t (Some (PDict Fixture.delete_body))))
      (Fixture.client_request "post")
      {| obj := Fixture.stored_aip; data := PDict Fixture.delete_body;
         request := Fixture.client_request "post" |}
      (Fixture.detail (Package.uuid Fixture.stored_aip)) Fixture.stored_world.
Proof.
  refine (proj1 (@custom_endpoint_dispatches Package.t
            (PackageResource (Fixture.model_resource Package.t (Some (PDict Fixture.delete_body))))
            ["post"] ["event_reason"; "pipeline"; "user_id"; "user_email"]
            (delete_aip_request_func Fixture.can_delete)
            (Fixture.client_request "post")
            (Fixture.detail (Package.uuid Fixture.stored_aip))
            Fixture.stored_world Fixture.stored_aip _ _) _).
  - repeat split.
  - reflexivity.
  - repeat constructor.
Defined.

(** Whatever the request, the wrapped function runs only behind the
    guards: either it is called, on a record of the queryset that carries
    the requested UUID and with data in which every required field occurs,
    by a request that passed the checks; or it is not called and the state
    is left as it was, and then the wrapper either raises the response of a
    failed check, or raises [TypeError] because fields are required and the
    body is no container, or answers with status 404, 300 or 400. *)
Theorem custom_endpoint_guards
    (O : Type) (resource : Resource O)
    (expected_methods required_fields : list string)
    (func : Resource O -> HttpRequest -> Bundle O -> Kwargs -> M HttpResponse)
    (request : HttpRequest) (kwargs : Kwargs) (w : World) :
  let result :=
    _custom_endpoint expected_methods required_fields func resource request kwargs w in
  (exists o,
     passes_checks resource request expected_methods /\
     In o (queryset resource w) /\
     uuid_of resource o = kw_uuid kwargs /\
     Forall (fun k => py_in k (deserialized_body resource request) = Some true)
            required_fields /\
     result = func resource request
                (alter_detail_data_to_serialize resource request
                   {| obj := o; data := deserialized_body resource request;
                      request := request |})
                kwargs w)
  \/
  (snd result = w /\
   ((exists r, fst result = Raise (ImmediateHttpResponse r)) \/
    (fst result = Raise TypeError /\
     not_a_container (deserialized_body resource request) = true /\
     required_fields <> []) \/
    (exists r, fst result = Return r /\
               (status_code r = 404 \/ status_code r = 300 \/ status_code r = 400)%Z))).
Proof.
  cbv zeta. unfold _custom_endpoint.
  destruct (method_check resource request expected_methods) as [r|] eqn:Hm.
  { right. split; [reflexivity|]. left. now exists r. }
  destruct (is_authenticated resource request) as [r|] eqn:Ha.
  { right. split; [reflexivity|]. left. now exists r. }
  destruct (throttle_check resource request) as [r|] eqn:Ht.
  { right. split; [reflexivity|]. left. now exists r. }
  destruct (objects_get _ _) as [o| |] eqn:Hget.
  - destruct (py_all_in required_fields _) as [[|]|] eqn:Hall.
    + left. exists o.
      destruct (objects_get_found_in _ _ Hget) as [Hin Hu].
      apply String.eqb_eq in Hu.
      repeat split; try assumption.
      now apply py_all_in_true.
    + right. split; [reflexivity|]. right. right.
      eexists. split; [reflexivity|]. auto.
    + right. split; [reflexivity|]. right. left.
      destruct (py_all_in_raises _ _ Hall). now repeat split.
  - right. split; [reflexivity|]. right. right.
    eexists. split; [reflexivity|]. auto.
  - right. split; [reflexivity|]. right. right.
    eexists. split; [reflexivity|]. auto.
Qed.

(** When more than one record carries the requested UUID the answer is
    MultipleChoices, status 300; the wrapped function is not called and
    the state does not change. *)
Theorem custom_endpoint_multiple_records
    (O : Type) (resource : Resource O)
    (expected_methods required_fields : list string)
    (request : HttpRequest) (kwargs : Kwargs) (w : World) (o1 o2 : O)
    (rest : list O)
    (Hchecks : passes_checks resource request expected_methods)
    (Hmany : filter (fun o => String.eqb (uuid_of resource o) (kw_uuid kwargs))
                    (queryset resource w) = o1 :: o2 :: rest) :
  forall func,
    _custom_endpoint expected_methods required_fields func resource request kwargs w
    = (Return {| status_code := 300;
                 body := Text "More than one resource is found at this URI." |}, w).
Proof.
  intros func. destruct Hchecks as (Hm & Ha & Ht).
  unfold _custom_endpoint, objects_get. now rewrite Hm, Ha, Ht, Hmany.
Qed.

Lemma custom_endpoint_multiple_records_witness :
  pointer_file_request
    (Scenario.doubled (Fixture.model_resource Package.t None))
    (Fixture.client_request "get")
    (Fixture.detail (Package.uuid Fixture.stored_aip)) Fixture.stored_world
  = (Return {| status_code := 300;
               body := Text "More than one resource is found at this URI." |},
     Fixture.stored_world).
Proof.
  refine (@custom_endpoint_multiple_records Package.t
            (Scenario.doubled (Fixture.model_resource Package.t None))
            ["get"] [] (Fixture.client_request "get")
            (Fixture.detail (Package.uuid Fixture.stored_aip))
            Fixture.stored_world Fixture.stored_aip Fixture.stored_aip [] _ _ _).
  - repeat split.
  - reflexivity.
Defined.

(** The checks come first and in the order method, authentication,
    throttle: a request refused by one of them has that response raised
    whatever its UUID and body are, also when no such record exists. *)
Theorem custom_endpoint_checks_first
    (O : Type) (resource : Resource O)
    (expected_methods required_fields : list string)
    (func : Resource O -> HttpRequest -> Bundle O -> Kwargs -> M HttpResponse)
    (request : HttpRequest) (kwargs : Kwargs) (w : World) (r : HttpResponse) :
  (method_check resource request expected_methods = Some r ->
   _custom_endpoint expected_methods required_fields func resource request kwargs w
   = (Raise (ImmediateHttpResponse r), w)) /\
  (method_check resource request expected_methods = None ->
   is_authenticated resource request = Some r ->
   _custom_endpoint expected_methods required_fields func resource request kwargs w
   = (Raise (ImmediateHttpResponse r), w)) /\
  (method_check resource request expected_methods = None ->
   is_authenticated resource request = None ->
   throttle_check resource request = Some r ->
   _custom_endpoint expected_methods required_fields func resource request kwargs w
   = (Raise (ImmediateHttpResponse r), w)).
Proof.
  unfold _custom_endpoint. repeat split.
  - now intros ->.
  - now intros -> ->.
  - now intros -> -> ->.
Qed.

Lemma custom_endpoint_checks_first_witness :
  delete_aip_request Fixture.can_delete
    (PackageResource (Fixture.model_resource Package.t None))
    (Fixture.client_request "get") (Fixture.detail "no-such-uuid")
    Fixture.stored_world
  = (Raise (ImmediateHttpResponse HttpMethodNotAllowed), Fixture.stored_world).
Proof.
  exact (proj1 (@custom_endpoint_checks_first Package.t
           (PackageResource (Fixture.model_resource Package.t None))
           ["post"] ["event_reason"; "pipeline"; "user_id"; "user_email"]
           (delete_aip_request_func Fixture.can_delete)
           (Fixture.client_request "get") (Fixture.detail "no-such-uuid")
           Fixture.stored_world HttpMethodNotAllowed) eq_refl).
Defined.

(** ** Deletion requests: refusals, repetition and what is left alone *)

Lemma delete_endpoint_valid
    (can_delete : list string) (base : Resource Package.t)
    (request : HttpRequest) (kwargs : Kwargs) (w : World) (package : Package.t)
    (body : dict) :
  passes_checks (PackageResource base) request ["post"] ->
  objects_get (fun o => String.eqb (Package.uuid o) (kw_uuid kwargs)) (packages w)
  = Found package ->
  deserialize base request (raw_body request) (content_type_of request)
  = Some (PDict body) ->
  forallb (fun k => dict_has k body)
          ["event_reason"; "pipeline"; "user_id"; "user_email"] = true ->
  delete_aip_request can_delete (PackageResource base) request kwargs w
  = delete_aip_request_func can_delete (PackageResource base) request
      {| obj := package; data := PDict body; request := request |} kwargs w.
Proof.
  intros Hchecks Hfound Hbody Hfields.
  assert (Hb : deserialized_body (PackageResource base) request = PDict body).
  { unfold deserialized_body. cbn [deserialize PackageResource
      alter_deserialized_detail_data]. now rewrite Hbody. }
  unfold delete_aip_request.
  rewrite custom_endpoint_passes with (o := package);
    [|assumption|assumption|now rewrite Hb, py_all_in_dict, Hfields].
  now rewrite Hb.
Qed.

(** A deletion request for a package whose type cannot be deleted is
    answered with MethodNotAllowed, whether or not the pipeline it names
    exists and whatever the event log holds; nothing is recorded. *)
Theorem delete_request_wrong_type
    (can_delete : list string) (base : Resource Package.t)
    (request : HttpRequest) (kwargs : Kwargs) (w : World) (package : Package.t)
    (body : dict)
    (Hchecks : passes_checks (PackageResource base) request ["post"])
    (Hfound : objects_get (fun o => String.eqb (Package.uuid o) (kw_uuid kwargs))
                          (packages w) = Found package)
    (Hbody : deserialize base request (raw_body request) (content_type_of request)
             = Some (PDict body))
    (Hfields : forallb (fun k => dict_has k body)
                 ["event_reason"; "pipeline"; "user_id"; "user_email"] = true)
    (Htype : in_tuple String.eqb (Package.package_type package) can_delete
             = false) :
  delete_aip_request can_delete (PackageResource base) request kwargs w
  = (Return {| status_code := 405; body := Empty |}, w).
Proof.
  rewrite delete_endpoint_valid with (package := package) (body := body)
    by assumption.
  unfold delete_aip_request_func. cbn [obj data]. now rewrite Htype.
Qed.

Lemma delete_request_wrong_type_witness :
  delete_aip_request Fixture.can_delete
    (PackageResource
       (Fixture.model_resource Package.t (Some (PDict Scenario.unknown_pipeline_body))))
    (Fixture.client_request "post")
    (Fixture.detail (Package.uuid Scenario.stored_dip)) Scenario.two_packages
  = (Return {| status_code := 405; body := Empty |}, Scenario.two_packages).
Proof.
  refine (@delete_request_wrong_type Fixture.can_delete
            (Fixture.model_resource Package.t (Some (PDict Scenario.unknown_pipeline_body)))
            (Fixture.client_request "post")
            (Fixture.detail (Package.uuid Scenario.stored_dip))
            Scenario.two_packages Scenario.stored_dip
            Scenario.unknown_pipeline_body _ _ _ _ _); try reflexivity.
  repeat split.
Defined.

(** A deletion request that names a pipeline the database does not hold
    ends in [Pipeline.DoesNotExist]; no event is recorded and the package
    keeps its status. *)
Theorem delete_request_unknown_pipeline
    (can_delete : list string) (base : Resource Package.t)
    (request : HttpRequest) (kwargs : Kwargs) (w : World) (package : Package.t)
    (body : dict) (pipeline_uuid : string)
    (Hchecks : passes_checks (PackageResource base) request ["post"])
    (Hfound : objects_get (fun o => String.eqb (Package.uuid o) (kw_uuid kwargs))
                          (packages w) = Found package)
    (Hbody : deserialize base request (raw_body request) (content_type_of request)
             = Some (PDict body))
    (Hfields : forallb (fun k => dict_has k body)
                 ["event_reason"; "pipeline"; "user_id"; "user_email"] = true)
    (Hdeletable : in_tuple String.eqb (Package.package_type package) can_delete
                  = true)
    (Hpu : dict_get "pipeline" body = Some (PStr pipeline_uuid))
    (Hunknown : forall p, In p (pipelines w) -> Pipeline.uuid p <> pipeline_uuid) :
  delete_aip_request can_delete (PackageResource base) request kwargs w
  = (Raise (DoesNotExist "Pipeline"), w).
Proof.
  rewrite delete_endpoint_valid with (package := package) (body := body)
    by assumption.
  unfold delete_aip_request_func. cbn [obj data]. rewrite Hdeletable. cbn [negb].
  unfold bind, getitem. rewrite Hpu. cbn [ret].
  unfold Pipeline_objects_get, objects_get.
  replace (filter _ (pipelines w)) with (@nil Pipeline.t); [reflexivity|].
  symmetry. induction (pipelines w) as [|p ps IH]; [reflexivity|].
  cbn [filter].
  assert (Hp : Pipeline.uuid p <> pipeline_uuid) by (apply Hunknown; now left).
  apply String.eqb_neq in Hp. rewrite Hp.
  apply IH. intros q Hq. apply Hunknown. now right.
Qed.

Lemma delete_request_unknown_pipeline_witness :
  delete_aip_request Fixture.can_delete
    (PackageResource
       (Fixture.model_resource Package.t (Some (PDict Scenario.unknown_pipeline_body))))
    (Fixture.client_request "post")
    (Fixture.detail (Package.uuid Fixture.stored_aip)) Fixture.stored_world
  = (Raise (DoesNotExist "Pipeline"), Fixture.stored_world).
Proof.
  refine (@delete_request_unknown_pipeline Fixture.can_delete
            (Fixture.model_resource Package.t (Some (PDict Scenario.unknown_pipeline_body)))
            (Fixture.client_request "post")
            (Fixture.detail (Package.uuid Fixture.stored_aip))
            Fixture.stored_world Fixture.stored_aip
            Scenario.unknown_pipeline_body "ffffffff-ffff-4fff-8fff-ffffffffffff"
            _ _ _ _ _ _ _); try reflexivity.
  - repeat split.
  - intros p [<-|[]]. discriminate.
Defined.

Lemma submit_deletion_records (package : Package.t) (pipeline : Pipeline.t)
    (info : dict) (e : Event.t) (w : World) :
  existing_requests package w = 0%nat ->
  new_delete_request package pipeline info w = (Return e, w) ->
  submit_deletion package pipeline info w
  = (Return delete_request_created,
     Package_save (Package.with_status Package.DEL_REQ package) (Event_save e w)).
Proof.
  intros Hnone He. unfold submit_deletion. rewrite Hnone. cbn [Nat.ltb Nat.leb].
  unfold bind. now rewrite He.
Qed.

(** Sending the same well-formed deletion request twice in a row: the
    first is accepted with 202, the second is answered 200 with the
    "already exists" message, and the second leaves the state exactly as
    the first left it.  Primary keys are unique. *)
Theorem delete_request_twice
    (can_delete : list string) (base : Resource Package.t)
    (request : HttpRequest) (kwargs : Kwargs) (w : World) (package : Package.t)
    (body : dict) (pipeline_uuid : pyval) (pipeline : Pipeline.t) (e : Event.t)
    (Hkeys : NoDup (map Package.id (packages w)))
    (Hchecks : passes_checks (PackageResource base) request ["post"])
    (Hfound : objects_get (fun o => String.eqb (Package.uuid o) (kw_uuid kwargs))
                          (packages w) = Found package)
    (Hbody : deserialize base request (raw_body request) (content_type_of request)
             = Some (PDict body))
    (Hfields : forallb (fun k => dict_has k body)
                 ["event_reason"; "pipeline"; "user_id"; "user_email"] = true)
    (Hpu : dict_get "pipeline" body = Some pipeline_uuid)
    (Hpipe : Pipeline_objects_get pipeline_uuid w = (Return pipeline, w))
    (Hdeletable : in_tuple String.eqb (Package.package_type package) can_delete
                  = true)
    (Hnone : existing_requests package w = 0%nat)
    (Hevent : new_delete_request package pipeline body w = (Return e, w)) :
  exists w',
    delete_aip_request can_delete (PackageResource base) request kwargs w
    = (Return delete_request_created, w') /\
    delete_aip_request can_delete (PackageResource base) request kwargs w'
    = (Return delete_request_exists, w') /\
    events w' = (events w ++ [e])%list.
Proof.
  set (package' := Package.with_status Package.DEL_REQ package).
  exists (Package_save package' (Event_save e w)).
  destruct (objects_get_found_in _ _ Hfound) as [Hin Hu].
  apply String.eqb_eq in Hu.
  assert (Hin' : In package (packages (Event_save e w))) by exact Hin.
  destruct (package_save_member package package' (Event_save e w) Hin' eq_refl)
    as (Hrows & _ & Hev & _ & _).
  destruct (new_delete_request_cases package pipeline body w)
    as [(e' & He' & Hp & Hs & _)|(x & Hx)]; [|congruence].
  assert (e' = e) by congruence. subst e'.
  split; [|split].
  - rewrite delete_endpoint_valid with (package := package) (body := body)
      by assumption.
    unfold delete_aip_request_func. cbn [obj data]. rewrite Hdeletable. cbn [negb].
    unfold bind, getitem. rewrite Hpu. cbn [ret]. rewrite Hpipe.
    now apply submit_deletion_records.
  - assert (Hfound' :
      objects_get (fun o => String.eqb (Package.uuid o) (kw_uuid kwargs))
        (packages (Package_save package' (Event_save e w))) = Found package').
    { rewrite Hrows. cbn [packages Event_save set_events].
      now apply lookup_after_update. }
    rewrite delete_endpoint_valid with (package := package') (body := body)
      by assumption.
    unfold delete_aip_request_func. cbn [obj data].
    cbn [package' Package.package_type Package.with_status].
    rewrite Hdeletable. cbn [negb].
    unfold bind, getitem. rewrite Hpu. cbn [ret].
    assert (Hpipe' :
      Pipeline_objects_get pipeline_uuid (Package_save package' (Event_save e w))
      = (Return pipeline, Package_save package' (Event_save e w))).
    { unfold Pipeline_objects_get in *.
      replace (pipelines (Package_save package' (Event_save e w)))
        with (pipelines w)
        by (unfold Package_save; now destruct (existsb _ _)).
      destruct (match pipeline_uuid with PStr u => _ | _ => _ end);
        now inversion Hpipe. }
    rewrite Hpipe'. apply submit_deletion_duplicate.
    rewrite (existing_requests_events _ _ _ (package_save_events _ _)).
    rewrite (@existing_requests_same_id package package' _ eq_refl).
    rewrite existing_requests_after_event by assumption. lia.
  - exact Hev.
Qed.

Lemma delete_request_twice_witness :
  exists w',
    delete_aip_request Fixture.can_delete
      (PackageResource (Fixture.model_resource Package.t (Some (PDict Fixture.delete_body))))
      (Fixture.client_request "post")
      (Fixture.detail (Package.uuid Fixture.stored_aip)) Fixture.stored_world
    = (Return delete_request_created, w') /\
    delete_aip_request Fixture.can_delete
      (PackageResource (Fixture.model_resource Package.t (Some (PDict Fixture.delete_body))))
      (Fixture.client_request "post")
      (Fixture.detail (Package.uuid Fixture.stored_aip)) w'
    = (Return delete_request_exists, w') /\
    events w' = [Fixture.delete_event].
Proof.
  refine (@delete_request_twice Fixture.can_delete
            (Fixture.model_resource Package.t (Some (PDict Fixture.delete_body)))
            (Fixture.client_request "post")
            (Fixture.detail (Package.uuid Fixture.stored_aip))
            Fixture.stored_world Fixture.stored_aip Fixture.delete_body
            (PStr (Pipeline.uuid Fixture.pipeline)) Fixture.pipeline
            Fixture.delete_event _ _ _ _ _ _ _ _ _ _); try reflexivity.
  - repeat constructor. intros [].
  - repeat split.
Defined.

Lemma package_save_frame (p : Package.t) (w : World) :
  events (Package_save p w) = events w /\
  pipelines (Package_save p w) = pipelines w /\
  locations (Package_save p w) = locations w /\
  fs (Package_save p w) = fs w /\
  calls (Package_save p w) = calls w.
Proof. unfold Package_save. destruct (existsb _ _); repeat split. Qed.

Lemma delete_func_cases (can_delete : list string)
    (self : Resource Package.t) (request : HttpRequest)
    (bundle : Bundle Package.t) (kwargs : Kwargs) (w : World) :
  (exists r, delete_aip_request_func can_delete self request bundle kwargs w = (r, w))
  \/
  (exists e,
     Event.status e = Event.SUBMITTED /\
     delete_aip_request_func can_delete self request bundle kwargs w
     = (Return delete_request_created,
        Package_save (Package.with_status Package.DEL_REQ (obj bundle))
                     (Event_save e w))).
Proof.
  unfold delete_aip_request_func.
  destruct (negb _); [left; eexists; reflexivity|].
  destruct (data bundle) as [| | | | |info]; try (left; eexists; reflexivity).
  unfold bind, getitem.
  destruct (dict_get "pipeline" info) as [pu|];
    [|left; eexists; reflexivity].
  unfold ret.
  pose proof (pipeline_get_state pu w) as Hp.
  destruct (Pipeline_objects_get pu w) as [[pl|x] w1]; cbn in Hp; subst w1;
    [|left; eexists; reflexivity].
  unfold submit_deletion.
  destruct (Nat.ltb _ 1); [|left; eexists; reflexivity].
  unfold bind.
  destruct (new_delete_request_cases (obj bundle) pl info w)
    as [(e & -> & _ & Hs & _)|(x & ->)]; [|left; eexists; reflexivity].
  right. exists e. split; [exact Hs|reflexivity].
Qed.

(** Whatever the request, the deletion endpoint leaves pipelines,
    locations, the disk and the backends alone; it never removes or
    rewrites an event, adding at most one, Submitted, at the end of the
    log; and the only change it makes to the package table is to give the
    requested package status DEL_REQ, every other row being kept. *)
Theorem delete_request_frame
    (can_delete : list string) (base : Resource Package.t)
    (request : HttpRequest) (kwargs : Kwargs) (w : World) :
  let w' := snd (delete_aip_request can_delete (PackageResource base)
                   request kwargs w) in
  pipelines w' = pipelines w /\ locations w' = locations w /\
  fs w' = fs w /\ calls w' = calls w /\
  (events w' = events w \/
   exists e, events w' = (events w ++ [e])%list /\
             Event.status e = Event.SUBMITTED) /\
  (packages w' = packages w \/
   exists p,
     In p (packages w) /\ Package.uuid p = kw_uuid kwargs /\
     packages w'
     = map (fun q => if Nat.eqb (Package.id q) (Package.id p)
                     then Package.with_status Package.DEL_REQ p else q)
           (packages w)).
Proof.
  cbv zeta.
  assert (Hsame : forall x : outcome HttpResponse * World,
    snd x = w ->
    pipelines (snd x) = pipelines w /\ locations (snd x) = locations w /\
    fs (snd x) = fs w /\ calls (snd x) = calls w /\
    (events (snd x) = events w \/
     exists e, events (snd x) = (events w ++ [e])%list /\
               Event.status e = Event.SUBMITTED) /\
    (packages (snd x) = packages w \/
     exists p,
       In p (packages w) /\ Package.uuid p = kw_uuid kwargs /\
       packages (snd x)
       = map (fun q => if Nat.eqb (Package.id q) (Package.id p)
                       then Package.with_status Package.DEL_REQ p else q)
             (packages w))).
  { intros x ->. repeat split; now left. }
  unfold delete_aip_request, _custom_endpoint.
  destruct (method_check _ _ _); [now apply Hsame|].
  destruct (is_authenticated _ _); [now apply Hsame|].
  destruct (throttle_check _ _); [now apply Hsame|].
  cbn [queryset uuid_of PackageResource].
  destruct (objects_get _ _) as [package| |] eqn:Hfound; try now apply Hsame.
  destruct (py_all_in _ _) as [[|]|]; try now apply Hsame.
  cbn [alter_detail_data_to_serialize PackageResource].
  destruct (delete_func_cases can_delete (PackageResource base) request
              (build_bundle package (deserialized_body (PackageResource base) request)
                            request) kwargs w)
    as [(r & ->)|(e & Hs & ->)]; [now apply Hsame|].
  cbn [snd obj build_bundle].
  destruct (objects_get_found_in _ _ Hfound) as [Hin Hu].
  apply String.eqb_eq in Hu.
  assert (Hin' : In package (packages (Event_save e w))) by exact Hin.
  destruct (package_save_member package
              (Package.with_status Package.DEL_REQ package)
              (Event_save e w) Hin' eq_refl) as (Hrows & _).
  destruct (package_save_frame (Package.with_status Package.DEL_REQ package)
              (Event_save e w)) as (Hev & Hpl & Hloc & Hfs & Hcalls).
  rewrite Hpl, Hloc, Hfs, Hcalls, Hev.
  repeat split.
  - right. now exists e.
  - right. exists package. repeat split; assumption.
Qed.

(** ** Download without fallback *)

(** [compress_package] is consulted only after a [StorageException]: when
    the package names its download path that file is streamed, and when
    asking for it raises anything else the exception goes through to the
    caller; in both cases the answer is the same whatever
    [compress_package] would do. *)
Theorem download_without_fallback
    (get_download_path : Package.t -> option string -> M string)
    (self : Resource Package.t) (request : HttpRequest)
    (bundle : Bundle Package.t) (kwargs : Kwargs) (w w1 : World) :
  (forall full_path,
     get_download_path (obj bundle) (chunk_number kwargs) w
     = (Return full_path, w1) ->
     forall compress_package,
       download_request_func get_download_path compress_package self request
         bundle kwargs w
       = download_file_stream (Some full_path) w1) /\
  (forall e,
     get_download_path (obj bundle) (chunk_number kwargs) w = (Raise e, w1) ->
     (forall msg, e <> StorageException msg) ->
     forall compress_package,
       download_request_func get_download_path compress_package self request
         bundle kwargs w
       = (Raise e, w1)).
Proof.
  split.
  - intros full_path Hpath compress_package.
    unfold download_request_func, bind, try_except_StorageException.
    now rewrite Hpath.
  - intros e Hraise Hother compress_package.
    unfold download_request_func, bind, try_except_StorageException.
    rewrite Hraise.
    destruct e; try reflexivity. now destruct (Hother msg).
Qed.

Lemma download_without_fallback_witness :
  download_request_func
    (fun _ _ => raise (OtherException "IOError"))
    (fun _ => ret ("/tmp/tmpXYZ/aip.tar", "/tmp/tmpXYZ"))
    (PackageResource (Fixture.model_resource Package.t None))
    (Fixture.client_request "get")
    (build_bundle Fixture.stored_aip (PList []) (Fixture.client_request "get"))
    (Fixture.detail (Package.uuid Fixture.stored_aip)) Fixture.stored_world
  = (Raise (OtherException "IOError"), Fixture.stored_world).
Proof.
  refine (proj2 (@download_without_fallback
                   (fun _ _ => raise (OtherException "IOError"))
                   (PackageResource (Fixture.model_resource Package.t None))
                   (Fixture.client_request "get")
                   (build_bundle Fixture.stored_aip (PList []) (Fixture.client_request "get"))
                   (Fixture.detail (Package.uuid Fixture.stored_aip))
                   Fixture.stored_world Fixture.stored_world)
                (OtherException "IOError") eq_refl _ _).
  intros msg. discriminate.
Defined.

(** ** Fixity: nothing invented, nothing counted twice *)

(** Every entry of the three lists of the fixity response stems from a
    failure of the matching kind, and the lists together hold as many
    entries as there are failures of the three kinds: no failure is listed
    twice and none of them is lost. *)
Theorem fixity_breakdown_sound
    (failure_str : bagit_error -> string) (failures : list bagit_error) :
  let files := fixity_breakdown failure_str failures in
  (forall info, In info (missing files) ->
     exists path, In (FileMissing path) failures /\
       info = PDict [("path", PStr path);
                     ("message", PStr (failure_str (FileMissing path)))]) /\
  (forall info, In info (changed files) ->
     exists path algorithm expected found,
       In (ChecksumMismatch path algorithm expected found) failures /\
       info = PDict [("path", PStr path); ("expected", PStr expected);
                     ("actual", PStr found); ("hash_type", PStr algorithm);
                     ("message",
                      PStr (failure_str
                              (ChecksumMismatch path algorithm expected found)))]) /\
  (forall info, In info (untracked files) ->
     exists path, In (UnexpectedFile path) failures /\
       info = PDict [("path", PStr path);
                     ("message", PStr (failure_str (UnexpectedFile path)))]) /\
  List.length (missing files) + List.length (changed files)
  + List.length (untracked files)
  = List.length (filter (fun f => match f with OtherDetail _ => false | _ => true end)
                        failures).
Proof.
  cbv zeta. unfold fixity_breakdown. rewrite fixity_fold.
  cbn [missing changed untracked app].
  split; [|split; [|split]].
  - intros info Hin. apply in_flat_map in Hin. destruct Hin as (f & Hf & Hin).
    destruct f; try contradiction. destruct Hin as [<-|[]]. now exists path.
  - intros info Hin. apply in_flat_map in Hin. destruct Hin as (f & Hf & Hin).
    destruct f; try contradiction. destruct Hin as [<-|[]].
    now exists path, algorithm, expected, found.
  - intros info Hin. apply in_flat_map in Hin. destruct Hin as (f & Hf & Hin).
    destruct f; try contradiction. destruct Hin as [<-|[]]. now exists path.
  - induction failures as [|f fs IH]; [reflexivity|].
    cbn [flat_map filter]. rewrite !length_app.
    destruct f; cbn [List.length app]; lia.
Qed.

(** ** Moving files: the other ways out of [post_detail] *)

Lemma post_detail_reaches_loop
    (base : Resource Location.t) (request : HttpRequest) (kwargs : Kwargs)
    (w : World) (body : dict) (destination_location origin_location : Location.t)
    (origin_uri files : pyval) (entries : list pyval) :
  deserialize base request (raw_body request) "application/json"
  = Some (PDict body) ->
  Location_objects_get (kw_uuid kwargs) w = Found destination_location ->
  dict_get "origin_location" body = Some origin_uri ->
  dict_has "pipeline" body = true ->
  dict_get "files" body = Some files ->
  origin_of origin_uri w = (Return origin_location, w) ->
  py_iter files w = (Return entries, w) ->
  post_detail (LocationResource base) request kwargs w
  = move_files origin_location destination_location entries w.
Proof.
  intros Hbody Hdest Huri Hpipeline Hfiles Horigin Hiter.
  unfold post_detail. cbn [deserialize alter_deserialized_detail_data LocationResource].
  rewrite Hbody, Hdest, py_all_in_dict. unfold dict_has. cbn [forallb].
  unfold dict_has in Hpipeline. rewrite Huri, Hfiles.
  destruct (dict_get "pipeline" body); [|discriminate Hpipeline].
  cbn [andb]. unfold bind at 1 2 3 4, data_getitem, getitem. rewrite Huri, Hfiles.
  cbn [ret]. rewrite Horigin. now rewrite Hiter.
Qed.

(** When every entry of [files] names a non-empty source and destination,
    all of them are moved, in list order, and the answer is the success
    message; an empty list of files is a success that moves nothing. *)
Theorem post_detail_moves_all
    (base : Resource Location.t) (request : HttpRequest) (kwargs : Kwargs)
    (w : World) (body : dict) (destination_location origin_location : Location.t)
    (origin_uri : pyval) (files : list pyval)
    (Hbody : deserialize base request (raw_body request) "application/json"
             = Some (PDict body))
    (Hdest : Location_objects_get (kw_uuid kwargs) w = Found destination_location)
    (Huri : dict_get "origin_location" body = Some origin_uri)
    (Hpipeline : dict_has "pipeline" body = true)
    (Hfiles : dict_get "files" body = Some (PList files))
    (Horigin : origin_of origin_uri w = (Return origin_location, w))
    (Hgood : Forall (fun e => entry_paths e <> None) files) :
  post_detail (LocationResource base) request kwargs w
  = (Return (Instance
       {| status_code := 200;
          body := Json (PDict [("error", PNone);
                               ("message", PStr "Files moved successfully")]) |}),
     set_calls (calls w ++ moved origin_location destination_location files) w)
  /\ List.length (moved origin_location destination_location files)
     = 4 * List.length files
  /\ (files = [] ->
      post_detail (LocationResource base) request kwargs w
      = (Return (Instance files_moved), w)).
Proof.
  assert (Hrun : post_detail (LocationResource base) request kwargs w
    = (Return (Instance files_moved),
       set_calls (calls w ++ moved origin_location destination_location files) w)).
  { rewrite post_detail_reaches_loop
      with (body := body) (destination_location := destination_location)
           (origin_location := origin_location) (origin_uri := origin_uri)
           (files := PList files) (entries := files); try assumption; try reflexivity.
    rewrite <- (app_nil_r files) at 1.
    now rewrite move_files_prefix by exact Hgood. }
  split; [exact Hrun|split].
  - clear -Hgood. induction Hgood as [|e good He _ IH]; [reflexivity|].
    cbn [moved flat_map]. fold (moved origin_location destination_location good).
    rewrite length_app, IH.
    destruct (entry_paths e) as [paths|]; [|contradiction].
    cbn [moves_for List.length]. lia.
  - intros ->. rewrite Hrun. cbn [moved flat_map]. rewrite app_nil_r.
    now destruct w.
Qed.

Lemma post_detail_moves_all_witness :
  post_detail
    (LocationResource
       (Fixture.model_resource Location.t (Some (PDict Scenario.all_movable_body))))
    (Fixture.client_request "post")
    (Fixture.detail (Location.uuid Fixture.as_location)) Fixture.world
  = (Return (Instance files_moved),
     set_calls
       (moves_for Fixture.cp_location Fixture.as_location ("a.txt", "x/a.txt")
        ++ moves_for Fixture.cp_location Fixture.as_location ("c.txt", "x/c.txt"))
       Fixture.world).
Proof.
  refine (proj1 (@post_detail_moves_all
            (Fixture.model_resource Location.t (Some (PDict Scenario.all_movable_body)))
            (Fixture.client_request "post")
            (Fixture.detail (Location.uuid Fixture.as_location))
            Fixture.world Scenario.all_movable_body
            Fixture.as_location Fixture.cp_location
            (PStr ("/api/v2/location/" ++ Location.uuid Fixture.cp_location ++ "/"))
            [PDict [("source", PStr "a.txt"); ("destination", PStr "x/a.txt")];
             PDict [("source", PStr "c.txt"); ("destination", PStr "x/c.txt")]]
            _ _ _ _ _ _ _)); try reflexivity.
  repeat constructor; discriminate.
Defined.

(** A bulk move to a location that does not exist is answered with
    NotFound, whatever the body decodes to, and moves nothing. *)
Theorem post_detail_unknown_destination
    (base : Resource Location.t) (request : HttpRequest) (kwargs : Kwargs)
    (w : World) (body : pyval)
    (Hbody : deserialize base request (raw_body request) "application/json"
             = Some body)
    (Hunknown : forall l, In l (locations w) -> Location.uuid l <> kw_uuid kwargs) :
  post_detail (LocationResource base) request kwargs w
  = (Return (Instance {| status_code := 404; body := Text "" |}), w).
Proof.
  unfold post_detail. cbn [deserialize alter_deserialized_detail_data LocationResource].
  rewrite Hbody. unfold Location_objects_get, objects_get.
  replace (filter _ (locations w)) with (@nil Location.t); [reflexivity|].
  symmetry. induction (locations w) as [|l ls IH]; [reflexivity|].
  cbn [filter].
  assert (Hl : Location.uuid l <> kw_uuid kwargs) by (apply Hunknown; now left).
  apply String.eqb_neq in Hl. rewrite Hl.
  apply IH. intros q Hq. apply Hunknown. now right.
Qed.

Lemma post_detail_unknown_destination_witness :
  post_detail
    (LocationResource
       (Fixture.model_resource Location.t (Some (PDict Scenario.all_movable_body))))
    (Fixture.client_request "post") (Fixture.detail "no-such-uuid") Fixture.world
  = (Return (Instance {| status_code := 404; body := Text "" |}), Fixture.world).
Proof.
  refine (@post_detail_unknown_destination
            (Fixture.model_resource Location.t (Some (PDict Scenario.all_movable_body)))
            (Fixture.client_request "post") (Fixture.detail "no-such-uuid")
            Fixture.world (PDict Scenario.all_movable_body) eq_refl _).
  intros l [<-|[<-|[<-|[]]]]; discriminate.
Defined.

(** A bulk move to an existing location whose body does not carry the
    three keys origin_location, pipeline and files is stopped before the
    origin location is looked at and before any file is moved, leaving the
    state as it was.  When the body is a dict that lacks one of the keys,
    the handler returns the class [http.HttpBadRequest] itself, which is
    not a response of any status.  When the body is [null], a number or a
    boolean, the test of the keys raises [TypeError].  A list or a string
    gets one of these two outcomes: the class when a key does not occur in
    it, [TypeError] when all three occur and the body is then indexed by
    name. *)
Theorem post_detail_missing_key
    (base : Resource Location.t) (request : HttpRequest) (kwargs : Kwargs)
    (w : World) (data : pyval) (destination_location : Location.t)
    (Hbody : deserialize base request (raw_body request) "application/json"
             = Some data)
    (Hdest : Location_objects_get (kw_uuid kwargs) w = Found destination_location) :
  (forall body k,
     data = PDict body ->
     In k ["origin_location"; "pipeline"; "files"] -> dict_get k body = None ->
     post_detail (LocationResource base) request kwargs w
     = (Return HttpBadRequest_class, w)) /\
  (not_a_container data = true ->
   post_detail (LocationResource base) request kwargs w = (Raise TypeError, w)) /\
  ((exists l, data = PList l) \/ (exists s, data = PStr s) ->
   post_detail (LocationResource base) request kwargs w
   = (Return HttpBadRequest_class, w) \/
   post_detail (LocationResource base) request kwargs w = (Raise TypeError, w)) /\
  (forall r : HttpResponse, HttpBadRequest_class <> Instance r).
Proof.
  unfold post_detail. cbn [deserialize alter_deserialized_detail_data LocationResource].
  rewrite Hbody, Hdest.
  split; [|split; [|split]].
  - intros body k -> Hk Hmissing. rewrite py_all_in_dict.
    assert (Hall : forallb (fun k => dict_has k body)
                           ["origin_location"; "pipeline"; "files"] = false).
    { apply not_true_is_false. intros Hall. rewrite forallb_forall in Hall.
      specialize (Hall k Hk). unfold dict_has in Hall. now rewrite Hmissing in Hall. }
    now rewrite Hall.
  - intros Hscalar. cbn [py_all_in].
    now rewrite (@py_in_scalar "origin_location" data Hscalar).
  - intros [[l ->]|[s ->]];
      (destruct (py_all_in _ _) as [[|]|]; [right|left|right]; reflexivity).
  - discriminate.
Qed.

Lemma post_detail_missing_key_witness :
  post_detail
    (LocationResource
       (Fixture.model_resource Location.t
          (Some (PDict [("origin_location", PStr "nowhere"); ("files", PList [])]))))
    (Fixture.client_request "post")
    (Fixture.detail (Location.uuid Fixture.as_location)) Fixture.world
  = (Return HttpBadRequest_class, Fixture.world)
  /\
  post_detail
    (LocationResource (Fixture.model_resource Location.t (Some (PInt 7))))
    (Fixture.client_request "post")
    (Fixture.detail (Location.uuid Fixture.as_location)) Fixture.world
  = (Raise TypeError, Fixture.world).
Proof.
  split.
  - refine (proj1 (@post_detail_missing_key
              (Fixture.model_resource Location.t
                 (Some (PDict [("origin_location", PStr "nowhere");
                               ("files", PList [])])))
              (Fixture.client_request "post")
              (Fixture.detail (Location.uuid Fixture.as_location))
              Fixture.world
              (PDict [("origin_location", PStr "nowhere"); ("files", PList [])])
              Fixture.as_location eq_refl eq_refl)
            [("origin_location", PStr "nowhere"); ("files", PList [])]
            "pipeline" eq_refl _ eq_refl).
    right. now left.
  - exact (proj1 (proj2 (@post_detail_missing_key
              (Fixture.model_resource Location.t (Some (PInt 7)))
              (Fixture.client_request "post")
              (Fixture.detail (Location.uuid Fixture.as_location))
              Fixture.world (PInt 7) Fixture.as_location eq_refl eq_refl))
            eq_refl).
Defined.

Lemma no_location_with (u : string) (w : World) :
  (forall l, In l (locations w) -> Location.uuid l <> u) ->
  Location_objects_get u w = NoMatch.
Proof.
  intros H. unfold Location_objects_get, objects_get.
  replace (filter _ (locations w)) with (@nil Location.t); [reflexivity|].
  symmetry. induction (locations w) as [|l ls IH]; [reflexivity|].
  cbn [filter].
  assert (Hl : Location.uuid l <> u) by (apply H; now left).
  apply String.eqb_neq in Hl. rewrite Hl.
  apply IH. intros q Hq. apply H. now right.
Qed.

(** When the origin URI is too short to hold a UUID in its fifth
    segment, or the UUID there names no location, the request ends in a
    [NameError]: the handler raises [NotFound], a name the module does not
    import.  Nothing is moved. *)
Theorem post_detail_unresolved_origin
    (base : Resource Location.t) (request : HttpRequest) (kwargs : Kwargs)
    (w : World) (body : dict) (destination_location : Location.t) (uri : string)
    (Hbody : deserialize base request (raw_body request) "application/json"
             = Some (PDict body))
    (Hdest : Location_objects_get (kw_uuid kwargs) w = Found destination_location)
    (Huri : dict_get "origin_location" body = Some (PStr uri))
    (Hpipeline : dict_has "pipeline" body = true)
    (Hfiles : dict_has "files" body = true)
    (Horigin :
       nth_error (split "/" uri) 4 = None \/
       exists u, nth_error (split "/" uri) 4 = Some u /\
                 forall l, In l (locations w) -> Location.uuid l <> u) :
  post_detail (LocationResource base) request kwargs w
  = (Raise (NameError "NotFound"), w).
Proof.
  unfold post_detail. cbn [deserialize alter_deserialized_detail_data LocationResource].
  rewrite Hbody, Hdest, py_all_in_dict. cbn [forallb]. rewrite Hpipeline, Hfiles.
  unfold dict_has at 1. rewrite Huri. cbn [andb].
  unfold bind at 1 2, data_getitem, getitem at 1. rewrite Huri. cbn [ret origin_of].
  destruct Horigin as [Hshort|(u & Hu & Hnone)].
  - now rewrite Hshort.
  - rewrite Hu. now rewrite (@no_location_with u w Hnone).
Qed.

Lemma post_detail_unresolved_origin_witness :
  post_detail
    (LocationResource
       (Fixture.model_resource Location.t (Some (PDict Scenario.short_origin_body))))
    (Fixture.client_request "post")
    (Fixture.detail (Location.uuid Fixture.as_location)) Fixture.world
  = (Raise (NameError "NotFound"), Fixture.world).
Proof.
  refine (@post_detail_unresolved_origin
            (Fixture.model_resource Location.t (Some (PDict Scenario.short_origin_body)))
            (Fixture.client_request "post")
            (Fixture.detail (Location.uuid Fixture.as_location))
            Fixture.world Scenario.short_origin_body Fixture.as_location
            "/api/v2/location" eq_refl eq_refl eq_refl eq_refl eq_refl _).
  left. reflexivity.
Defined.

(** An entry of [files] that is not a dictionary stops the move with an
    [AttributeError]; the files listed before it have been moved and stay
    moved. *)
Theorem post_detail_stray_entry
    (base : Resource Location.t) (request : HttpRequest) (kwargs : Kwargs)
    (w : World) (body : dict) (destination_location origin_location : Location.t)
    (origin_uri : pyval) (good rest : list pyval) (stray : pyval)
    (Hbody : deserialize base request (raw_body request) "application/json"
             = Some (PDict body))
    (Hdest : Location_objects_get (kw_uuid kwargs) w = Found destination_location)
    (Huri : dict_get "origin_location" body = Some origin_uri)
    (Hpipeline : dict_has "pipeline" body = true)
    (Hfiles : dict_get "files" body = Some (PList (good ++ stray :: rest)))
    (Horigin : origin_of origin_uri w = (Return origin_location, w))
    (Hgood : Forall (fun e => entry_paths e <> None) good)
    (Hstray : forall d, stray <> PDict d) :
  post_detail (LocationResource base) request kwargs w
  = (Raise AttributeError,
     set_calls (calls w ++ moved origin_location destination_location good) w).
Proof.
  rewrite post_detail_reaches_loop
    with (body := body) (destination_location := destination_location)
         (origin_location := origin_location) (origin_uri := origin_uri)
         (files := PList (good ++ stray :: rest)) (entries := (good ++ stray :: rest)%list);
    try assumption; try reflexivity.
  rewrite move_files_prefix by exact Hgood.
  cbn [move_files]. unfold bind at 1, py_get.
  destruct stray; try reflexivity. now destruct (Hstray d).
Qed.

Lemma post_detail_stray_entry_witness :
  post_detail
    (LocationResource
       (Fixture.model_resource Location.t (Some (PDict Scenario.stray_entry_body))))
    (Fixture.client_request "post")
    (Fixture.detail (Location.uuid Fixture.as_location)) Fixture.world
  = (Raise AttributeError,
     set_calls
       (moves_for Fixture.cp_location Fixture.as_location ("a.txt", "x/a.txt"))
       Fixture.world).
Proof.
  refine (@post_detail_stray_entry
            (Fixture.model_resource Location.t (Some (PDict Scenario.stray_entry_body)))
            (Fixture.client_request "post")
            (Fixture.detail (Location.uuid Fixture.as_location))
            Fixture.world Scenario.stray_entry_body
            Fixture.as_location Fixture.cp_location
            (PStr ("/api/v2/location/" ++ Location.uuid Fixture.cp_location ++ "/"))
            [PDict [("source", PStr "a.txt"); ("destination", PStr "x/a.txt")]]
            [] (PStr "b.txt") _ _ _ _ _ _ _ _); try reflexivity.
  - repeat constructor. discriminate.
  - intros d. discriminate.
Defined.

(** ** Browsing, intake with a bad origin, extraction *)

(** On the unversioned location resource, browsing an existing location
    always ends in [NotImplementedError], whatever path is asked for;
    the state is not touched. *)
Theorem browse_not_implemented
    (base : Resource Location.t) (request : HttpRequest) (kwargs : Kwargs)
    (w : World) (location : Location.t)
    (Hchecks : passes_checks (LocationResource base) request ["get"])
    (Hfound : objects_get (fun o => String.eqb (Location.uuid o) (kw_uuid kwargs))
                          (locations w) = Found location) :
  browse (LocationResource base) request kwargs w
  = (Raise (NotImplementedError
              "This method should be accessed via a versioned subclass"), w).
Proof.
  unfold browse.
  now rewrite custom_endpoint_passes with (o := location)
    by (assumption || reflexivity).
Qed.

Lemma browse_not_implemented_witness :
  browse (LocationResource (Fixture.model_resource Location.t None))
    (Fixture.client_request "get")
    (Fixture.detail (Location.uuid Fixture.as_location)) Fixture.world
  = (Raise (NotImplementedError
              "This method should be accessed via a versioned subclass"),
     Fixture.world).
Proof.
  refine (@browse_not_implemented (Fixture.model_resource Location.t None)
            (Fixture.client_request "get")
            (Fixture.detail (Location.uuid Fixture.as_location))
            Fixture.world Fixture.as_location _ eq_refl).
  repeat split.
Defined.

(** The package record is saved before the origin location is resolved:
    when resolving it raises, the exception reaches the caller, yet the
    new record, under a primary key no other row has, is in the table,
    while nothing was stored. *)
Theorem obj_create_unresolved_origin
    (package_tags : Package.tags) (location_tags : Location.tags)
    (build_related_resource : pyval -> HttpRequest -> World -> outcome Location.t)
    (bundle : Bundle Package.t) (d : dict) (w : World) (e : exn)
    (Hdata : data bundle = PDict d)
    (Horigin :
       build_related_resource (get_or_False "origin_location" d)
         (request bundle)
         (set_packages
            (packages w ++ [Package.with_id (next_id (packages w)) (obj bundle)]) w)
       = Raise e) :
  let created := Package.with_id (next_id (packages w)) (obj bundle) in
  exists w',
    obj_create package_tags location_tags build_related_resource bundle w
    = (Raise e, w') /\
    packages w' = (packages w ++ [created])%list /\
    (forall q, In q (packages w) -> Package.id q <> Package.id created) /\
    fs w' = fs w /\ calls w' = calls w /\ events w' = events w.
Proof.
  intros created. subst created.
  exists (set_packages
            (packages w ++ [Package.with_id (next_id (packages w)) (obj bundle)]) w).
  split; [|repeat split].
  - unfold obj_create, bind at 1 2 3, Package_insert, data_get_or_False.
    rewrite Hdata. cbn [ret]. rewrite Horigin. reflexivity.
  - intros q Hq. cbn [Package.id Package.with_id]. now apply id_below_next.
Qed.

Lemma obj_create_unresolved_origin_witness :
  exists w',
    obj_create Fixture.package_tags Fixture.location_tags
      Fixture.build_related_resource
      {| obj := Fixture.compressed_aip Fixture.as_location;
         data := PDict [("origin_location", PStr "/api/v2/location/");
                        ("origin_path", PStr Fixture.compressed_name)];
         request := Fixture.client_request "put" |}
      Fixture.world
    = (Raise (NameError "NotFound"), w') /\
    packages w' = [Package.with_id 1 (Fixture.compressed_aip Fixture.as_location)] /\
    fs w' = fs Fixture.world.
Proof.
  destruct (@obj_create_unresolved_origin
              Fixture.package_tags Fixture.location_tags
              Fixture.build_related_resource
              {| obj := Fixture.compressed_aip Fixture.as_location;
                 data := PDict [("origin_location", PStr "/api/v2/location/");
                                ("origin_path", PStr Fixture.compressed_name)];
                 request := Fixture.client_request "put" |}
              [("origin_location", PStr "/api/v2/location/");
               ("origin_path", PStr Fixture.compressed_name)]
              Fixture.world (NameError "NotFound") eq_refl eq_refl)
    as (w' & Hrun & Hrows & _ & Hfs & _).
  exists w'. repeat split; assumption.
Defined.

(** Extraction is attempted only when it is needed and possible: a file
    that exists under the package's path is streamed as it is, and a file
    that does not exist in a package of a type that cannot be extracted
    leads to streaming the empty path; in both cases [extract_file] is not
    called.  Otherwise the extracted file is streamed together with its
    temporary directory. *)
Theorem extract_file_only_when_needed
    (can_extract : list string) (full_path : Package.t -> string)
    (unquote : string -> string)
    (download_file_stream_from : string -> string -> M HttpResponse)
    (self : Resource Package.t) (request : HttpRequest)
    (bundle : Bundle Package.t) (kwargs : Kwargs) (w : World) (quoted : string)
    (Hparam : GET_get "relative_path_to_file" request = Some quoted) :
  let relative := unquote quoted in
  let local_path := os_path_join (full_path (obj bundle)) [relative] in
  (exists_on_disk local_path w = true ->
   forall extract_file,
     extract_file_request_func can_extract full_path extract_file unquote
       download_file_stream_from self request bundle kwargs w
     = download_file_stream_from local_path "" w) /\
  (exists_on_disk local_path w = false ->
   in_tuple String.eqb (Package.package_type (obj bundle)) can_extract = false ->
   forall extract_file,
     extract_file_request_func can_extract full_path extract_file unquote
       download_file_stream_from self request bundle kwargs w
     = download_file_stream_from "" "" w) /\
  (exists_on_disk local_path w = false ->
   in_tuple String.eqb (Package.package_type (obj bundle)) can_extract = true ->
   forall extract_file,
     extract_file_request_func can_extract full_path extract_file unquote
       download_file_stream_from self request bundle kwargs w
     = (found <- extract_file (obj bundle) relative ;;
        download_file_stream_from (fst found) (snd found)) w).
Proof.
  cbv zeta. unfold extract_file_request_func. rewrite Hparam.
  repeat split.
  - intros Hex extract_file. unfold bind. now rewrite Hex.
  - intros Hex Htype extract_file. unfold bind. now rewrite Hex, Htype.
  - intros Hex Htype extract_file. unfold bind. now rewrite Hex, Htype.
Qed.

Lemma extract_file_only_when_needed_witness :
  extract_file_request_func ["AIP"; "AIC"] Package_full_path
    (fun _ _ => raise (OtherException "extract_file"))
    (fun s => s)
    (fun path _ => download_file_stream (Some path))
    (PackageResource (Fixture.model_resource Package.t None))
    (Scenario.extract_request (Some "data/a.txt"))
    (build_bundle Scenario.stored_dip (PList [])
       (Scenario.extract_request (Some "data/a.txt")))
    (Fixture.detail (Package.uuid Scenario.stored_dip)) Scenario.two_packages
  = download_file_stream
      (Some "/var/archivematica/sharedDirectory/www/AIPsStore/0e7b/8b5a/4c1d/4e2f/9a3b/6c5d/4e3f/2a10/dip/data/a.txt")
      Scenario.two_packages.
Proof.
  exact (proj1 (@extract_file_only_when_needed ["AIP"; "AIC"]
                  Package_full_path (fun s => s)
                  (fun path _ => download_file_stream (Some path))
                  (PackageResource (Fixture.model_resource Package.t None))
                  (Scenario.extract_request (Some "data/a.txt"))
                  (build_bundle Scenario.stored_dip (PList [])
                     (Scenario.extract_request (Some "data/a.txt")))
                  (Fixture.detail (Package.uuid Scenario.stored_dip))
                  Scenario.two_packages "data/a.txt" eq_refl)
               eq_refl
               (fun _ _ => raise (OtherException "extract_file"))).
Defined.

(** A request for a file that does not say which one, having no
    relative_path_to_file parameter, ends in an [AttributeError]
    before the package is looked into. *)
Theorem extract_file_missing_parameter
    (can_extract : list string) (full_path : Package.t -> string)
    (extract_file : Package.t -> string -> M (string * string))
    (unquote : string -> string)
    (download_file_stream_from : string -> string -> M HttpResponse)
    (base : Resource Package.t) (request : HttpRequest) (kwargs : Kwargs)
    (w : World) (package : Package.t)
    (Hchecks : passes_checks (PackageResource base) request ["get"])
    (Hfound : objects_get (fun o => String.eqb (Package.uuid o) (kw_uuid kwargs))
                          (packages w) = Found package)
    (Hparam : forall v, ~ In ("relative_path_to_file", v) (GET request)) :
  extract_file_request can_extract full_path extract_file unquote
    download_file_stream_from (PackageResource base) request kwargs w
  = (Raise AttributeError, w).
Proof.
  unfold extract_file_request.
  rewrite custom_endpoint_passes with (o := package)
    by (assumption || reflexivity).
  unfold extract_file_request_func, GET_get.
  replace (filter _ (GET request)) with (@nil (string * string)); [reflexivity|].
  symmetry. induction (GET request) as [|[k v] l IH]; [reflexivity|].
  cbn [filter fst].
  destruct (String.eqb_spec k "relative_path_to_file") as [->|_].
  - exfalso. apply (Hparam v). now left.
  - apply IH. intros v' Hv'. apply (Hparam v'). now right.
Qed.

Lemma extract_file_missing_parameter_witness :
  extract_file_request ["AIP"; "AIC"] Package_full_path
    (fun _ _ => raise (OtherException "extract_file"))
    (fun s => s)
    (fun path _ => download_file_stream (Some path))
    (PackageResource (Fixture.model_resource Package.t None))
    (Scenario.extract_request None)
    (Fixture.detail (Package.uuid Fixture.stored_aip)) Fixture.stored_world
  = (Raise AttributeError, Fixture.stored_world).
Proof.
  refine (@extract_file_missing_parameter ["AIP"; "AIC"]
            Package_full_path
            (fun _ _ => raise (OtherException "extract_file"))
            (fun s => s)
            (fun path _ => download_file_stream (Some path))
            (Fixture.model_resource Package.t None)
            (Scenario.extract_request None)
            (Fixture.detail (Package.uuid Fixture.stored_aip))
            Fixture.stored_world Fixture.stored_aip _ eq_refl _).
  - repeat split.
  - intros v [].
Defined.

(** ** Spaces and their protocol-specific fields *)

Lemma dict_get_set (k k' : string) (v : pyval) (d : dict) :
  dict_get k (SpaceApi.dict_set k' v d)
  = if String.eqb k' k then Some v else dict_get k d.
Proof.
  induction d as [|[k0 v0] d IH]; cbn [SpaceApi.dict_set dict_get].
  - reflexivity.
  - destruct (String.eqb_spec k0 k') as [->|Hne]; cbn [dict_get].
    + now destruct (String.eqb k' k).
    + rewrite IH. destruct (String.eqb_spec k0 k) as [->|_]; [|reflexivity].
      apply String.eqb_neq in Hne. rewrite String.eqb_sym in Hne. now rewrite Hne.
Qed.

Lemma dict_set_keys (k : string) (v : pyval) (d : dict) (x : string) :
  In x (map fst (SpaceApi.dict_set k v d)) <-> x = k \/ In x (map fst d).
Proof.
  induction d as [|[k0 v0] d IH]; cbn [SpaceApi.dict_set map fst In].
  - intuition.
  - destruct (String.eqb_spec k0 k) as [->|Hne]; cbn [map fst In].
    + intuition.
    + rewrite IH. intuition.
Qed.

Lemma dict_set_nodup (k : string) (v : pyval) (d : dict) :
  NoDup (map fst d) -> NoDup (map fst (SpaceApi.dict_set k v d)).
Proof.
  induction d as [|[k0 v0] d IH]; cbn [SpaceApi.dict_set map fst]; intros H.
  - repeat constructor. intros [].
  - inversion H as [|? ? Hnotin Hnd]; subst.
    destruct (String.eqb_spec k0 k) as [->|Hne]; cbn [map fst].
    + now constructor.
    + constructor; [|now apply IH].
      rewrite dict_set_keys. intros [->|Hin]; [now apply Hne|now apply Hnotin].
Qed.

Lemma collect_spec (keys : list string) (data d : dict) :
  SpaceApi.collect keys data = Return d ->
  NoDup (map fst d) /\
  forall k, dict_get k d
            = if existsb (String.eqb k) keys then dict_get k data else None.
Proof.
  revert d. induction keys as [|key rest IH]; intros d H; cbn [SpaceApi.collect] in H.
  - injection H as <-. split; [constructor|reflexivity].
  - destruct (dict_get key data) as [v|] eqn:Hv; [|discriminate H].
    destruct (SpaceApi.collect rest data) as [d0|e]; [|discriminate H].
    injection H as <-. destruct (IH d0 eq_refl) as [Hnd Hget].
    split; [now apply dict_set_nodup|].
    intros k. rewrite dict_get_set, Hget. cbn [existsb].
    rewrite (String.eqb_sym k key).
    destruct (String.eqb_spec key k) as [->|_]; [exact (eq_sym Hv)|reflexivity].
Qed.

Lemma collect_present (keys : list string) (data : dict) :
  (forall k, In k keys -> dict_get k data <> None) ->
  exists d, SpaceApi.collect keys data = Return d.
Proof.
  induction keys as [|key rest IH]; intros H; cbn [SpaceApi.collect].
  - now eexists.
  - destruct (dict_get key data) as [v|] eqn:Hv;
      [|now destruct (H key (or_introl eq_refl))].
    destruct IH as [d ->]; [intros k Hk; apply H; now right|].
    now eexists.
Qed.

Lemma collect_missing (before after : list string) (k : string) (data : dict) :
  (forall k0, In k0 before -> dict_get k0 data <> None) ->
  dict_get k data = None ->
  SpaceApi.collect (before ++ k :: after) data = Raise (KeyError k).
Proof.
  intros Hbefore Hk. induction before as [|key rest IH]; cbn [app SpaceApi.collect].
  - now rewrite Hk.
  - destruct (dict_get key data) as [v|] eqn:Hv;
      [|now destruct (Hbefore key (or_introl eq_refl))].
    rewrite IH; [reflexivity|]. intros k0 Hk0. apply Hbefore. now right.
Qed.

(** Creating a space is refused with a [KeyError] before anything is
    created, when the body has no access_protocol, names a protocol that
    [PROTOCOL] does not list, or lacks one of the fields of its protocol;
    in the last case the error names the first field, in the order the
    protocol declares them, that the body does not hold.  The parent class
    is not reached, so neither a space nor a protocol row exists
    afterwards. *)
Theorem space_create_refused
    (PROTOCOL : list (string * SpaceApi.protocol))
    (data : dict) (st : SpaceApi.store) :
  (dict_get "access_protocol" data = None ->
   forall hydrate,
     SpaceApi.obj_create PROTOCOL hydrate data st
     = (Raise (KeyError "access_protocol"), st)) /\
  (forall name,
     dict_get "access_protocol" data = Some (PStr name) ->
     (forall p, ~ In (name, p) PROTOCOL) ->
     forall hydrate,
       SpaceApi.obj_create PROTOCOL hydrate data st = (Raise (KeyError name), st)) /\
  (forall name p before k after,
     dict_get "access_protocol" data = Some (PStr name) ->
     SpaceApi.PROTOCOL_get PROTOCOL (PStr name) = Return p ->
     SpaceApi.fields p = (before ++ k :: after)%list ->
     (forall k0, In k0 before -> dict_get k0 data <> None) ->
     dict_get k data = None ->
     forall hydrate,
       SpaceApi.obj_create PROTOCOL hydrate data st = (Raise (KeyError k), st)).
Proof.
  split; [|split].
  - intros Hnone hydrate. unfold SpaceApi.obj_create. now rewrite Hnone.
  - intros name Hname Hunknown hydrate. unfold SpaceApi.obj_create. rewrite Hname.
    unfold SpaceApi.PROTOCOL_get.
    replace (filter _ PROTOCOL) with (@nil (string * SpaceApi.protocol));
      [reflexivity|].
    symmetry. induction PROTOCOL as [|[n p] l IH]; [reflexivity|].
    cbn [filter fst]. destruct (String.eqb_spec n name) as [->|_].
    + exfalso. apply (Hunknown p). now left.
    + apply IH. intros q Hq. apply (Hunknown q). now right.
  - intros name p before k after Hname Hp Hfields Hbefore Hk hydrate.
    unfold SpaceApi.obj_create. rewrite Hname, Hp, Hfields.
    now rewrite (@collect_missing before after k data Hbefore Hk).
Qed.

Lemma space_create_refused_witness :
  SpaceApi.obj_create Scenario.PROTOCOL Scenario.hydrate
    [("access_protocol", PStr "S3"); ("path", PStr "");
     ("endpoint_url", PStr "http://minio:9000"); ("bucket", PStr "AIPStorage")]
    Scenario.empty_store
  = (Raise (KeyError "access_key_id"), Scenario.empty_store).
Proof.
  refine (proj2 (proj2 (space_create_refused Scenario.PROTOCOL
              [("access_protocol", PStr "S3"); ("path", PStr "");
               ("endpoint_url", PStr "http://minio:9000");
               ("bucket", PStr "AIPStorage")]
              Scenario.empty_store))
            "S3"
            {| SpaceApi.model := "S3";
               SpaceApi.fields := ["endpoint_url"; "access_key_id";
                                   "secret_access_key"; "region"; "bucket"] |}
            ["endpoint_url"] "access_key_id"
            ["secret_access_key"; "region"; "bucket"]
            eq_refl eq_refl eq_refl _ eq_refl Scenario.hydrate).
  intros k0 [<-|[]]. discriminate.
Defined.

Lemma existsb_eqb_in (k : string) (keys : list string) :
  existsb (String.eqb k) keys = true <-> In k keys.
Proof.
  rewrite existsb_exists. split.
  - intros (x & Hx & E). apply String.eqb_eq in E. now subst.
  - intros H. exists k. split; [exact H|apply String.eqb_refl].
Qed.

Lemma space_create_runs
    (PROTOCOL : list (string * SpaceApi.protocol))
    (hydrate : dict -> outcome SpaceApi.space)
    (data : dict) (st : SpaceApi.store) (name : string)
    (p : SpaceApi.protocol) (o : SpaceApi.space) :
  dict_get "access_protocol" data = Some (PStr name) ->
  SpaceApi.PROTOCOL_get PROTOCOL (PStr name) = Return p ->
  (forall k, In k (SpaceApi.fields p) -> dict_get k data <> None) ->
  hydrate data = Return o ->
  exists fields_dict,
    SpaceApi.collect (SpaceApi.fields p) data = Return fields_dict /\
    SpaceApi.obj_create PROTOCOL hydrate data st
    = (Return o,
       {| SpaceApi.spaces := SpaceApi.spaces st ++ [o];
          SpaceApi.protocol_rows :=
            SpaceApi.protocol_rows st ++
            [{| SpaceApi.row_model := SpaceApi.model p;
                SpaceApi.row_space := SpaceApi.uuid o;
                SpaceApi.row_fields := fields_dict |}] |}).
Proof.
  intros Hname Hp Hall Hhydrate.
  destruct (collect_present (SpaceApi.fields p) data Hall) as [d Hd].
  exists d. split; [exact Hd|].
  unfold SpaceApi.obj_create. now rewrite Hname, Hp, Hd, Hhydrate.
Qed.

(** A space created with every field of its protocol gets one protocol
    row, filed under the protocol's model and pointing at the new space,
    whose fields are exactly the fields the protocol declares, with the
    values of the body; whatever else the body holds is not copied. *)
Theorem space_create_exact_fields
    (PROTOCOL : list (string * SpaceApi.protocol))
    (hydrate : dict -> outcome SpaceApi.space)
    (data : dict) (st : SpaceApi.store) (name : string)
    (p : SpaceApi.protocol) (o : SpaceApi.space)
    (Hname : dict_get "access_protocol" data = Some (PStr name))
    (Hp : SpaceApi.PROTOCOL_get PROTOCOL (PStr name) = Return p)
    (Hall : forall k, In k (SpaceApi.fields p) -> dict_get k data <> None)
    (Hhydrate : hydrate data = Return o) :
  exists row,
    SpaceApi.obj_create PROTOCOL hydrate data st
    = (Return o,
       {| SpaceApi.spaces := SpaceApi.spaces st ++ [o];
          SpaceApi.protocol_rows := SpaceApi.protocol_rows st ++ [row] |}) /\
    SpaceApi.row_model row = SpaceApi.model p /\
    SpaceApi.row_space row = SpaceApi.uuid o /\
    (forall k, In k (map fst (SpaceApi.row_fields row)) <-> In k (SpaceApi.fields p)) /\
    (forall k, In k (SpaceApi.fields p) ->
               dict_get k (SpaceApi.row_fields row) = dict_get k data) /\
    NoDup (map fst (SpaceApi.row_fields row)).
Proof.
  destruct (space_create_runs PROTOCOL hydrate data st Hname Hp Hall Hhydrate)
    as (d & Hd & Hrun).
  destruct (collect_spec _ _ Hd) as [Hnd Hget].
  eexists. split; [exact Hrun|]. cbn [SpaceApi.row_model SpaceApi.row_space
    SpaceApi.row_fields].
  repeat split; try assumption.
  - intros Hin. apply existsb_eqb_in.
    destruct (existsb (String.eqb k) (SpaceApi.fields p)) eqn:E; [reflexivity|].
    exfalso. specialize (Hget k). rewrite E in Hget.
    apply in_map_iff in Hin. destruct Hin as ([k0 v] & <- & Hin).
    clear -Hget Hin. induction d as [|[k1 v1] d IH]; [contradiction|].
    cbn [dict_get fst] in *. destruct (String.eqb_spec k1 k0) as [->|Hne];
      [discriminate Hget|].
    destruct Hin as [Hin|Hin]; [injection Hin as -> _; now apply Hne|now apply IH].
  - intros Hin. specialize (Hget k).
    rewrite (proj2 (existsb_eqb_in k _) Hin) in Hget.
    destruct (dict_get k data) as [v|] eqn:Hv; [|now destruct (Hall k Hin)].
    clear -Hget. induction d as [|[k1 v1] d IH]; [discriminate Hget|].
    cbn [dict_get map fst In] in *.
    destruct (String.eqb_spec k1 k) as [->|_]; [now left|right; now apply IH].
  - intros k Hin. rewrite Hget. now rewrite (proj2 (existsb_eqb_in k _) Hin).
Qed.

Lemma space_create_exact_fields_witness :
  exists row,
    fst (SpaceApi.obj_create Scenario.PROTOCOL Scenario.hydrate Scenario.s3_space
           Scenario.empty_store)
    = Return {| SpaceApi.uuid := "6fb34c82-4222-425e-b0ea-30acfd31f52e";
                SpaceApi.access_protocol := "S3" |} /\
    SpaceApi.protocol_rows
      (snd (SpaceApi.obj_create Scenario.PROTOCOL Scenario.hydrate Scenario.s3_space
              Scenario.empty_store)) = [row] /\
    dict_get "bucket" (SpaceApi.row_fields row) = Some (PStr "AIPStorage") /\
    ~ In "staging_path" (map fst (SpaceApi.row_fields row)).
Proof.
  destruct (@space_create_exact_fields Scenario.PROTOCOL Scenario.hydrate
              Scenario.s3_space Scenario.empty_store "S3"
              {| SpaceApi.model := "S3";
                 SpaceApi.fields := ["endpoint_url"; "access_key_id";
                                     "secret_access_key"; "region"; "bucket"] |}
              {| SpaceApi.uuid := "6fb34c82-4222-425e-b0ea-30acfd31f52e";
                 SpaceApi.access_protocol := "S3" |}
              eq_refl eq_refl)
    as (row & Hrun & _ & _ & Hkeys & Hvals & _).
  - intros k [<-|[<-|[<-|[<-|[<-|[]]]]]]; discriminate.
  - reflexivity.
  - exists row. rewrite Hrun. cbn [fst snd SpaceApi.protocol_rows
      SpaceApi.spaces Scenario.empty_store app].
    repeat split.
    + rewrite Hvals; [reflexivity|]. cbn. tauto.
    + intros Hin. apply Hkeys in Hin. cbn in Hin.
      repeat (destruct Hin as [Hin|Hin]; [discriminate Hin|]). exact Hin.
Defined.





